(** * A library catalogue: the record store of [src/service.py] and the
      schemas of [src/schemas.py], embedded and verified.

    The Python program keeps a list of validated book records in memory,
    answers searches by linear scans followed by a sort on a tuple key, and
    flushes the whole list to a JSON document after each change.

    Layout of this development:
    - [PyStr]      Python [str] values as sequences of code points;
    - [PyRuntime]  the builtins of the interpreter and of pydantic that the
                   program calls but does not define;
    - [Constants], [Exceptions], [Schemas], [Service]  the source modules;
    - [Files]      the data file as bytes: UTF-8, the printer and the
                   scanner of the [json] module, [open];
    - [Main]       the commands of [src/main.py] that change the store;
    - [Fragment]   one concrete runtime (ASCII and basic Cyrillic) on which
                   the tests of the repository are replayed;
    - [Hellenic]   a second one (ASCII and Greek), with the final sigma;
    - the properties of the store. *)

From Stdlib Require Import List NArith ZArith Bool Ascii String Lia.
From Stdlib Require Import Permutation Sorted.
Import ListNotations.

(* ------------------------------------------------------------------ *)
(** ** Python strings *)

Module PyStr.

(** A [str] is a sequence of Unicode code points. *)
Definition pystr := list N.

(** Literals are written as Rocq strings, whose bytes are the UTF-8 encoding
    of the text; [utf8] decodes them back into code points. *)
Definition cont (b : N) : N := N.land b 63.

Fixpoint utf8_decode (bs : list N) : pystr :=
  match bs with
  | [] => []
  | b0 :: r0 =>
    if (b0 <? 128)%N then b0 :: utf8_decode r0
    else match r0 with
    | [] => [b0]
    | b1 :: r1 =>
      if (b0 <? 224)%N
      then (N.shiftl (N.land b0 31) 6 + cont b1)%N :: utf8_decode r1
      else match r1 with
      | [] => [b0; b1]
      | b2 :: r2 =>
        if (b0 <? 240)%N
        then (N.shiftl (N.land b0 15) 12 + N.shiftl (cont b1) 6 + cont b2)%N
             :: utf8_decode r2
        else match r2 with
        | [] => [b0; b1; b2]
        | b3 :: r3 =>
          (N.shiftl (N.land b0 7) 18 + N.shiftl (cont b1) 12
           + N.shiftl (cont b2) 6 + cont b3)%N :: utf8_decode r3
        end
      end
    end
  end.

Definition utf8 (s : string) : pystr :=
  utf8_decode (map N_of_ascii (list_ascii_of_string s)).

(** [a == b] on strings. *)
Fixpoint str_eqb (a b : pystr) : bool :=
  match a, b with
  | [], [] => true
  | x :: a', y :: b' => (x =? y)%N && str_eqb a' b'
  | _, _ => false
  end.

(** [a.startswith(b)]: the scan that the substring test repeats. *)
Fixpoint startswith (p s : pystr) : bool :=
  match p, s with
  | [], _ => true
  | _ :: _, [] => false
  | x :: p', y :: s' => (x =? y)%N && startswith p' s'
  end.

(** [needle in hay]: true when [needle] occurs at some offset of [hay]
    (the empty string occurs in every string). *)
Fixpoint contains (needle hay : pystr) : bool :=
  startswith needle hay ||
  match hay with
  | [] => false
  | _ :: hay' => contains needle hay'
  end.

(** [len(s)] counts code points. *)
Definition len (s : pystr) : Z := Z.of_nat (List.length s).

(** A code point that has a UTF-8 encoding: any but the surrogates
    U+D800..U+DFFF, which a Python [str] may hold on their own. *)
Definition scalar (c : N) : bool :=
  (c <? 0xD800)%N || ((0xDFFF <? c)%N && (c <=? 0x10FFFF)%N).

Definition encodable (s : pystr) : bool := forallb scalar s.

End PyStr.
Export PyStr.

(* ------------------------------------------------------------------ *)
(** ** Rich comparison

    [sorted] and [list.sort] compare keys with [<].  Strings compare
    lexicographically by code point, integers numerically and tuples
    lexicographically by component. *)

Class PyOrd (K : Type) := { cmp : K -> K -> comparison }.

(** [x < y] and [x <= y] as the interpreter decides them. *)
Definition py_lt {K} `{PyOrd K} (x y : K) : bool :=
  match cmp x y with Lt => true | _ => false end.

Definition py_le {K} `{PyOrd K} (x y : K) : bool :=
  match cmp x y with Gt => false | _ => true end.

Fixpoint str_cmp (a b : pystr) : comparison :=
  match a, b with
  | [], [] => Eq
  | [], _ :: _ => Lt
  | _ :: _, [] => Gt
  | x :: a', y :: b' =>
    match (x ?= y)%N with
    | Eq => str_cmp a' b'
    | c => c
    end
  end.

Definition pair_cmp {A B} `{PyOrd A} `{PyOrd B} (p q : A * B) : comparison :=
  match cmp (fst p) (fst q) with
  | Eq => cmp (snd p) (snd q)
  | c => c
  end.

(* ------------------------------------------------------------------ *)
(** ** Values that cross the boundary of the program

    Keyword arguments typed on the command line, the dictionary that
    [add_book] builds and the document that [json.load] returns are all
    plain Python values.  The JSON text itself is the [json] module's
    business: a file is modelled by the value it holds. *)

#[local] Set Warnings "-register-all".

Inductive pyval :=
| VNone
| VBool (b : bool)
| VInt (z : Z)
| VStr (s : pystr)
| VList (items : list pyval)
| VDict (kvs : list (pystr * pyval)).

(** [d[k]] on a dictionary written as a sequence of bindings: a later
    binding of a key replaces an earlier one. *)
Definition dict_get (k : pystr) (kvs : list (pystr * pyval)) : option pyval :=
  option_map snd (find (fun kv => str_eqb k (fst kv)) (rev kvs)).

(** ASCII decimal digits and the number a run of them denotes. *)
Definition is_digit (c : N) : bool := (48 <=? c)%N && (c <=? 57)%N.

Definition decimal (s : pystr) : Z :=
  fold_left (fun acc c => 10 * acc + (Z.of_N c - 48))%Z s 0%Z.

(** ** The runtime

    Builtins of CPython and of pydantic that the program calls.  They are
    parameters of the development; [PyRuntimeLaws] and [PyIntLaws] are the
    part of their documented behaviour that the properties below rely on.
    - [isalpha c], [isspace c]: [c.isalpha()], [c.isspace()] on a
      one-character string;
    - [lower s]: [s.lower()];
    - [int_of_str s]: [int(s)], [None] standing for [ValueError];
    - [lax_int v]: pydantic's coercion of an input to an [int] field. *)
Class PyRuntime := {
  isalpha : N -> bool;
  isspace : N -> bool;
  lower : pystr -> pystr;
  int_of_str : pystr -> option Z;
  lax_int : pyval -> option Z
}.

Class PyRuntimeLaws (RT : PyRuntime) : Prop := {
  isalpha_digit : forall c, is_digit c = true -> isalpha c = false;
  isspace_digit : forall c, is_digit c = true -> isspace c = false;
  lax_int_int : forall z, lax_int (VInt z) = Some z
}.

(** The interpreter converts between [int] and decimal text only up to a
    number of digits, 4300 unless it is configured otherwise
    ([sys.int_info.default_max_str_digits]); beyond it [int(s)] and
    [repr(n)] raise [ValueError]. *)
Definition max_str_digits : nat := 4300.

Class PyIntLaws (RT : PyRuntime) : Prop := {
  int_of_digits : forall s,
    s <> [] -> forallb is_digit s = true ->
    (List.length s <= max_str_digits)%nat ->
    int_of_str s = Some (decimal s)
}.

(* ------------------------------------------------------------------ *)
(** ** src/constants.py *)

Module Constants.

Inductive BookStatus := available | issued.

(** [BookStatus.x.value] *)
Definition value (s : BookStatus) : pystr :=
  match s with
  | available => utf8 "в наличии"
  | issued => utf8 "выдана"
  end.

(** [BookStatus(v)]: the member whose value is [v], if any. *)
Definition of_value (v : pystr) : option BookStatus :=
  if str_eqb v (value available) then Some available
  else if str_eqb v (value issued) then Some issued
  else None.

Definition status_eqb (a b : BookStatus) : bool :=
  match a, b with
  | available, available | issued, issued => true
  | _, _ => false
  end.

End Constants.
Export Constants.

(* ------------------------------------------------------------------ *)
(** ** src/exceptions.py, with the library exceptions the program lets
       through *)

Inductive exn :=
| ValidationError
| BookDoesNotExists (book_id : pystr)
| ValueError
| TypeError.

(** A call either raises or returns. *)
Definition result (A : Type) : Type := exn + A.

Definition raise {A} (e : exn) : result A := inl e.
Definition ok {A} (a : A) : result A := inr a.

Definition rbind {A B} (r : result A) (k : A -> result B) : result B :=
  match r with
  | inl e => inl e
  | inr a => k a
  end.

(** [[f(x) for x in l]], stopping at the first element on which [f] raises. *)
Fixpoint map_r {A B} (f : A -> result B) (l : list A) : result (list B) :=
  match l with
  | [] => ok []
  | x :: l' =>
    rbind (f x) (fun y => rbind (map_r f l') (fun ys => ok (y :: ys)))
  end.

(** [[x for x in l if c(x)]] where the condition may raise. *)
Fixpoint filter_r {A} (c : A -> result bool) (l : list A) : result (list A) :=
  match l with
  | [] => ok []
  | x :: l' =>
    rbind (c x) (fun keep =>
    rbind (filter_r c l') (fun xs => ok (if keep then x :: xs else xs)))
  end.

(* ------------------------------------------------------------------ *)
(** ** src/schemas.py *)

Module Schemas.
Section WithRuntime.
Context {RT : PyRuntime}.

(** [title: str = Field(max_length=50)].  A string field that carries a
    constraint is checked by pydantic's own string type, which takes no
    lone surrogate; a plain [str] field ([author], [id]) takes the Python
    object as it is. *)
Definition max_length : Z := 50.

Definition validate_title (v : pyval) : option pystr :=
  match v with
  | VStr s =>
    if encodable s && (len s <=? max_length)%Z then Some s else None
  | _ => None
  end.

(** The character test of [validate_author]:
    [c.isalpha() or c.isspace() or c in ".,-"]. *)
Definition author_char (c : N) : bool :=
  isalpha c || isspace c || contains [c] (utf8 ".,-").

(** [BaseBookSchema.validate_author]; [None] is the [ValueError] that
    pydantic turns into a validation error. *)
Definition validate_author (value : pystr) : option pystr :=
  if negb (forallb author_char value) then None
  else if contains (utf8 "  ") value || contains (utf8 "..") value
          || contains (utf8 ",,") value then None
  else Some value.

Definition validate_author_field (v : pyval) : option pystr :=
  match v with
  | VStr s => validate_author s
  | _ => None
  end.

(** [year: int = Field(ge=0)] *)
Definition validate_year (v : pyval) : option Z :=
  match lax_int v with
  | Some z => if (0 <=? z)%Z then Some z else None
  | None => None
  end.

End WithRuntime.
End Schemas.
Export Schemas.

Module BookCreate.
Record t := { title : pystr; author : pystr; year : Z }.

Section WithRuntime.
Context {RT : PyRuntime}.

(** [BookCreate(title=..., author=..., year=...)]: every field is
    validated, and one failure is enough for [ValidationError]. *)
Definition init (title author year : pyval) : result t :=
  match validate_title title, validate_author_field author,
        validate_year year with
  | Some t', Some a, Some y => ok {| title := t'; author := a; year := y |}
  | _, _, _ => raise ValidationError
  end.

End WithRuntime.
End BookCreate.

Module BookRead.
Record t := {
  title : pystr;
  author : pystr;
  year : Z;
  id : pystr;
  status : BookStatus
}.

(** Equality of two models: equality of their fields. *)
Definition eqb (a b : t) : bool :=
  str_eqb (title a) (title b) && str_eqb (author a) (author b)
  && (year a =? year b)%Z && str_eqb (id a) (id b)
  && status_eqb (status a) (status b).

(** [book.status = v] *)
Definition set_status (b : t) (s : BookStatus) : t :=
  {| title := title b; author := author b; year := year b;
     id := id b; status := s |}.

Definition validate_id (v : pyval) : option pystr :=
  match v with
  | VStr s => Some s
  | _ => None
  end.

Definition validate_status (v : pyval) : option BookStatus :=
  match v with
  | VStr s => of_value s
  | _ => None
  end.

(** [obj.model_dump(exclude_none=True)], as the encoder writes it: no
    field of a record is [None], and the status goes out as its value. *)
Definition model_dump (b : t) : pyval :=
  VDict [ (utf8 "title", VStr (title b));
          (utf8 "author", VStr (author b));
          (utf8 "year", VInt (year b));
          (utf8 "id", VStr (id b));
          (utf8 "status", VStr (value (status b))) ].

Section WithRuntime.
Context {RT : PyRuntime}.

Definition field {A} (validate : pyval -> option A) (k : string)
    (kvs : list (pystr * pyval)) : option A :=
  match dict_get (utf8 k) kvs with
  | Some v => validate v
  | None => None
  end.

(** [BookRead.model_validate(obj)]: the five fields are read from a
    dictionary and validated; a missing or malformed field, or an input
    that is no dictionary, is a [ValidationError].  Keys that are no field
    of the model are ignored. *)
Definition model_validate (obj : pyval) : result t :=
  match obj with
  | VDict kvs =>
    match field validate_title "title" kvs,
          field validate_author_field "author" kvs,
          field validate_year "year" kvs,
          field validate_id "id" kvs,
          field validate_status "status" kvs with
    | Some t', Some a, Some y, Some i, Some s =>
      ok {| title := t'; author := a; year := y; id := i; status := s |}
    | _, _, _, _, _ => raise ValidationError
    end
  | _ => raise ValidationError
  end.

End WithRuntime.
End BookRead.

(* ------------------------------------------------------------------ *)
(** ** The builtins that [src/service.py] uses on lists and numbers *)

Section Builtins.
Context {RT : PyRuntime}.

(** [int(x)] *)
Definition py_int (x : pyval) : result Z :=
  match x with
  | VInt z => ok z
  | VBool b => ok (if b then 1 else 0)%Z
  | VStr s =>
    match int_of_str s with
    | Some z => ok z
    | None => raise ValueError
    end
  | _ => raise TypeError
  end.

(** [for x in obj]: the items that iterating a loaded document yields. *)
Definition py_iter (obj : pyval) : result (list pyval) :=
  match obj with
  | VList items => ok items
  | VDict kvs => ok (map (fun kv => VStr (fst kv)) kvs)
  | VStr s => ok (map (fun c => VStr [c]) s)
  | _ => raise TypeError
  end.

End Builtins.

(** [sorted(l, key=key)] and [l.sort(key=key)]: a stable sort that compares
    keys with [<].  An element goes in front of the first one that is not
    smaller than it, so equal keys keep the order of the input. *)
Fixpoint insert_by {A K} `{PyOrd K} (key : A -> K) (x : A) (l : list A)
    : list A :=
  match l with
  | [] => [x]
  | y :: l' =>
    if py_lt (key y) (key x) then y :: insert_by key x l' else x :: y :: l'
  end.

Definition sorted {A K} `{PyOrd K} (key : A -> K) (l : list A) : list A :=
  fold_right (insert_by key) [] l.

(** [l.remove(x)]: the first item equal to [x] goes; [None] is the
    [ValueError] of a list that holds no such item. *)
Fixpoint list_remove {A} (eqb : A -> A -> bool) (x : A) (l : list A)
    : option (list A) :=
  match l with
  | [] => None
  | y :: l' =>
    if eqb y x then Some l' else option_map (cons y) (list_remove eqb x l')
  end.

(** [uuid.uuid4()] draws sixteen random bytes and stamps the version and
    variant bits on them; [rnd] is the draw. *)
Definition uuid4 (rnd : N) : N :=
  let int := (rnd mod 2 ^ 128)%N in
  let int := N.ldiff int (N.shiftl 0xc000 48) in
  let int := N.lor int (N.shiftl 0x8000 48) in
  let int := N.ldiff int (N.shiftl 0xf000 64) in
  N.lor int (N.shiftl 4 76).

Definition hex_digit (d : N) : N :=
  if (d <? 10)%N then (48 + d)%N else (87 + d)%N.

(** ['%032x' % n] *)
Definition hex32 (n : N) : pystr :=
  map (fun i => hex_digit (N.land (N.shiftr n (4 * N.of_nat (31 - i))) 15))
      (seq 0 32).

(** [str(u)] for a UUID [u]: the hex digits in groups of 8-4-4-4-12. *)
Definition uuid_str (n : N) : pystr :=
  let hex := hex32 n in
  firstn 8 hex ++ utf8 "-" ++ firstn 4 (skipn 8 hex) ++ utf8 "-"
  ++ firstn 4 (skipn 12 hex) ++ utf8 "-" ++ firstn 4 (skipn 16 hex)
  ++ utf8 "-" ++ skipn 20 hex.

(** The keys the program sorts by: strings, integers and tuples of them. *)
#[export] Instance str_ord : PyOrd pystr := {| cmp := str_cmp |}.
#[export] Instance int_ord : PyOrd Z := {| cmp := Z.compare |}.
#[export] Instance pair_ord {A B} `{PyOrd A} `{PyOrd B} : PyOrd (A * B) :=
  {| cmp := pair_cmp |}.

(* ------------------------------------------------------------------ *)
(** ** src/service.py *)

Module Service.

(** The attributes of a [LibraryService] object. *)
Record LibraryService := {
  file_name : pystr;
  books : list BookRead.t
}.

(** The files of the machine: a path holds a document or does not exist. *)
Definition disk := pystr -> option pyval.

Definition write (path : pystr) (doc : pyval) (d : disk) : disk :=
  fun p => if str_eqb p path then Some doc else d p.

(** What a method can touch: its object and the files. *)
Record world := { self : LibraryService; fs : disk }.

(** A method call runs to an exception or a value, and leaves a world. *)
Definition M (A : Type) : Type := world -> result A * world.

Definition ret {A} (a : A) : M A := fun w => (ok a, w).

Definition throw {A} (e : exn) : M A := fun w => (raise e, w).

Definition bind {A B} (m : M A) (k : A -> M B) : M B :=
  fun w =>
    match m w with
    | (inl e, w') => (inl e, w')
    | (inr a, w') => k a w'
    end.

Definition lift {A} (r : result A) : M A := fun w => (r, w).

Definition get_books : M (list BookRead.t) :=
  fun w => (ok (books (self w)), w).

Definition set_books (bs : list BookRead.t) : M unit :=
  fun w => (ok tt, {| self := {| file_name := file_name (self w); books := bs |};
                      fs := fs w |}).

Definition when (c : bool) (m : M unit) : M unit := if c then m else ret tt.

Notation "x <- m ;; k" := (bind m (fun x => k))
  (at level 61, m at next level, right associativity).
Notation "m ;;; k" := (bind m (fun _ => k))
  (at level 61, right associativity).

Section WithRuntime.
Context {RT : PyRuntime}.

(** [LibraryService._load_data] *)
Definition _load_data (d : disk) (file_name : pystr)
    : result (list BookRead.t) :=
  match d file_name with
  | Some doc => rbind (py_iter doc) (map_r BookRead.model_validate)
  | None => ok []
  end.

(** [LibraryService.__init__] *)
Definition init (d : disk) (file_name : pystr) : result LibraryService :=
  rbind (_load_data d file_name) (fun bs =>
  ok {| file_name := file_name; books := bs |}).

(** [LibraryService.save_data]: the whole list replaces the document. *)
Definition save_data : M unit :=
  fun w =>
    (ok tt,
     {| self := self w;
        fs := write (file_name (self w))
                    (VList (map BookRead.model_dump (books (self w))))
                    (fs w) |}).

(** [LibraryService.add_book]; [rnd] is the draw of [uuid.uuid4()]. *)
Definition add_book (data : BookCreate.t) (need_save : bool) (rnd : N)
    : M BookRead.t :=
  let new_book :=
    VDict [ (utf8 "id", VStr (uuid_str (uuid4 rnd)));
            (utf8 "title", VStr (BookCreate.title data));
            (utf8 "author", VStr (BookCreate.author data));
            (utf8 "year", VInt (BookCreate.year data));
            (utf8 "status", VStr (value available)) ] in
  validated_book <- lift (BookRead.model_validate new_book) ;;
  bs <- get_books ;;
  set_books (bs ++ [validated_book]) ;;;
  when need_save save_data ;;;
  ret validated_book.

(** [add_book(BookCreate(title=..., author=..., year=...))], the call of
    the [add] command and of the tests. *)
Definition create (title author year : pyval) (need_save : bool) (rnd : N)
    : M BookRead.t :=
  data <- lift (BookCreate.init title author year) ;;
  add_book data need_save rnd.

(** [LibraryService.list_books] *)
Definition list_books (self : LibraryService) : list BookRead.t :=
  sorted (fun x => (BookRead.title x, BookRead.author x, BookRead.id x))
         (books self).

(** [LibraryService.find_books_by_name] *)
Definition find_books_by_name (self : LibraryService) (name : pystr)
    : list BookRead.t :=
  let books :=
    filter (fun book => contains (lower name) (lower (BookRead.title book)))
           (books self) in
  sorted (fun x => (BookRead.title x, BookRead.author x, BookRead.year x,
                    BookRead.id x)) books.

(** [LibraryService.find_books_by_author] *)
Definition find_books_by_author (self : LibraryService) (author : pystr)
    : list BookRead.t :=
  let books :=
    filter (fun book => contains (lower author) (lower (BookRead.author book)))
           (books self) in
  sorted (fun x => (BookRead.author x, BookRead.title x, BookRead.year x,
                    BookRead.id x)) books.

(** [LibraryService.find_books_by_year]: [int(year)] is evaluated once per
    book, so it raises only when there is a book to compare with. *)
Definition find_books_by_year (self : LibraryService) (year : pyval)
    : result (list BookRead.t) :=
  rbind
    (filter_r (fun book =>
       rbind (py_int year) (fun y => ok (y =? BookRead.year book)%Z))
       (books self))
    (fun books =>
       ok (sorted (fun x => (BookRead.year x, BookRead.author x,
                             BookRead.title x, BookRead.id x)) books)).

(** [LibraryService.find_book_by_id] *)
Definition find_book_by_id (self : LibraryService) (book_id : pystr)
    : option BookRead.t :=
  find (fun book => str_eqb (lower book_id) (lower (BookRead.id book)))
       (books self).

(** [LibraryService.delete_book] *)
Definition delete_book (book_id : pystr) (need_save : bool) : M unit :=
  fun w =>
    match find_book_by_id (self w) book_id with
    | None => throw (BookDoesNotExists book_id) w
    | Some book =>
      match list_remove BookRead.eqb book (books (self w)) with
      | None => throw ValueError w
      | Some bs => (set_books bs ;;; when need_save save_data) w
      end
    end.

(** The loop of [update_status]: the first book whose id is [book_id]
    gets the status; [None] when the loop runs to its end. *)
Fixpoint assign_status (book_id : pystr) (status : BookStatus)
    (bs : list BookRead.t) : option (list BookRead.t) :=
  match bs with
  | [] => None
  | book :: bs' =>
    if str_eqb (BookRead.id book) book_id
    then Some (BookRead.set_status book status :: bs')
    else option_map (cons book) (assign_status book_id status bs')
  end.

(** [LibraryService.update_status] *)
Definition update_status (book_id : pystr) (status : BookStatus)
    (need_save : bool) : M unit :=
  bs <- get_books ;;
  match assign_status book_id status bs with
  | Some bs' => set_books bs' ;;; when need_save save_data
  | None => throw (BookDoesNotExists book_id)
  end.

End WithRuntime.
End Service.
Export Service.

(* ------------------------------------------------------------------ *)
(** ** The data file as bytes

    [save_data] and [_load_data] above take a file for the document it
    holds.  This module goes one level down, to what [open], [json.dump]
    and [json.load] do with the bytes of the file: the text is encoded as
    UTF-8 and decoded strictly, the document is printed with
    [ensure_ascii=False] and [indent=4] in the pieces that the encoder of
    the [json] module yields, and it is read back by the scanner of that
    module.  Opening can fail, a piece of text can fail to encode, and a
    number can be too long to print; each of them leaves the file as the
    source leaves it.  The device is taken to accept every byte written
    to a file that is open. *)

Module Files.

(** *** UTF-8 *)

(** [c.encode('utf-8')] for one character; [None] is the
    [UnicodeEncodeError] raised on a surrogate. *)
Definition encode_char (c : N) : option (list N) :=
  if (c <? 0x80)%N then Some [c]
  else if (c <? 0x800)%N then Some [0xC0 + c / 64; 0x80 + c mod 64]%N
  else if (c <? 0x10000)%N then
    if (0xD800 <=? c)%N && (c <=? 0xDFFF)%N then None
    else Some [0xE0 + c / 4096; 0x80 + (c / 64) mod 64; 0x80 + c mod 64]%N
  else if (c <=? 0x10FFFF)%N then
    Some [0xF0 + c / 262144; 0x80 + (c / 4096) mod 64;
          0x80 + (c / 64) mod 64; 0x80 + c mod 64]%N
  else None.

Fixpoint encode (s : pystr) : option (list N) :=
  match s with
  | [] => Some []
  | c :: r =>
    match encode_char c, encode r with
    | Some b, Some bs => Some (b ++ bs)
    | _, _ => None
    end
  end.

Definition continuation (b : N) : bool := (0x80 <=? b)%N && (b <? 0xC0)%N.

(** [bs.decode('utf-8')]; [None] is the [UnicodeDecodeError] raised on a
    stray or missing continuation byte, on an overlong form, on an encoded
    surrogate and on a value past U+10FFFF. *)
Fixpoint decode (bs : list N) : option pystr :=
  match bs with
  | [] => Some []
  | b0 :: r0 =>
    if (b0 <? 0x80)%N then option_map (cons b0) (decode r0)
    else if (b0 <? 0xC2)%N then None
    else if (b0 <? 0xE0)%N then
      match r0 with
      | b1 :: r1 =>
        if continuation b1
        then option_map (cons ((b0 - 0xC0) * 64 + (b1 - 0x80))%N) (decode r1)
        else None
      | _ => None
      end
    else if (b0 <? 0xF0)%N then
      match r0 with
      | b1 :: b2 :: r2 =>
        let c := ((b0 - 0xE0) * 4096 + (b1 - 0x80) * 64 + (b2 - 0x80))%N in
        if continuation b1 && continuation b2 && (0x800 <=? c)%N
           && negb ((0xD800 <=? c)%N && (c <=? 0xDFFF)%N)
        then option_map (cons c) (decode r2)
        else None
      | _ => None
      end
    else if (b0 <? 0xF5)%N then
      match r0 with
      | b1 :: b2 :: b3 :: r3 =>
        let c := ((b0 - 0xF0) * 262144 + (b1 - 0x80) * 4096
                  + (b2 - 0x80) * 64 + (b3 - 0x80))%N in
        if continuation b1 && continuation b2 && continuation b3
           && (0x10000 <=? c)%N && (c <=? 0x10FFFF)%N
        then option_map (cons c) (decode r3)
        else None
      | _ => None
      end
    else None
  end.

(** Reading in text mode: a carriage return, and a line feed that follows
    one, come out as a single line feed. *)
Fixpoint universal_newlines (after_cr : bool) (s : pystr) : pystr :=
  match s with
  | [] => []
  | c :: r =>
    if (c =? 13)%N then 10%N :: universal_newlines true r
    else if (c =? 10)%N && after_cr then universal_newlines false r
    else c :: universal_newlines false r
  end.

(** *** json.encoder *)

(** What a generator hands over next: a piece of text, or the exception it
    raises instead. *)
Definition chunk := result pystr.

(** [encode_basestring]: the string between quotes, with the quote, the
    backslash and the characters below the space written as escapes, and
    every other character as it is. *)
Definition escape (c : N) : pystr :=
  if (c =? 34)%N then [92; 34]%N
  else if (c =? 92)%N then [92; 92]%N
  else if (c =? 10)%N then [92; 110]%N
  else if (c =? 13)%N then [92; 114]%N
  else if (c =? 9)%N then [92; 116]%N
  else if (c =? 8)%N then [92; 98]%N
  else if (c =? 12)%N then [92; 102]%N
  else if (c <? 32)%N
       then [92; 117; 48; 48; hex_digit (c / 16); hex_digit (c mod 16)]%N
  else [c].

Definition encode_basestring (s : pystr) : pystr :=
  34%N :: flat_map escape s ++ [34%N].

(** The decimal digits of a natural number, the last digit first into
    [acc]. *)
Fixpoint digits_of (fuel : nat) (n : N) (acc : pystr) : pystr :=
  match fuel with
  | O => acc
  | S fuel' =>
    if (n <? 10)%N then (48 + n)%N :: acc
    else digits_of fuel' (n / 10) ((48 + n mod 10)%N :: acc)
  end.

Definition decimal_digits (n : N) : pystr :=
  digits_of (S (N.to_nat (N.log2 n))) n [].

(** [int.__repr__]: [ValueError] when the number has more digits than the
    interpreter converts. *)
Definition int_repr (z : Z) : chunk :=
  let ds := decimal_digits (Z.abs_N z) in
  if (max_str_digits <? List.length ds)%nat then raise ValueError
  else ok (if (z <? 0)%Z then 45%N :: ds else ds).

(** The text of a value that is no container. *)
Definition atom (o : pyval) : option chunk :=
  match o with
  | VNone => Some (ok (utf8 "null"))
  | VBool true => Some (ok (utf8 "true"))
  | VBool false => Some (ok (utf8 "false"))
  | VInt z => Some (int_repr z)
  | VStr s => Some (ok (encode_basestring s))
  | VList _ | VDict _ => None
  end.

(** ['\n' + ' ' * (4 * level)] *)
Definition newline_indent (level : nat) : pystr :=
  10%N :: repeat 32%N (4 * level).

Definition then_text (buf : pystr) (c : chunk) : chunk :=
  match c with
  | inl e => inl e
  | inr text => inr (buf ++ text)
  end.

Section Containers.
(** The pieces of a container nested in the one at hand, and the line
    break between the items of the one at hand. *)
Variable nested : pyval -> list chunk.
Variable separator : pystr.

(** The loop of [_iterencode_list]: an item that is no container comes in
    one piece with what precedes it. *)
Fixpoint list_items (buf : pystr) (lst : list pyval) : list chunk :=
  match lst with
  | [] => []
  | value :: rest =>
    match atom value with
    | Some c => [then_text buf c]
    | None => ok buf :: nested value
    end ++ list_items (44%N :: separator) rest
  end.

(** The loop of [_iterencode_dict]. *)
Fixpoint dict_items (first : bool) (items : list (pystr * pyval))
    : list chunk :=
  match items with
  | [] => []
  | (key, value) :: rest =>
    (if first then [] else [ok (44%N :: separator)])
    ++ [ok (encode_basestring key); ok (utf8 ": ")]
    ++ match atom value with
       | Some c => [c]
       | None => nested value
       end
    ++ dict_items false rest
  end.

End Containers.

(** [JSONEncoder(ensure_ascii=False, indent=4).iterencode(o)] at a nesting
    level: the pieces in the order they are yielded, up to the first
    exception. *)
Fixpoint iterencode (level : nat) (o : pyval) : list chunk :=
  match o with
  | VList [] => [ok (utf8 "[]")]
  | VList lst =>
    list_items (iterencode (S level)) (newline_indent (S level))
               (91%N :: newline_indent (S level)) lst
    ++ [ok (newline_indent level); ok (utf8 "]")]
  | VDict [] => [ok (utf8 "{}")]
  | VDict items =>
    [ok (utf8 "{"); ok (newline_indent (S level))]
    ++ dict_items (iterencode (S level)) (newline_indent (S level)) true items
    ++ [ok (newline_indent level); ok (utf8 "}")]
  | VNone => [ok (utf8 "null")]
  | VBool true => [ok (utf8 "true")]
  | VBool false => [ok (utf8 "false")]
  | VInt z => [int_repr z]
  | VStr s => [ok (encode_basestring s)]
  end.

(** *** json.decoder *)

(** How a scan ends: with a value, with [JSONDecodeError], with the
    [ValueError] of a number of too many digits, at a number that is no
    integer (the values here have none), or out of steps. *)
Inductive scan (A : Type) :=
| Found (a : A)
| Malformed
| Oversized
| Inexact
| Unfinished.
Arguments Found {A} a.
Arguments Malformed {A}.
Arguments Oversized {A}.
Arguments Inexact {A}.
Arguments Unfinished {A}.

Definition and_then {A B} (s : scan A) (k : A -> scan B) : scan B :=
  match s with
  | Found a => k a
  | Malformed => Malformed
  | Oversized => Oversized
  | Inexact => Inexact
  | Unfinished => Unfinished
  end.

Definition is_ws (c : N) : bool :=
  (c =? 32)%N || (c =? 9)%N || (c =? 10)%N || (c =? 13)%N.

Fixpoint skip_ws (s : pystr) : pystr :=
  match s with
  | c :: r => if is_ws c then skip_ws r else s
  | [] => []
  end.

Definition hex_value (c : N) : option N :=
  if (48 <=? c)%N && (c <=? 57)%N then Some (c - 48)%N
  else if (97 <=? c)%N && (c <=? 102)%N then Some (c - 87)%N
  else if (65 <=? c)%N && (c <=? 70)%N then Some (c - 55)%N
  else None.

Definition hex4 (a b c d : N) : option N :=
  match hex_value a, hex_value b, hex_value c, hex_value d with
  | Some x, Some y, Some z, Some w => Some (((x * 16 + y) * 16 + z) * 16 + w)%N
  | _, _, _, _ => None
  end.

(** The character that follows a backslash, [u] apart. *)
Definition unescape (c : N) : option N :=
  if (c =? 34)%N then Some 34%N
  else if (c =? 92)%N then Some 92%N
  else if (c =? 47)%N then Some 47%N
  else if (c =? 98)%N then Some 8%N
  else if (c =? 102)%N then Some 12%N
  else if (c =? 110)%N then Some 10%N
  else if (c =? 114)%N then Some 13%N
  else if (c =? 116)%N then Some 9%N
  else None.

Definition high_surrogate (c : N) : bool := (0xD800 <=? c)%N && (c <=? 0xDBFF)%N.
Definition low_surrogate (c : N) : bool := (0xDC00 <=? c)%N && (c <=? 0xDFFF)%N.

Definition join_surrogates (hi lo : N) : N :=
  (0x10000 + (hi - 0xD800) * 1024 + (lo - 0xDC00))%N.

Definition more {A} (c : N) (r : option (pystr * A)) : option (pystr * A) :=
  match r with
  | Some (text, rest) => Some (c :: text, rest)
  | None => None
  end.

(** [scanstring] in strict mode, from behind the opening quote: the text
    up to the closing quote and what follows it.  An escaped high
    surrogate joins an escaped low surrogate that follows it; any other
    escaped surrogate stays on its own. *)
Fixpoint scanstring (s : pystr) : option (pystr * pystr) :=
  match s with
  | [] => None
  | c :: r =>
    if (c =? 34)%N then Some ([], r)
    else if (c =? 92)%N then
      match r with
      | [] => None
      | e :: r1 =>
        if (e =? 117)%N then
          match r1 with
          | h1 :: h2 :: h3 :: h4 :: ((_ :: _) as r2) =>
            match hex4 h1 h2 h3 h4 with
            | None => None
            | Some hi =>
              if high_surrogate hi then
                match r2 with
                | b :: u :: l1 :: l2 :: l3 :: l4 :: ((_ :: _) as r3) =>
                  if (b =? 92)%N && (u =? 117)%N then
                    match hex4 l1 l2 l3 l4 with
                    | None => None
                    | Some lo =>
                      if low_surrogate lo
                      then more (join_surrogates hi lo) (scanstring r3)
                      else more hi (scanstring r2)
                    end
                  else more hi (scanstring r2)
                | _ => more hi (scanstring r2)
                end
              else more hi (scanstring r2)
            end
          | _ => None
          end
        else
          match unescape e with
          | Some c' => more c' (scanstring r1)
          | None => None
          end
      end
    else if (c <? 32)%N then None
    else more c (scanstring r)
  end.

(** The digits at the front of a text, and the rest. *)
Fixpoint span_digits (s : pystr) : pystr * pystr :=
  match s with
  | c :: r =>
    if is_digit c
    then let (ds, rest) := span_digits r in (c :: ds, rest)
    else ([], s)
  | [] => ([], [])
  end.

Definition starts_with_digit (s : pystr) : bool :=
  match s with
  | c :: _ => is_digit c
  | [] => false
  end.

(** Whether a fraction, or else an exponent, follows the integer part. *)
Definition continues_as_float (s : pystr) : bool :=
  match s with
  | c :: r =>
    if (c =? 46)%N then starts_with_digit r
    else if (c =? 101)%N || (c =? 69)%N then
      match r with
      | [] => false
      | sign :: r' =>
        if ((sign =? 45)%N || (sign =? 43)%N)
           && match r' with [] => false | _ :: _ => true end
        then starts_with_digit r'
        else starts_with_digit r
      end
    else false
  | [] => false
  end.

(** The number at the front of a text: an optional minus sign, then a zero
    or a run of digits that starts with none. *)
Definition match_number (s : pystr) : scan (Z * pystr) :=
  let (negative, body) :=
    match s with
    | c :: r => if (c =? 45)%N then (true, r) else (false, s)
    | [] => (false, [])
    end in
  match body with
  | [] => Malformed
  | c :: r =>
    let (ds, rest) :=
      if (49 <=? c)%N && (c <=? 57)%N
      then let (ds, rest) := span_digits r in (c :: ds, rest)
      else if (c =? 48)%N then ([c], r)
      else ([], body) in
    match ds with
    | [] => Malformed
    | _ :: _ =>
      if continues_as_float rest then Inexact
      else if (max_str_digits <? List.length ds)%nat then Oversized
      else Found (if negative then (- decimal ds)%Z else decimal ds, rest)
    end
  end.

(** [d[key] = value] *)
Fixpoint dict_set (key : pystr) (value : pyval) (d : list (pystr * pyval))
    : list (pystr * pyval) :=
  match d with
  | [] => [(key, value)]
  | (k, v) :: r =>
    if str_eqb k key then (k, value) :: r else (k, v) :: dict_set key value r
  end.

Definition dict_of (pairs : list (pystr * pyval)) : list (pystr * pyval) :=
  fold_left (fun d kv => dict_set (fst kv) (snd kv) d) pairs [].

(** [scan_once] and the loops of the array and of the object, the latter
    two from the first item on.  [fuel] bounds the calls. *)
Fixpoint scan_once (fuel : nat) (s : pystr) : scan (pyval * pystr) :=
  match fuel with
  | O => Unfinished
  | S fuel' =>
    match s with
    | [] => Malformed
    | c :: r =>
      if (c =? 34)%N then
        match scanstring r with
        | Some (text, rest) => Found (VStr text, rest)
        | None => Malformed
        end
      else if (c =? 123)%N then
        match skip_ws r with
        | c' :: r' =>
          if (c' =? 125)%N then Found (VDict [], r')
          else and_then (object_items fuel' (c' :: r')) (fun found =>
               Found (VDict (dict_of (fst found)), snd found))
        | [] => Malformed
        end
      else if (c =? 91)%N then
        match skip_ws r with
        | c' :: r' =>
          if (c' =? 93)%N then Found (VList [], r')
          else and_then (array_items fuel' (c' :: r')) (fun found =>
               Found (VList (fst found), snd found))
        | [] => Malformed
        end
      else if startswith (utf8 "null") s then Found (VNone, skipn 4 s)
      else if startswith (utf8 "true") s then Found (VBool true, skipn 4 s)
      else if startswith (utf8 "false") s then Found (VBool false, skipn 5 s)
      else if startswith (utf8 "NaN") s || startswith (utf8 "Infinity") s
              || startswith (utf8 "-Infinity") s then Inexact
      else and_then (match_number s) (fun found =>
           Found (VInt (fst found), snd found))
    end
  end

with array_items (fuel : nat) (s : pystr) : scan (list pyval * pystr) :=
  match fuel with
  | O => Unfinished
  | S fuel' =>
    and_then (scan_once fuel' s) (fun found =>
    match skip_ws (snd found) with
    | c :: r =>
      if (c =? 93)%N then Found ([fst found], r)
      else if (c =? 44)%N then
        and_then (array_items fuel' (skip_ws r)) (fun more =>
        Found (fst found :: fst more, snd more))
      else Malformed
    | [] => Malformed
    end)
  end

with object_items (fuel : nat) (s : pystr)
    : scan (list (pystr * pyval) * pystr) :=
  match fuel with
  | O => Unfinished
  | S fuel' =>
    match s with
    | c :: r =>
      if (c =? 34)%N then
        match scanstring r with
        | None => Malformed
        | Some (key, rest) =>
          match skip_ws rest with
          | c' :: r' =>
            if (c' =? 58)%N then
              and_then (scan_once fuel' (skip_ws r')) (fun found =>
              match skip_ws (snd found) with
              | c'' :: r'' =>
                if (c'' =? 125)%N then Found ([(key, fst found)], r'')
                else if (c'' =? 44)%N then
                  and_then (object_items fuel' (skip_ws r'')) (fun more =>
                  Found ((key, fst found) :: fst more, snd more))
                else Malformed
              | [] => Malformed
              end)
            else Malformed
          | [] => Malformed
          end
        end
      else Malformed
    | [] => Malformed
    end
  end.

(** [json.loads(s)]: one value, blanks around it allowed, nothing else. *)
Definition loads (s : pystr) : scan pyval :=
  if startswith [0xFEFF%N] s then Malformed
  else
    and_then (scan_once (2 * List.length s + 1) (skip_ws s)) (fun found =>
    match skip_ws (snd found) with
    | [] => Found (fst found)
    | _ :: _ => Malformed
    end).

(** *** Files *)

(** Exceptions that come out of [open], of the text layer and of the
    [json] module, next to those the program knows. *)
Inductive failure :=
| Program (e : exn)
| OSError
| UnicodeEncodeError
| UnicodeDecodeError
| JSONDecodeError.

Definition outcome (A : Type) : Type := failure + A.

Inductive mode := Reading | Writing.

(** The machine: the bytes at each path that [os.path.exists] sees, and
    the paths that [open] refuses in a mode (a folder, a file that may not
    be read or written, a place where no file may be made). *)
Record storage := {
  files : pystr -> option (list N);
  refuses : mode -> pystr -> bool
}.

Definition put (path : pystr) (content : list N) (st : storage) : storage :=
  {| files := fun p => if str_eqb p path then Some content else files st p;
     refuses := refuses st |}.

(** [for chunk in iterable: fp.write(chunk)]: each piece is encoded when
    it is written, and what was written before an exception stays. *)
Fixpoint write_chunks (chunks : list chunk) (written : list N)
    : option failure * list N :=
  match chunks with
  | [] => (None, written)
  | inl e :: _ => (Some (Program e), written)
  | inr text :: rest =>
    match encode text with
    | Some bs => write_chunks rest (written ++ bs)
    | None => (Some UnicodeEncodeError, written)
    end
  end.

(** [json.dump(obj, fp, ensure_ascii=False, indent=4)] into a file just
    opened for writing. *)
Definition dump (obj : pyval) : option failure * list N :=
  write_chunks (iterencode 0 obj) [].

(** The text that pieces make when none of them is an exception. *)
Definition joined (chunks : list chunk) : pystr :=
  flat_map (fun c => match c with inr text => text | inl _ => [] end) chunks.

(** [json.load(fp)] on a file opened for reading: [None] stands for a
    document with a number that is no integer, which the values here do
    not hold. *)
Definition load (content : list N) : option (outcome pyval) :=
  match decode content with
  | None => Some (inl UnicodeDecodeError)
  | Some text =>
    match loads (universal_newlines false text) with
    | Found obj => Some (inr obj)
    | Malformed => Some (inl JSONDecodeError)
    | Oversized => Some (inl (Program ValueError))
    | Inexact | Unfinished => None
    end
  end.

Section WithRuntime.
Context {RT : PyRuntime}.

(** [LibraryService._load_data] *)
Definition _load_data (st : storage) (file_name : pystr)
    : option (outcome (list BookRead.t)) :=
  match files st file_name with
  | None => Some (inr [])
  | Some content =>
    if refuses st Reading file_name then Some (inl OSError)
    else
      match load content with
      | None => None
      | Some (inl f) => Some (inl f)
      | Some (inr obj) =>
        match rbind (py_iter obj) (map_r BookRead.model_validate) with
        | inl e => Some (inl (Program e))
        | inr bs => Some (inr bs)
        end
      end
  end.

(** [LibraryService.__init__] *)
Definition init (st : storage) (file_name : pystr)
    : option (outcome LibraryService) :=
  match _load_data st file_name with
  | None => None
  | Some (inl f) => Some (inl f)
  | Some (inr bs) => Some (inr {| file_name := file_name; books := bs |})
  end.

End WithRuntime.

(** [LibraryService.save_data]: opening for writing empties the file; the
    encoder [BookSchemaEncoder] turns each record into its dump. *)
Definition save_data (self : LibraryService) (st : storage)
    : outcome unit * storage :=
  if refuses st Writing (file_name self) then (inl OSError, st)
  else
    let (raised, written) :=
      dump (VList (map BookRead.model_dump (books self))) in
    (match raised with
     | Some f => inl f
     | None => inr tt
     end,
     put (file_name self) written st).

End Files.

(* ------------------------------------------------------------------ *)
(** ** src/main.py: the commands, and the message of src/exceptions.py

    A command runs on the object that the [cli] group has loaded and
    prints lines.  The parsing of the command line by click is not part of
    the model: a command receives its arguments as the strings click hands
    over. *)

Module Main.

(** [DATA_FILE] of src/constants.py *)
Definition DATA_FILE : pystr := utf8 "library.json".

(** A text between double quotes. *)
Definition quoted (s : pystr) : pystr := [34%N] ++ s ++ [34%N].

(** [str(e)] for [e = BookDoesNotExists(book_id)] *)
Definition BookDoesNotExists_str (book_id : pystr) : pystr :=
  utf8 "The book with the ID " ++ quoted book_id ++ utf8 " does not exist.".

(** What the body of a command can raise: an exception of the service, or
    the [AttributeError] of reading [.status] on [None]. *)
Inductive raised :=
| Raised (e : exn)
| AttributeError.

(** What [click.echo] prints: a text of the program, or a text that a
    library words ([{e}] for a pydantic [ValidationError] after the
    program's heading, and for any other exception after "Unknown
    error:"). *)
Inductive echo :=
| Line (text : pystr)
| ValidationReport
| UnknownError (e : raised).

Definition command : Type := world -> list echo * world.

(** The handlers [except BookDoesNotExists as e: click.echo(e)] and
    [except Exception as e: ...] of [delete] and [get]. *)
Definition report (e : exn) : echo :=
  match e with
  | BookDoesNotExists book_id => Line (BookDoesNotExists_str book_id)
  | _ => UnknownError (Raised e)
  end.

Section WithRuntime.
Context {RT : PyRuntime}.

(** The group [cli]: every invocation loads the data file first. *)
Definition cli (d : disk) : result world :=
  rbind (Service.init d DATA_FILE) (fun s => ok {| self := s; fs := d |}).

(** The command [add]; click passes the three arguments as strings. *)
Definition add (title author year : pystr) (rnd : N) : command :=
  fun w =>
    match create (VStr title) (VStr author) (VStr year) true rnd w with
    | (inr new_book, w') =>
      ([Line (utf8 "The book " ++ quoted (BookRead.title new_book)
              ++ utf8 " successfully added with id = "
              ++ BookRead.id new_book)], w')
    | (inl ValidationError, w') => ([ValidationReport], w')
    | (inl e, w') => ([UnknownError (Raised e)], w')
    end.

(** The command [delete] *)
Definition delete (book_id : pystr) : command :=
  fun w =>
    match delete_book book_id true w with
    | (inr _, w') =>
      ([Line (utf8 "The book with id " ++ quoted book_id
              ++ utf8 " has been successfully deleted.")], w')
    | (inl e, w') => ([report e], w')
    end.

(** The command [get] *)
Definition get (book_id : pystr) : command :=
  fun w =>
    match find_book_by_id (self w) book_id with
    | None => ([UnknownError AttributeError], w)
    | Some book =>
      if status_eqb (BookRead.status book) issued
      then ([Line (utf8 "The book with id " ++ quoted book_id
                   ++ utf8 " is not available now")], w)
      else
        match update_status book_id issued true w with
        | (inr _, w') =>
          ([Line (utf8 "The book with id " ++ quoted book_id
                  ++ utf8 " has been successfully issued. The status of the book has been"
                  ++ utf8 "changed to " ++ quoted (value issued) ++ utf8 ".")],
           w')
        | (inl e, w') => ([report e], w')
        end
    end.

(** The command [return_book] *)
Definition return_book (book_id : pystr) : command :=
  fun w =>
    match update_status book_id available true w with
    | (inr _, w') =>
      ([Line (utf8 "The book with id " ++ quoted book_id
              ++ utf8 " has been successfully accepted. The status of the book has been"
              ++ utf8 "changed to " ++ quoted (value available) ++ utf8 ".")],
       w')
    | (inl (BookDoesNotExists _), w') =>
      ([Line (utf8 "The book with id " ++ quoted book_id
              ++ utf8 " does not belong to this library. If you want to transfer this"
              ++ utf8 "book to this library, use the " ++ quoted (utf8 "add")
              ++ utf8 " command")], w')
    | (inl e, w') => ([UnknownError (Raised e)], w')
    end.

(** One run of the program: the group, then the command; what is left is
    what was printed and the files.  An exception of the group is not
    caught. *)
Definition invoke (c : command) (d : disk) : result (list echo * disk) :=
  rbind (cli d) (fun w => ok (fst (c w), fs (snd (c w)))).

End WithRuntime.
End Main.

(* ------------------------------------------------------------------ *)
(** ** A concrete runtime

    The builtins on the characters the repository's tests use: ASCII and
    the Cyrillic block U+0400..U+045F.  On these code points the functions
    below return what CPython returns; other code points are outside the
    fragment (they are classified as neither letters nor spaces and are
    their own lowercase). *)

Module Fragment.

Definition between (lo hi c : N) : bool := (lo <=? c)%N && (c <=? hi)%N.

Definition isalpha (c : N) : bool :=
  between 65 90 c || between 97 122 c || between 0x400 0x45F c.

Definition isspace (c : N) : bool := between 9 13 c || between 28 32 c.

Definition lower_char (c : N) : N :=
  if between 65 90 c then (c + 32)%N
  else if between 0x410 0x42F c then (c + 32)%N
  else if between 0x400 0x40F c then (c + 80)%N
  else c.

Definition lower (s : pystr) : pystr := map lower_char s.

Fixpoint lstrip (s : pystr) : pystr :=
  match s with
  | c :: s' => if isspace c then lstrip s' else s
  | [] => []
  end.

Definition strip (s : pystr) : pystr := rev (lstrip (rev (lstrip s))).

Definition digits (s : pystr) : option Z :=
  match s with
  | [] => None
  | _ =>
    if forallb is_digit s && (List.length s <=? max_str_digits)%nat
    then Some (decimal s) else None
  end.

(** [int(s)] on an optionally signed run of ASCII digits, blanks around it
    allowed; digit grouping with underscores is outside the fragment. *)
Definition int_of_str (s : pystr) : option Z :=
  match strip s with
  | [] => None
  | c :: r =>
    if (c =? 45)%N then option_map Z.opp (digits r)
    else if (c =? 43)%N then digits r
    else digits (c :: r)
  end.

Definition lax_int (v : pyval) : option Z :=
  match v with
  | VInt z => Some z
  | VBool b => Some (if b then 1 else 0)%Z
  | VStr s => int_of_str s
  | _ => None
  end.

Definition runtime : PyRuntime :=
  Build_PyRuntime isalpha isspace lower int_of_str lax_int.

End Fragment.

(* ------------------------------------------------------------------ *)
(** ** A second runtime, for Greek text

    [str.lower] writes a capital sigma as the final form of the small
    letter when a cased letter stands before it and none after it,
    characters that case mapping looks through set aside.  The letters of
    this runtime are those of ASCII and of the Greek alphabet. *)

Module Hellenic.

Definition capital (c : N) : bool :=
  Fragment.between 65 90 c || Fragment.between 0x391 0x3A1 c
  || Fragment.between 0x3A3 0x3A9 c.

Definition small (c : N) : bool :=
  Fragment.between 97 122 c || Fragment.between 0x3B1 0x3C9 c.

Definition cased (c : N) : bool := capital c || small c.

Definition isalpha (c : N) : bool := cased c.

(** The characters of ASCII that case mapping looks through: apostrophe,
    full stop, colon, circumflex and grave accent. *)
Definition case_ignorable (c : N) : bool :=
  existsb (N.eqb c) [39; 46; 58; 94; 96]%N.

Definition lower_char (c : N) : N := if capital c then (c + 32)%N else c.

(** Whether the first character of [s] that case mapping does not look
    through is a cased letter. *)
Fixpoint cased_next (s : pystr) : bool :=
  match s with
  | [] => false
  | c :: r => if case_ignorable c then cased_next r else cased c
  end.

(** [before] is the text in front of the sigma, the nearest character
    first. *)
Definition final_sigma (before after : pystr) : bool :=
  cased_next before && negb (cased_next after).

Fixpoint lower_from (before s : pystr) : pystr :=
  match s with
  | [] => []
  | c :: r =>
    (if (c =? 0x3A3)%N
     then if final_sigma before r then 0x3C2%N else 0x3C3%N
     else lower_char c)
    :: lower_from (c :: before) r
  end.

Definition lower (s : pystr) : pystr := lower_from [] s.

Definition runtime : PyRuntime :=
  Build_PyRuntime isalpha Fragment.isspace lower Fragment.int_of_str
                  Fragment.lax_int.

End Hellenic.

(** An object by its attributes, a machine without files, and a record by
    its fields, with literals for the strings. *)
Definition library (path : string) (bs : list BookRead.t) : LibraryService :=
  {| file_name := utf8 path; books := bs |}.

Definition no_files : disk := fun _ => None.

Definition book (i t a : string) (y : Z) (s : BookStatus) : BookRead.t :=
  {| BookRead.title := utf8 t; BookRead.author := utf8 a; BookRead.year := y;
     BookRead.id := utf8 i; BookRead.status := s |}.

(* ------------------------------------------------------------------ *)
(** ** Sample stores, taken from the tests of the repository *)

(** A store of one record whose id has the form of a UUID. *)
Definition one_book_world : world :=
  {| self := library "library.json"
       [book "00000000-0000-4000-8000-000000000000" "Реквием"
             "Ахматова Анна" 1963 available];
     fs := no_files |}.

(** The books of the tests, one of them issued. *)
Definition test_books : list BookRead.t :=
  [ book "id-1" "Тёмные аллеи" "Бунин Иван Алексеевич" 1937 available;
    book "id-2" "Реквием" "Ахматова Анна" 1963 issued;
    book "id-3" "Мертвые души" "Гоголь Николай Васильевич" 1842 available;
    book "id-4" "1984" "George Orwell" 1949 available ].

Definition test_world : world :=
  {| self := library "test_library.json" test_books; fs := no_files |}.

Definition empty_world : world :=
  {| self := library "library.json" []; fs := no_files |}.

(** Two records whose ids differ by the case of their letters only. *)
Definition lower_case_book : BookRead.t :=
  book "abc" "Природа" "Первый Автор" 1000 available.

Definition upper_case_book : BookRead.t :=
  book "ABC" "Просто книга" "Просто автор" 300 available.

Definition two_case_world : world :=
  {| self := library "library.json" [lower_case_book; upper_case_book];
     fs := no_files |}.

(** The titles of the test of the listing. *)
Definition four_titles : list pystr :=
  [utf8 "1984"; utf8 "Тёмные аллеи"; utf8 "Реквием"; utf8 "Мертвые души"].

(** The store of the test of the search by name. *)
Definition nature_books : list BookRead.t :=
  [ book "n-1" "Природа" "Первый Автор" 1000 available;
    book "n-2" "Природа" "Второй Автор" 2000 available;
    book "n-3" "Разнообразная природа России" "Второй Автор" 2002 available;
    book "n-4" "Просто книга" "Просто автор" 300 available ].

(** The store of the test of the search by year. *)
Definition year_books : list BookRead.t :=
  [ book "y-1" "Азбука" "Онегин" 1111 available;
    book "y-2" "Букварь" "Онегин" 2222 available;
    book "y-3" "Энциклопедия" "Онегин" 1111 available ].

(** A disk whose data file holds the books of the tests. *)
Definition test_disk : disk :=
  write Main.DATA_FILE (VList (map BookRead.model_dump test_books)) no_files.

(** A document whose second record lacks its status. *)
Definition broken_document : pyval :=
  VList [ BookRead.model_dump
            (book "id-1" "Реквием" "Ахматова Анна" 1963 available);
          VDict [ (utf8 "id", VStr (utf8 "id-2"));
                  (utf8 "title", VStr (utf8 "1984"));
                  (utf8 "author", VStr (utf8 "George Orwell"));
                  (utf8 "year", VInt 1949) ] ].

Definition broken_disk : disk := write Main.DATA_FILE broken_document no_files.

(** The store of the tests after one more book has been added. *)
Definition added_book : BookRead.t :=
  book "00000000-0000-4000-8000-000000000001" "Книга для удаления"
       "Автор" 1000 available.

Definition after_add : world :=
  snd (create (RT := Fragment.runtime)
         (VStr (utf8 "Книга для удаления")) (VStr (utf8 "Автор"))
         (VInt 1000) false 1 test_world).

(* ------------------------------------------------------------------ *)
(** ** Vocabulary of the specification *)

(** [needle] occurs in [hay]. *)
Definition infix (needle hay : pystr) : Prop :=
  exists p q, hay = p ++ needle ++ q.

(** The character [c] occurs twice in a row in [s]. *)
Definition doubled (c : N) (s : pystr) : Prop := infix [c; c] s.

Definition space : N := 32.
Definition comma : N := 44.
Definition dash : N := 45.
Definition period : N := 46.

Section Formats.
Context {RT : PyRuntime}.

(** A letter, a space, a period, a comma or a dash. *)
Definition allowed_char (c : N) : Prop :=
  isalpha c = true \/ isspace c = true \/ c = period \/ c = comma \/ c = dash.

(** The format constraints of the data model. *)
Definition title_format (t : pystr) : Prop :=
  (len t <= 50)%Z /\ encodable t = true.

Definition author_format (a : pystr) : Prop :=
  Forall allowed_char a
  /\ ~ doubled space a /\ ~ doubled period a /\ ~ doubled comma a.

Definition year_format (y : Z) : Prop := (0 <= y)%Z.

(** A record that meets the schema, as every [BookRead] object does when
    it is built. *)
Definition well_formed (b : BookRead.t) : Prop :=
  title_format (BookRead.title b) /\ author_format (BookRead.author b)
  /\ year_format (BookRead.year b).

(** The id of [b] is [q] up to the case of letters. *)
Definition same_id_nocase (q : pystr) (b : BookRead.t) : Prop :=
  lower (BookRead.id b) = lower q.

(** The operations that change a store. *)
Inductive op :=
| Create (title author year : pyval) (need_save : bool) (rnd : N)
| Delete (book_id : pystr) (need_save : bool)
| UpdateStatus (book_id : pystr) (status : BookStatus) (need_save : bool).

(** The world after an operation, whether it returned or raised. *)
Definition run (o : op) (w : world) : world :=
  match o with
  | Create t a y need_save rnd => snd (create t a y need_save rnd w)
  | Delete book_id need_save => snd (delete_book book_id need_save w)
  | UpdateStatus book_id status need_save =>
    snd (update_status book_id status need_save w)
  end.

Definition ids (w : world) : list pystr :=
  map BookRead.id (books (self w)).

(** The drawn identifier is new to the store. *)
Definition fresh (o : op) (w : world) : Prop :=
  match o with
  | Create _ _ _ _ rnd => ~ In (uuid_str (uuid4 rnd)) (ids w)
  | _ => True
  end.

(** The stores that sequences of operations with fresh identifiers build
    from an empty one. *)
Inductive reachable : world -> Prop :=
| reach_empty (w : world) : books (self w) = [] -> reachable w
| reach_step (w : world) (o : op) :
    reachable w -> fresh o w -> reachable (run o w).

End Formats.

(** A session: two books are added, the first is issued and then
    deleted under the upper-case spelling of its id. *)
Definition session : list op :=
  [ Create (VStr (utf8 "Реквием")) (VStr (utf8 "Ахматова Анна")) (VInt 1963)
           true 10;
    Create (VStr (utf8 "1984")) (VStr (utf8 "George Orwell"))
           (VStr (utf8 "1949")) true 11;
    UpdateStatus (utf8 "00000000-0000-4000-8000-00000000000a") issued true;
    Delete (utf8 "00000000-0000-4000-8000-00000000000A") true ].

Definition run_all {RT : PyRuntime} (os : list op) (w : world) : world :=
  fold_left (fun w o => run o w) os w.

(** The store that the session leaves. *)
Definition session_world : world :=
  run_all (RT := Fragment.runtime) session empty_world.

(** Two worlds with the same object and the same files. *)
Definition same_world (w1 w2 : world) : Prop :=
  self w1 = self w2 /\ forall path, fs w1 path = fs w2 path.

(** A numeric string: one decimal digit or more. *)
Definition numeric (s : pystr) : Prop :=
  s <> [] /\ Forall (fun c => (48 <= c <= 57)%N) s.

(** The world [w] with [bs] for its list of books. *)
Definition with_books (w : world) (bs : list BookRead.t) : world :=
  {| self := {| file_name := file_name (self w); books := bs |};
     fs := fs w |}.

(** The laws of the comparison of keys. *)
Class PyOrdLaws (K : Type) `{PyOrd K} : Prop := {
  cmp_refl : forall x, cmp x x = Eq;
  cmp_opp : forall x y, cmp y x = CompOpp (cmp x y);
  cmp_eq_l : forall x y z, cmp x y = Eq -> cmp x z = cmp y z;
  cmp_lt_trans : forall x y z, cmp x y = Lt -> cmp y z = Lt -> cmp x z = Lt
}.

(** [l] is in ascending order of [key]. *)
Definition ascending {A K} `{PyOrd K} (key : A -> K) (l : list A) : Prop :=
  StronglySorted (fun x y => py_le (key x) (key y) = true) l.

(** The data file holds what the object holds: a fresh object built on
    the same path would have the same books. *)
Definition in_sync {RT : PyRuntime} (w : world) : Prop :=
  Service.init (fs w) (file_name (self w)) = ok (self w).

(** The ids of the store lowercased, as the searches by id compare them. *)
Definition folded_ids {RT : PyRuntime} (w : world) : list pystr :=
  map (fun b => lower (BookRead.id b)) (books (self w)).

(** Two keys that compare equal. *)
Definition same_key {K} `{PyOrd K} (x y : K) : bool :=
  match cmp x y with Eq => true | _ => false end.

(** The lines of the commands. *)
Definition said_deleted (q : pystr) : Main.echo :=
  Main.Line (utf8 "The book with id " ++ Main.quoted q
             ++ utf8 " has been successfully deleted.").

Definition said_missing (q : pystr) : Main.echo :=
  Main.Line (Main.BookDoesNotExists_str q).

Definition said_unavailable (q : pystr) : Main.echo :=
  Main.Line (utf8 "The book with id " ++ Main.quoted q
             ++ utf8 " is not available now").

Definition said_issued (q : pystr) : Main.echo :=
  Main.Line (utf8 "The book with id " ++ Main.quoted q
             ++ utf8 " has been successfully issued. The status of the book has been"
             ++ utf8 "changed to " ++ Main.quoted (value issued) ++ utf8 ".").

Definition said_accepted (q : pystr) : Main.echo :=
  Main.Line (utf8 "The book with id " ++ Main.quoted q
             ++ utf8 " has been successfully accepted. The status of the book has been"
             ++ utf8 "changed to " ++ Main.quoted (value available)
             ++ utf8 ".").

Definition said_foreign (q : pystr) : Main.echo :=
  Main.Line (utf8 "The book with id " ++ Main.quoted q
             ++ utf8 " does not belong to this library. If you want to transfer this"
             ++ utf8 "book to this library, use the " ++ Main.quoted (utf8 "add")
             ++ utf8 " command").

(** The commands that change the store. *)
Inductive changing_command {RT : PyRuntime} : Main.command -> Prop :=
| changing_add (title author year : pystr) (rnd : N) :
    changing_command (Main.add title author year rnd)
| changing_delete (book_id : pystr) : changing_command (Main.delete book_id)
| changing_get (book_id : pystr) : changing_command (Main.get book_id)
| changing_return (book_id : pystr) :
    changing_command (Main.return_book book_id).

(** *** Vocabulary of the data file *)

(** The digits written for [n]: they denote [n], and they start with a
    zero only when [n] is zero. *)
Definition digits_for (n : N) (ds : pystr) : Prop :=
  decimal ds = Z.of_N n
  /\ forallb is_digit ds = true
  /\ exists c r, ds = c :: r
       /\ (n = 0%N -> c = 48%N /\ r = [])
       /\ (n <> 0%N -> (49 <= c <= 57)%N).

(** What follows a value in a printed document: nothing, a comma or a
    line break. *)
Definition stops (rest : pystr) : bool :=
  match rest with
  | [] => true
  | c :: _ => (c =? 44)%N || (c =? 10)%N
  end.

Fixpoint distinct (keys : list pystr) : bool :=
  match keys with
  | [] => true
  | k :: r => negb (existsb (str_eqb k) r) && distinct r
  end.

(** A value that the encoder prints to the end: its integers have no more
    digits than the interpreter converts, and no dictionary binds a key
    twice (no Python dictionary does). *)
Fixpoint printable (o : pyval) : bool :=
  match o with
  | VInt z =>
    (List.length (Files.decimal_digits (Z.abs_N z)) <=? max_str_digits)%nat
  | VList lst => forallb printable lst
  | VDict items =>
    forallb (fun kv => printable (snd kv)) items && distinct (map fst items)
  | VNone | VBool _ | VStr _ => true
  end.

(** A value whose strings, keys included, hold no lone surrogate. *)
Fixpoint encodable_value (o : pyval) : bool :=
  match o with
  | VStr s => encodable s
  | VList lst => forallb encodable_value lst
  | VDict items =>
    forallb (fun kv => encodable (fst kv) && encodable_value (snd kv)) items
  | VNone | VBool _ | VInt _ => true
  end.

(** Scanning the text printed for [v], at any nesting level and with
    anything after it that ends a value, gives back [v] and what came
    after it. *)
Definition reads_back (v : pyval) : Prop :=
  forall level fuel rest,
    printable v = true ->
    (List.length (Files.joined (Files.iterencode level v)) <= fuel)%nat ->
    stops rest = true ->
    Files.scan_once fuel (Files.joined (Files.iterencode level v) ++ rest)
    = Files.Found (v, rest).

(** The first character of a printed value: it is no blank, it closes no
    array, and it is no byte order mark. *)
Definition opening (c : N) : Prop :=
  Files.is_ws c = false /\ (c =? 93)%N = false /\ (c =? 0xFEFF)%N = false.


(** A character that goes into the file and comes back as it went: it has
    an encoding, and it is no carriage return. *)
Definition writes (c : N) : bool := scalar c && negb (c =? 13)%N.

(** A piece of text of such characters. *)
Definition good (c : Files.chunk) : Prop :=
  exists text, c = ok text /\ forallb writes text = true.

(** Every piece printed for [v], at any level, is good. *)
Definition prints_well (v : pyval) : Prop :=
  forall level,
    printable v = true -> encodable_value v = true ->
    Forall good (Files.iterencode level v).

(** A record that the data file takes: its title, its author and its id
    hold no lone surrogate, and its year has no more digits than the
    interpreter converts. *)
Definition storable (b : BookRead.t) : Prop :=
  encodable (BookRead.title b) = true
  /\ encodable (BookRead.author b) = true
  /\ encodable (BookRead.id b) = true
  /\ (List.length (Files.decimal_digits (Z.abs_N (BookRead.year b)))
      <= max_str_digits)%nat.

(** A machine without files on which every path can be opened. *)
Definition empty_storage : Files.storage :=
  {| Files.files := fun _ => None; Files.refuses := fun _ _ => false |}.

(** The bytes of a document, written here with an apostrophe for each of
    its double quotes. *)
Definition document (s : string) : list N :=
  map (fun b => if (b =? 39)%N then 34%N else b)
      (map N_of_ascii (list_ascii_of_string s)).

(** A data file with one record, whose id is written as the escape of the
    surrogate U+D800, and the record it holds. *)
Definition surrogate_storage : Files.storage :=
  Files.put (utf8 "library.json")
    (document "[{'title': 'Реквием', 'author': 'Ахматова Анна', 'year': 1963, 'id': '\ud800', 'status': 'в наличии'}]")
    empty_storage.

Definition surrogate_book : BookRead.t :=
  {| BookRead.title := utf8 "Реквием";
     BookRead.author := utf8 "Ахматова Анна";
     BookRead.year := 1963;
     BookRead.id := [0xD800%N];
     BookRead.status := available |}.

(** A record with a Greek title in capital letters. *)
Definition sigma_book : BookRead.t :=
  book "s-1" "ΟΣΑ" "Ομηρος" 1000 available.

(* ================================================================== *)
(** * Properties *)

(** ** Strings *)

Section StringFacts.

Lemma str_eqb_refl (a : pystr) : str_eqb a a = true.
Proof.
  induction a as [|c a IH]; simpl; [reflexivity|].
  now rewrite N.eqb_refl.
Qed.

Lemma str_eqb_eq (a b : pystr) : str_eqb a b = true <-> a = b.
Proof.
  split; [|intros ->; apply str_eqb_refl].
  revert b; induction a as [|c a IH]; intros [|d b]; simpl;
    try reflexivity; try discriminate.
  rewrite andb_true_iff, N.eqb_eq. intros [-> H]. f_equal. auto.
Qed.

Lemma str_eqb_neq (a b : pystr) : str_eqb a b = false <-> a <> b.
Proof.
  rewrite <- str_eqb_eq. destruct (str_eqb a b); split; congruence.
Qed.

Lemma startswith_prefix (p s : pystr) :
  startswith p s = true <-> exists q, s = p ++ q.
Proof.
  revert s; induction p as [|c p IH]; intros s; simpl.
  - split; eauto.
  - destruct s as [|d s].
    + split; [discriminate|]. intros [q H]. discriminate.
    + rewrite andb_true_iff, N.eqb_eq, IH. split.
      * intros [-> [q ->]]. eauto.
      * intros [q H]. injection H as -> ->. eauto.
Qed.

(** [needle in hay] decides the occurrence of [needle] in [hay]. *)
Lemma contains_infix (needle hay : pystr) :
  contains needle hay = true <-> infix needle hay.
Proof.
  unfold infix. induction hay as [|c hay IH].
  - simpl. rewrite orb_false_r, startswith_prefix. split.
    + intros [q H]. exists [], q. exact H.
    + intros [[|x p] [q H]]; [eauto | discriminate].
  - cbn [contains]. rewrite orb_true_iff, startswith_prefix, IH. split.
    + intros [[q H] | [p [q H]]].
      * exists [], q. exact H.
      * exists (c :: p), q. now rewrite H.
    + intros [[|x p] [q H]].
      * left. eauto.
      * right. injection H as -> H. eauto.
Qed.

Lemma contains_not_infix (needle hay : pystr) :
  contains needle hay = false <-> ~ infix needle hay.
Proof.
  rewrite <- contains_infix. destruct (contains needle hay); split; congruence.
Qed.

Lemma contains_char (c : N) (s : pystr) : contains [c] s = true <-> In c s.
Proof.
  rewrite contains_infix. split.
  - intros [p [q ->]]. apply in_or_app. right. now left.
  - intros H. apply in_split in H. destruct H as [p [q ->]]. now exists p, q.
Qed.

End StringFacts.

(** ** Comparison of keys *)

Section OrderFacts.

Lemma str_cmp_refl (x : pystr) : str_cmp x x = Eq.
Proof.
  induction x as [|c x IH]; simpl; [reflexivity|].
  now rewrite N.compare_refl.
Qed.

Lemma str_cmp_opp (x y : pystr) : str_cmp y x = CompOpp (str_cmp x y).
Proof.
  revert y; induction x as [|c x IH]; intros [|d y]; simpl; try reflexivity.
  rewrite (N.compare_antisym c d).
  destruct (c ?= d)%N; simpl; auto.
Qed.

Lemma str_cmp_eq (x y : pystr) : str_cmp x y = Eq -> x = y.
Proof.
  revert y; induction x as [|c x IH]; intros [|d y]; simpl;
    try reflexivity; try discriminate.
  destruct (c ?= d)%N eqn:E; try discriminate.
  apply N.compare_eq in E; subst d.
  intros H; f_equal; auto.
Qed.

Lemma str_cmp_lt_trans (x y z : pystr) :
  str_cmp x y = Lt -> str_cmp y z = Lt -> str_cmp x z = Lt.
Proof.
  revert y z; induction x as [|c x IH]; intros [|d y] [|e z]; simpl;
    try reflexivity; try discriminate.
  destruct (c ?= d)%N eqn:E1; try discriminate;
  destruct (d ?= e)%N eqn:E2; try discriminate; intros H1 H2.
  - apply N.compare_eq in E1, E2; subst. rewrite N.compare_refl. eauto.
  - apply N.compare_eq in E1; subst. now rewrite E2.
  - apply N.compare_eq in E2; subst. now rewrite E1.
  - rewrite N.compare_lt_iff in E1, E2.
    assert (E : (c ?= e)%N = Lt) by (rewrite N.compare_lt_iff; lia).
    now rewrite E.
Qed.

#[export] Instance str_ord_laws : PyOrdLaws pystr.
Proof.
  split; simpl.
  - exact str_cmp_refl.
  - exact str_cmp_opp.
  - intros x y z H. apply str_cmp_eq in H. now subst.
  - exact str_cmp_lt_trans.
Qed.

#[export] Instance int_ord_laws : PyOrdLaws Z.
Proof.
  split; simpl.
  - exact Z.compare_refl.
  - intros x y. apply Z.compare_antisym.
  - intros x y z H. apply Z.compare_eq in H. now subst.
  - intros x y z. rewrite !Z.compare_lt_iff. lia.
Qed.

Context {A B : Type} {OA : PyOrd A} {OB : PyOrd B}.
Context {LA : PyOrdLaws A} {LB : PyOrdLaws B}.

Lemma cmp_eq_r (x y z : A) : cmp y z = Eq -> cmp x y = cmp x z.
Proof.
  intros E. rewrite (cmp_opp y x), (cmp_opp z x). f_equal.
  now apply cmp_eq_l.
Qed.

Lemma pair_cmp_lt_trans (p q r : A * B) :
  pair_cmp p q = Lt -> pair_cmp q r = Lt -> pair_cmp p r = Lt.
Proof.
  unfold pair_cmp.
  destruct (cmp (fst p) (fst q)) eqn:E1; try discriminate;
  destruct (cmp (fst q) (fst r)) eqn:E2; try discriminate; intros H1 H2.
  - rewrite (cmp_eq_l _ _ (fst r) E1), E2. eauto using cmp_lt_trans.
  - now rewrite (cmp_eq_l _ _ (fst r) E1), E2.
  - now rewrite <- (cmp_eq_r (fst p) _ _ E2), E1.
  - now rewrite (cmp_lt_trans _ _ _ E1 E2).
Qed.

#[export] Instance pair_ord_laws : PyOrdLaws (A * B).
Proof.
  split; simpl.
  - intros p. unfold pair_cmp. now rewrite !cmp_refl.
  - intros p q. unfold pair_cmp. rewrite (cmp_opp (fst p) (fst q)).
    destruct (cmp (fst p) (fst q)); simpl; auto using cmp_opp.
  - intros p q r. unfold pair_cmp.
    destruct (cmp (fst p) (fst q)) eqn:E; try discriminate.
    intros H. rewrite (cmp_eq_l _ _ (fst r) E).
    now rewrite (cmp_eq_l _ _ (snd r) H).
  - exact pair_cmp_lt_trans.
Qed.

End OrderFacts.

(** ** The sort *)

Section SortFacts.
Context {A K : Type} {OK : PyOrd K} {LK : PyOrdLaws K}.
Variable key : A -> K.

Lemma py_le_refl (x : K) : py_le x x = true.
Proof. unfold py_le. now rewrite cmp_refl. Qed.

Lemma py_lt_false_le (x y : K) : py_lt y x = false -> py_le x y = true.
Proof.
  unfold py_lt, py_le. rewrite (cmp_opp y x).
  destruct (cmp y x); simpl; congruence.
Qed.

Lemma py_lt_le (x y : K) : py_lt x y = true -> py_le x y = true.
Proof. unfold py_lt, py_le. destruct (cmp x y); congruence. Qed.

Lemma py_le_trans (x y z : K) :
  py_le x y = true -> py_le y z = true -> py_le x z = true.
Proof.
  unfold py_le.
  destruct (cmp x y) eqn:E1; try discriminate;
  destruct (cmp y z) eqn:E2; try discriminate; intros _ _.
  - now rewrite (cmp_eq_l _ _ z E1), E2.
  - now rewrite (cmp_eq_l _ _ z E1), E2.
  - now rewrite <- (cmp_eq_r x _ _ E2), E1.
  - now rewrite (cmp_lt_trans _ _ _ E1 E2).
Qed.

End SortFacts.

Section SortedFacts.
Context {A K : Type} {OK : PyOrd K} {LK : PyOrdLaws K}.
Variable key : A -> K.

Lemma insert_by_perm (x : A) (l : list A) :
  Permutation (insert_by key x l) (x :: l).
Proof.
  induction l as [|y l IH]; simpl; [reflexivity|].
  destruct (py_lt (key y) (key x)); [|reflexivity].
  rewrite IH. apply perm_swap.
Qed.

(** The sort returns the items of its input, each as often as it was
    there. *)
Lemma sorted_perm (l : list A) : Permutation (sorted key l) l.
Proof.
  induction l as [|x l IH]; simpl; [reflexivity|].
  rewrite insert_by_perm. now constructor.
Qed.

Lemma insert_by_ascending (x : A) (l : list A) :
  ascending key l -> ascending key (insert_by key x l).
Proof.
  unfold ascending. induction 1 as [|y l Hs IH Hy]; simpl.
  - repeat constructor.
  - destruct (py_lt (key y) (key x)) eqn:E.
    + constructor; [exact IH|].
      rewrite (Forall_forall _ _). intros z Hz.
      apply (Permutation_in _ (insert_by_perm x l)) in Hz.
      destruct Hz as [<- | Hz]; [now apply py_lt_le|].
      rewrite Forall_forall in Hy. auto.
    + apply py_lt_false_le in E.
      constructor; [now constructor|].
      constructor; [exact E|].
      rewrite Forall_forall in Hy |- *. intros z Hz.
      eapply py_le_trans; eauto.
Qed.

(** The sort returns its items in ascending order of their keys. *)
Lemma sorted_ascending (l : list A) : ascending key (sorted key l).
Proof.
  induction l as [|x l IH]; simpl; [constructor|].
  now apply insert_by_ascending.
Qed.

Lemma sorted_In (l : list A) (x : A) : In x (sorted key l) <-> In x l.
Proof.
  split; apply Permutation_in; [|symmetry]; apply sorted_perm.
Qed.

(** The head of an ascending list is below every item, and its last item
    above every item. *)
Lemma ascending_head (x : A) (l : list A) (y : A) :
  ascending key (x :: l) -> In y (x :: l) -> py_le (key x) (key y) = true.
Proof.
  intros H [<- | Hy]; [apply py_le_refl|].
  apply StronglySorted_inv in H. destruct H as [_ H].
  rewrite Forall_forall in H. auto.
Qed.

Lemma ascending_last (l : list A) (x y : A) :
  ascending key (l ++ [x]) -> In y (l ++ [x]) -> py_le (key y) (key x) = true.
Proof.
  induction l as [|z l IH]; simpl; intros H Hy.
  - destruct Hy as [<- | []]. apply py_le_refl.
  - apply StronglySorted_inv in H. destruct H as [Hs Hz].
    destruct Hy as [<- | Hy]; [|now apply IH].
    rewrite Forall_forall in Hz. apply Hz, in_or_app. right. now left.
Qed.

End SortedFacts.

(** ** The schemas *)

Section SchemaFacts.
Context {RT : PyRuntime}.

Lemma author_char_allowed (c : N) : author_char c = true <-> allowed_char c.
Proof.
  unfold author_char, allowed_char.
  rewrite !orb_true_iff, contains_char.
  change (utf8 ".,-") with [period; comma; dash]. simpl.
  intuition congruence.
Qed.

Lemma forallb_author_char (a : pystr) :
  forallb author_char a = true <-> Forall allowed_char a.
Proof.
  rewrite forallb_forall, Forall_forall.
  split; intros H c Hc; apply author_char_allowed; auto.
Qed.

(** The validator accepts exactly the authors of the format, and returns
    them as they are. *)
Lemma validate_author_format (a : pystr) :
  validate_author a = Some a <-> author_format a.
Proof.
  unfold validate_author, author_format, doubled.
  change (utf8 "  ") with [space; space].
  change (utf8 "..") with [period; period].
  change (utf8 ",,") with [comma; comma].
  rewrite <- forallb_author_char, <- !contains_not_infix.
  destruct (forallb author_char a); simpl; [|intuition congruence].
  destruct (contains [space; space] a); simpl; [intuition congruence|].
  destruct (contains [period; period] a); simpl; [intuition congruence|].
  destruct (contains [comma; comma] a); simpl; intuition congruence.
Qed.

Lemma validate_author_cases (a : pystr) :
  validate_author a = Some a \/ validate_author a = None.
Proof.
  unfold validate_author.
  destruct (negb _); [now right|]. destruct (_ || _); auto.
Qed.

Lemma validate_author_rejects (a : pystr) :
  ~ author_format a -> validate_author a = None.
Proof.
  intros H. destruct (validate_author_cases a) as [E|E]; [|exact E].
  now apply validate_author_format in E.
Qed.

Lemma title_check_format (t : pystr) :
  encodable t && (len t <=? max_length)%Z = true <-> title_format t.
Proof.
  unfold title_format, max_length. rewrite andb_true_iff, Z.leb_le. tauto.
Qed.

Lemma validate_title_format (t : pystr) :
  title_format t -> validate_title (VStr t) = Some t.
Proof.
  intros H. apply title_check_format in H. unfold validate_title.
  now rewrite H.
Qed.

Lemma validate_title_rejects (t : pystr) :
  ~ title_format t -> validate_title (VStr t) = None.
Proof.
  intros H. unfold validate_title.
  destruct (encodable t && (len t <=? max_length)%Z) eqn:E;
    [|reflexivity].
  apply title_check_format in E. contradiction.
Qed.

Lemma of_value_value (s : BookStatus) : of_value (value s) = Some s.
Proof. now destruct s. Qed.

Context {RL : PyRuntimeLaws RT}.

Lemma validate_year_format (y : Z) :
  year_format y -> validate_year (VInt y) = Some y.
Proof.
  unfold year_format, validate_year. intros H. rewrite lax_int_int.
  destruct (Z.leb_spec 0 y); [reflexivity | lia].
Qed.

Lemma validate_year_rejects (y : Z) :
  ~ year_format y -> validate_year (VInt y) = None.
Proof.
  unfold year_format, validate_year. intros H. rewrite lax_int_int.
  destruct (Z.leb_spec 0 y); [contradiction | reflexivity].
Qed.

(** A digit is no character of the format. *)
Lemma digit_not_allowed (c : N) : is_digit c = true -> ~ allowed_char c.
Proof.
  intros H [Ha | [Hs | Hp]].
  - rewrite (isalpha_digit c H) in Ha. discriminate.
  - rewrite (isspace_digit c H) in Hs. discriminate.
  - unfold is_digit in H. rewrite andb_true_iff, !N.leb_le in H.
    unfold period, comma, dash in Hp. lia.
Qed.

(** Validation of a dictionary that binds each field once. *)
Lemma model_validate_fields (t a i : pystr) (y : Z) (s : BookStatus)
    (kvs : list (pystr * pyval)) :
  dict_get (utf8 "title") kvs = Some (VStr t) ->
  dict_get (utf8 "author") kvs = Some (VStr a) ->
  dict_get (utf8 "year") kvs = Some (VInt y) ->
  dict_get (utf8 "id") kvs = Some (VStr i) ->
  dict_get (utf8 "status") kvs = Some (VStr (value s)) ->
  title_format t -> author_format a -> year_format y ->
  BookRead.model_validate (VDict kvs)
  = ok {| BookRead.title := t; BookRead.author := a; BookRead.year := y;
          BookRead.id := i; BookRead.status := s |}.
Proof.
  intros Ht Ha Hy Hi Hs Ft Fa Fy.
  unfold BookRead.model_validate, BookRead.field.
  rewrite Ht, Ha, Hy, Hi, Hs.
  rewrite (validate_title_format _ Ft), (validate_year_format _ Fy).
  cbn [validate_author_field BookRead.validate_id BookRead.validate_status].
  apply validate_author_format in Fa. rewrite Fa, of_value_value.
  reflexivity.
Qed.

(** A dumped record validates back to itself. *)
Lemma model_validate_dump (b : BookRead.t) :
  well_formed b -> BookRead.model_validate (BookRead.model_dump b) = ok b.
Proof.
  intros (Ft & Fa & Fy). destruct b as [t a y i s].
  unfold BookRead.model_dump. cbn [BookRead.title BookRead.author
    BookRead.year BookRead.id BookRead.status] in *.
  now apply model_validate_fields.
Qed.

(** Validation returns records of the schema only. *)
Lemma model_validate_well_formed (obj : pyval) (b : BookRead.t) :
  BookRead.model_validate obj = ok b -> well_formed b.
Proof.
  unfold BookRead.model_validate. destruct obj as [| | | |?|kvs];
    try discriminate.
  unfold BookRead.field.
  destruct (dict_get (utf8 "title") kvs) as [vt|]; [|discriminate].
  destruct (validate_title vt) as [t|] eqn:Et; [|discriminate].
  destruct (dict_get (utf8 "author") kvs) as [va|]; [|discriminate].
  destruct (validate_author_field va) as [a|] eqn:Ea; [|discriminate].
  destruct (dict_get (utf8 "year") kvs) as [vy|]; [|discriminate].
  destruct (validate_year vy) as [y|] eqn:Ey; [|discriminate].
  destruct (dict_get (utf8 "id") kvs) as [vi|]; [|discriminate].
  destruct (BookRead.validate_id vi) as [i|]; [|discriminate].
  destruct (dict_get (utf8 "status") kvs) as [vs|]; [|discriminate].
  destruct (BookRead.validate_status vs) as [s|]; [|discriminate].
  intros H. injection H as <-. unfold well_formed; simpl.
  split; [|split].
  - destruct vt; try discriminate. unfold validate_title in Et.
    destruct (encodable s0 && (len s0 <=? max_length)%Z) eqn:E;
      [|discriminate].
    injection Et as <-. now apply title_check_format.
  - destruct va; try discriminate. simpl in Ea.
    destruct (validate_author_cases s0) as [E|E];
      rewrite E in Ea; [|discriminate].
    injection Ea as <-. now apply validate_author_format.
  - unfold validate_year in Ey. destruct (lax_int vy); [|discriminate].
    destruct (Z.leb_spec 0 z); [|discriminate].
    injection Ey as <-. assumption.
Qed.

End SchemaFacts.

(** ** Lists of records *)

Section ListFacts.
Context {A : Type}.

Lemma find_first (p : A -> bool) (l : list A) (x : A) :
  find p l = Some x ->
  exists pre post,
    l = pre ++ x :: post /\ p x = true /\ forall y, In y pre -> p y = false.
Proof.
  induction l as [|y l IH]; simpl; [discriminate|].
  destruct (p y) eqn:E.
  - intros H. injection H as ->. exists [], l. simpl. intuition.
  - intros H. destruct (IH H) as (pre & post & -> & Hx & Hpre).
    exists (y :: pre), post. simpl. intuition. now subst.
Qed.

Lemma find_at (p : A -> bool) (pre post : list A) (x : A) :
  (forall y, In y pre -> p y = false) -> p x = true ->
  find p (pre ++ x :: post) = Some x.
Proof.
  induction pre as [|y pre IH]; simpl; intros Hpre Hx.
  - now rewrite Hx.
  - rewrite (Hpre y) by now left. auto.
Qed.

Lemma find_none (p : A -> bool) (l : list A) :
  (forall y, In y l -> p y = false) -> find p l = None.
Proof.
  induction l as [|y l IH]; simpl; intros H; [reflexivity|].
  rewrite (H y) by now left. auto.
Qed.

Lemma list_remove_at (eqb : A -> A -> bool) (pre post : list A) (x : A) :
  (forall y, In y pre -> eqb y x = false) -> eqb x x = true ->
  list_remove eqb x (pre ++ x :: post) = Some (pre ++ post).
Proof.
  induction pre as [|y pre IH]; simpl; intros Hpre Hx.
  - now rewrite Hx.
  - rewrite (Hpre y) by now left. rewrite IH; auto.
Qed.

Lemma list_remove_split (eqb : A -> A -> bool) (x : A) (l l' : list A) :
  list_remove eqb x l = Some l' ->
  exists pre y post, l = pre ++ y :: post /\ l' = pre ++ post.
Proof.
  revert l'; induction l as [|y l IH]; simpl; intros l'; [discriminate|].
  destruct (eqb y x).
  - intros H. injection H as <-. now exists [], y, l.
  - destruct (list_remove eqb x l) as [r|]; [|discriminate].
    intros H. injection H as <-.
    destruct (IH r eq_refl) as (pre & z & post & -> & ->).
    now exists (y :: pre), z, post.
Qed.

End ListFacts.

Section RecordFacts.

Lemma status_eqb_eq (a b : BookStatus) : status_eqb a b = true <-> a = b.
Proof. destruct a, b; simpl; split; congruence. Qed.

Lemma BookRead_eqb_eq (a b : BookRead.t) : BookRead.eqb a b = true <-> a = b.
Proof.
  unfold BookRead.eqb.
  rewrite !andb_true_iff, !str_eqb_eq, Z.eqb_eq, status_eqb_eq.
  destruct a, b; simpl. split.
  - intros ((((-> & ->) & ->) & ->) & ->). reflexivity.
  - intros H. injection H as -> -> -> -> ->. auto.
Qed.

Lemma assign_status_first (book_id : pystr) (status : BookStatus)
    (pre post : list BookRead.t) (r : BookRead.t) :
  (forall b, In b pre -> BookRead.id b <> book_id) ->
  BookRead.id r = book_id ->
  assign_status book_id status (pre ++ r :: post)
  = Some (pre ++ BookRead.set_status r status :: post).
Proof.
  intros Hpre Hr. induction pre as [|b pre IH]; simpl.
  - apply str_eqb_eq in Hr. now rewrite Hr.
  - assert (E : str_eqb (BookRead.id b) book_id = false).
    { apply str_eqb_neq, Hpre. now left. }
    rewrite E, IH; [reflexivity|]. intros; apply Hpre. now right.
Qed.

Lemma assign_status_absent (book_id : pystr) (status : BookStatus)
    (bs : list BookRead.t) :
  (forall b, In b bs -> BookRead.id b <> book_id) ->
  assign_status book_id status bs = None.
Proof.
  induction bs as [|b bs IH]; simpl; intros H; [reflexivity|].
  assert (E : str_eqb (BookRead.id b) book_id = false).
  { apply str_eqb_neq, H. now left. }
  rewrite E, IH; [reflexivity|]. intros; apply H. now right.
Qed.

Lemma assign_status_ids (book_id : pystr) (status : BookStatus)
    (bs bs' : list BookRead.t) :
  assign_status book_id status bs = Some bs' ->
  map BookRead.id bs' = map BookRead.id bs.
Proof.
  revert bs'; induction bs as [|b bs IH]; simpl; intros bs';
    [discriminate|].
  destruct (str_eqb (BookRead.id b) book_id).
  - intros H. now injection H as <-.
  - destruct (assign_status book_id status bs) as [r|]; [|discriminate].
    intros H. injection H as <-. simpl. now rewrite (IH r).
Qed.

Lemma write_same (path : pystr) (doc : pyval) (d : disk) :
  write path doc d path = Some doc.
Proof. unfold write. now rewrite str_eqb_refl. Qed.

Lemma write_other (path p : pystr) (doc : pyval) (d : disk) :
  p <> path -> write path doc d p = d p.
Proof. unfold write. intros H. apply str_eqb_neq in H. now rewrite H. Qed.

End RecordFacts.

(** ** Creating records *)

Section CreateFacts.
Context {RT : PyRuntime}.

(** The textual form of a UUID has 36 characters. *)
Lemma uuid_str_length (n : N) : List.length (uuid_str n) = 36%nat.
Proof. reflexivity. Qed.

Lemma model_validate_id (kvs : list (pystr * pyval)) (b : BookRead.t) :
  BookRead.model_validate (VDict kvs) = ok b ->
  dict_get (utf8 "id") kvs = Some (VStr (BookRead.id b)).
Proof.
  unfold BookRead.model_validate, BookRead.field.
  destruct (dict_get (utf8 "title") kvs) as [vt|]; [|discriminate].
  destruct (validate_title vt); [|discriminate].
  destruct (dict_get (utf8 "author") kvs) as [va|]; [|discriminate].
  destruct (validate_author_field va); [|discriminate].
  destruct (dict_get (utf8 "year") kvs) as [vy|]; [|discriminate].
  destruct (validate_year vy); [|discriminate].
  destruct (dict_get (utf8 "id") kvs) as [vi|]; [|discriminate].
  destruct vi; try discriminate. simpl.
  destruct (dict_get (utf8 "status") kvs) as [vs|]; [|discriminate].
  destruct (BookRead.validate_status vs); [|discriminate].
  intros H. now injection H as <-.
Qed.

Lemma when_save_self (c : bool) (w : world) :
  fst (when c save_data w) = ok tt /\ self (snd (when c save_data w)) = self w.
Proof. destruct c; split; reflexivity. Qed.

(** What a call of [create] can do to the store: nothing, when it raises,
    or append one record that carries the drawn identifier. *)
Lemma create_outcome (t a y : pyval) (need_save : bool) (rnd : N)
    (w : world) :
  (exists e, create t a y need_save rnd w = (raise e, w))
  \/ (exists r w',
        create t a y need_save rnd w = (ok r, w')
        /\ BookRead.id r = uuid_str (uuid4 rnd)
        /\ well_formed r
        /\ books (self w') = books (self w) ++ [r]
        /\ file_name (self w') = file_name (self w)).
Proof.
  unfold create, bind, lift.
  destruct (BookCreate.init t a y) as [e|data]; [left; now exists e|].
  unfold add_book, bind, lift.
  match goal with
  | |- context [BookRead.model_validate (VDict ?kvs)] =>
    destruct (BookRead.model_validate (VDict kvs)) as [e|r] eqn:E
  end; [left; now exists e|].
  right. pose proof (model_validate_well_formed _ _ E) as Hwf.
  apply model_validate_id in E.
  change (Some (VStr (uuid_str (uuid4 rnd))) = Some (VStr (BookRead.id r)))
    in E.
  injection E as E.
  exists r. unfold get_books, set_books, ret.
  destruct need_save; simpl; eexists;
    (split; [reflexivity|]); (split; [now symmetry|]);
    (split; [exact Hwf|]); split; reflexivity.
Qed.

End CreateFacts.


(** ** The concrete runtime meets the laws *)

Section FragmentFacts.

Lemma digit_bounds (c : N) : is_digit c = true <-> (48 <= c <= 57)%N.
Proof. unfold is_digit. rewrite andb_true_iff, !N.leb_le. tauto. Qed.

Lemma between_out (lo hi c : N) :
  (c < lo \/ hi < c)%N -> Fragment.between lo hi c = false.
Proof.
  unfold Fragment.between. intros H.
  destruct (N.leb_spec lo c), (N.leb_spec c hi); simpl; auto; lia.
Qed.

Lemma fragment_isalpha_digit (c : N) :
  is_digit c = true -> Fragment.isalpha c = false.
Proof.
  rewrite digit_bounds. intros H. unfold Fragment.isalpha.
  rewrite !between_out; auto; lia.
Qed.

Lemma fragment_isspace_digit (c : N) :
  is_digit c = true -> Fragment.isspace c = false.
Proof.
  rewrite digit_bounds. intros H. unfold Fragment.isspace.
  rewrite !between_out; auto; lia.
Qed.

Lemma lstrip_digit (c : N) (s : pystr) :
  is_digit c = true -> Fragment.lstrip (c :: s) = c :: s.
Proof. intros H. simpl. now rewrite fragment_isspace_digit. Qed.

Lemma strip_digits (s : pystr) :
  forallb is_digit s = true -> Fragment.strip s = s.
Proof.
  intros H. unfold Fragment.strip.
  assert (E : Fragment.lstrip s = s).
  { destruct s as [|c s]; [reflexivity|]. simpl in H.
    apply andb_true_iff in H. now apply lstrip_digit. }
  rewrite E.
  assert (Hr : forallb is_digit (rev s) = true).
  { rewrite forallb_forall in H |- *. intros c Hc. apply H.
    now apply in_rev. }
  destruct (rev s) as [|c r] eqn:Er.
  - simpl. rewrite <- (rev_involutive s), Er. reflexivity.
  - simpl in Hr. apply andb_true_iff in Hr.
    rewrite lstrip_digit by tauto.
    rewrite <- Er. apply rev_involutive.
Qed.

Lemma fragment_int_of_digits (s : pystr) :
  s <> [] -> forallb is_digit s = true ->
  (List.length s <= max_str_digits)%nat ->
  Fragment.int_of_str s = Some (decimal s).
Proof.
  intros Hne H Hlen. unfold Fragment.int_of_str. rewrite (strip_digits _ H).
  destruct s as [|c s]; [contradiction|].
  assert (Hc : (48 <= c <= 57)%N).
  { simpl in H. apply andb_true_iff in H. now apply digit_bounds. }
  destruct (N.eqb_spec c 45); [lia|]. destruct (N.eqb_spec c 43); [lia|].
  unfold Fragment.digits. apply Nat.leb_le in Hlen. now rewrite H, Hlen.
Qed.

#[export] Instance fragment_laws : PyRuntimeLaws Fragment.runtime.
Proof.
  split.
  - exact fragment_isalpha_digit.
  - exact fragment_isspace_digit.
  - reflexivity.
Qed.

#[export] Instance fragment_int_laws : PyIntLaws Fragment.runtime.
Proof. split. exact fragment_int_of_digits. Qed.

End FragmentFacts.

(** Checking a format on a given text. *)
Lemma author_format_by_validator {RT : PyRuntime} (a : pystr) :
  validate_author a = Some a -> author_format a.
Proof. apply validate_author_format. Qed.



(** ** Rejected input *)

Section RejectFacts.
Context {RT : PyRuntime}.

(** [BookCreate] raises as soon as one field fails. *)
Lemma init_rejects (title author year : pyval) :
  validate_title title = None \/ validate_author_field author = None
  \/ validate_year year = None ->
  BookCreate.init title author year = raise ValidationError.
Proof.
  unfold BookCreate.init.
  intros [H | [H | H]]; rewrite H;
    destruct (validate_title title); try reflexivity;
    destruct (validate_author_field author); reflexivity.
Qed.

Lemma create_init_rejects (title author year : pyval) (need_save : bool)
    (rnd : N) (w : world) :
  BookCreate.init title author year = raise ValidationError ->
  create title author year need_save rnd w = (raise ValidationError, w).
Proof. unfold create, bind, lift. now intros ->. Qed.

Lemma doubled_not_format (c : N) (a : pystr) :
  c = space \/ c = period \/ c = comma -> doubled c a -> ~ author_format a.
Proof.
  intros Hc Hd (_ & Hs & Hp & Hm). destruct Hc as [-> | [-> | ->]]; auto.
Qed.

Lemma bad_char_not_format (c : N) (a : pystr) :
  In c a -> ~ allowed_char c -> ~ author_format a.
Proof.
  intros Hin Hc (Hall & _). rewrite Forall_forall in Hall. auto.
Qed.

End RejectFacts.

(** C3, as the code has it.  A [create] call raises [ValidationError], and leaves
    the store and the files as they were, when the title is longer than
    the bound, or the year is negative, or the author contains a digit or
    any character that is no letter, space, period, comma or dash, or the
    author contains two consecutive spaces, periods or commas.  (Two
    consecutive dashes are accepted.) *)
Theorem create_rejects_malformed_input
    {RT : PyRuntime} {RL : PyRuntimeLaws RT}
    (title author year : pyval) (need_save : bool) (rnd : N) (w : world) :
  (exists t, title = VStr t /\ (len t > 50)%Z)
  \/ (exists y, year = VInt y /\ (y < 0)%Z)
  \/ (exists a, author = VStr a
        /\ ((exists c, In c a /\ (is_digit c = true \/ ~ allowed_char c))
            \/ doubled space a \/ doubled period a \/ doubled comma a)) ->
  create title author year need_save rnd w = (raise ValidationError, w).
Proof.
  intros H. apply create_init_rejects, init_rejects.
  destruct H as [(t & -> & Ht) | [(y & -> & Hy) | (a & -> & Ha)]].
  - left. apply validate_title_rejects. unfold title_format. lia.
  - right; right. apply validate_year_rejects. unfold year_format. lia.
  - right; left. cbn [validate_author_field]. apply validate_author_rejects.
    destruct Ha as [(c & Hin & [Hd | Hc]) | [Hd | [Hd | Hd]]].
    + apply (bad_char_not_format c); auto using digit_not_allowed.
    + now apply (bad_char_not_format c).
    + apply (doubled_not_format space); auto.
    + apply (doubled_not_format period); auto.
    + apply (doubled_not_format comma); auto.
Qed.

(** C3, witness: the second case of the tests of rejected input, an author
    that ends in digits. *)
Lemma create_rejects_malformed_input_witness :
  create (RT := Fragment.runtime)
    (VStr (utf8 "Цифры в имени автора"))
    (VStr (utf8 "Бунин Иван Алексеевич123")) (VInt 1937)
    true 1 one_book_world
  = (raise ValidationError, one_book_world).
Proof.
  apply (create_rejects_malformed_input (RT := Fragment.runtime)).
  right; right. eexists. split; [reflexivity|].
  left. exists 49%N. split; [|left; reflexivity].
  vm_compute. tauto.
Defined.

(** C3, counterexample: an author with two consecutive dashes passes the
    validation and the record is created. *)
Lemma create_accepts_doubled_dash :
  doubled dash (utf8 "Бунин Иван--Алексеевич")
  /\ exists r w',
       create (RT := Fragment.runtime)
         (VStr (utf8 "Тёмные аллеи")) (VStr (utf8 "Бунин Иван--Алексеевич"))
         (VInt 1937) false 1 one_book_world = (ok r, w')
       /\ BookRead.author r = utf8 "Бунин Иван--Алексеевич".
Proof.
  split.
  - apply contains_infix. vm_compute. reflexivity.
  - eexists; eexists. split; vm_compute; reflexivity.
Qed.

(** ** Saving and loading *)

Section PersistenceFacts.
Context {RT : PyRuntime} {RL : PyRuntimeLaws RT}.

Lemma map_r_validate_dump (bs : list BookRead.t) :
  Forall well_formed bs ->
  map_r BookRead.model_validate (map BookRead.model_dump bs) = ok bs.
Proof.
  induction 1 as [|b bs Hb _ IH]; cbn [map map_r]; [reflexivity|].
  now rewrite (model_validate_dump b Hb), IH.
Qed.

Lemma map_r_validate_well_formed (items : list pyval)
    (bs : list BookRead.t) :
  map_r BookRead.model_validate items = ok bs -> Forall well_formed bs.
Proof.
  revert bs; induction items as [|x items IH]; simpl; intros bs H.
  - injection H as <-. constructor.
  - destruct (BookRead.model_validate x) as [e|b] eqn:E; [discriminate|].
    simpl in H.
    destruct (map_r BookRead.model_validate items) as [e|r]; [discriminate|].
    injection H as <-.
    constructor; [now apply (model_validate_well_formed x)|now apply IH].
Qed.

(** Every record that [__init__] loads meets the schema. *)
Lemma init_well_formed (d : disk) (path : pystr) (s : LibraryService) :
  init d path = ok s -> Forall well_formed (books s).
Proof.
  unfold init, _load_data.
  destruct (d path) as [doc|]; simpl.
  - destruct (py_iter doc) as [e|items]; [discriminate|]. simpl.
    destruct (map_r BookRead.model_validate items) as [e|bs] eqn:E;
      [discriminate|].
    intros H. injection H as <-. now apply (map_r_validate_well_formed items).
  - intros H. injection H as <-. constructor.
Qed.

End PersistenceFacts.

Lemma well_formed_by_validator {RT : PyRuntime} (b : BookRead.t) :
  encodable (BookRead.title b) && (len (BookRead.title b) <=? 50)%Z = true ->
  validate_author (BookRead.author b) = Some (BookRead.author b) ->
  (0 <=? BookRead.year b)%Z = true ->
  well_formed b.
Proof.
  intros Ht Ha Hy. split; [|split].
  - now apply title_check_format.
  - now apply validate_author_format.
  - now apply Z.leb_le.
Qed.

Lemma test_books_well_formed :
  Forall (well_formed (RT := Fragment.runtime)) test_books.
Proof.
  unfold test_books.
  repeat (apply Forall_cons;
          [apply (well_formed_by_validator (RT := Fragment.runtime));
           vm_compute; reflexivity|]).
  apply Forall_nil.
Qed.

(* ================================================================== *)
(** ** The data file as bytes *)

Section EncodingFacts.
Import Files.

Ltac euclid := Z.to_euclidean_division_equations; lia.

Lemma encode_char_scalar (c : N) :
  scalar c = true <-> exists b, encode_char c = Some b.
Proof.
  unfold scalar, encode_char.
  destruct (N.ltb_spec c 0x80), (N.ltb_spec c 0x800), (N.ltb_spec c 0x10000),
    (N.ltb_spec c 0xD800), (N.ltb_spec 0xDFFF c), (N.leb_spec 0xD800 c),
    (N.leb_spec c 0xDFFF), (N.leb_spec c 0x10FFFF); simpl;
    try lia; split; intros Hx; try discriminate; eauto;
    destruct Hx as [b Hx]; discriminate.
Qed.

Lemma encodable_encode (s : pystr) :
  encodable s = true <-> exists bs, encode s = Some bs.
Proof.
  induction s as [|c s IH]; simpl.
  - split; eauto.
  - unfold encodable in *. simpl. rewrite andb_true_iff, IH, encode_char_scalar.
    split.
    + intros [[b ->] [bs ->]]. eauto.
    + destruct (encode_char c), (encode s); intros [x H]; try discriminate.
      eauto.
Qed.

Lemma encode_app (a b : pystr) (x y : list N) :
  encode a = Some x -> encode b = Some y -> encode (a ++ b) = Some (x ++ y).
Proof.
  revert x; induction a as [|c a IH]; simpl; intros x Ha Hb.
  - injection Ha as <-. exact Hb.
  - destruct (encode_char c) as [bc|]; [|discriminate].
    destruct (encode a) as [xa|]; [|discriminate].
    injection Ha as <-. rewrite (IH xa eq_refl Hb). now rewrite app_assoc.
Qed.

Lemma ltb_false (a b : N) : (b <= a)%N -> (a <? b)%N = false.
Proof. apply N.ltb_ge. Qed.

Lemma ltb_true (a b : N) : (a < b)%N -> (a <? b)%N = true.
Proof. apply N.ltb_lt. Qed.

Lemma leb_true (a b : N) : (a <= b)%N -> (a <=? b)%N = true.
Proof. apply N.leb_le. Qed.

Lemma continuation_true (b : N) :
  (0x80 <= b < 0xC0)%N -> continuation b = true.
Proof.
  intros H. unfold continuation.
  rewrite leb_true, ltb_true by lia. reflexivity.
Qed.

Lemma decode_two (b0 b1 : N) (r : list N) :
  (0xC2 <= b0 < 0xE0)%N -> (0x80 <= b1 < 0xC0)%N ->
  decode (b0 :: b1 :: r)
  = option_map (cons ((b0 - 0xC0) * 64 + (b1 - 0x80))%N) (decode r).
Proof.
  intros H0 H1. cbn [decode].
  rewrite (ltb_false b0 0x80), (ltb_false b0 0xC2), (ltb_true b0 0xE0) by lia.
  now rewrite continuation_true.
Qed.

Lemma decode_three (b0 b1 b2 c : N) (r : list N) :
  (0xE0 <= b0 < 0xF0)%N -> (0x80 <= b1 < 0xC0)%N -> (0x80 <= b2 < 0xC0)%N ->
  c = ((b0 - 0xE0) * 4096 + (b1 - 0x80) * 64 + (b2 - 0x80))%N ->
  (0x800 <= c)%N -> (0xD800 <=? c)%N && (c <=? 0xDFFF)%N = false ->
  decode (b0 :: b1 :: b2 :: r) = option_map (cons c) (decode r).
Proof.
  intros H0 H1 H2 Hc Hlo Hs. cbn [decode]. cbv zeta. rewrite <- Hc.
  rewrite (ltb_false b0 0x80), (ltb_false b0 0xC2), (ltb_false b0 0xE0),
    (ltb_true b0 0xF0) by lia.
  rewrite !continuation_true by lia. rewrite Hs, leb_true by lia.
  reflexivity.
Qed.

Lemma decode_four (b0 b1 b2 b3 c : N) (r : list N) :
  (0xF0 <= b0 < 0xF5)%N -> (0x80 <= b1 < 0xC0)%N -> (0x80 <= b2 < 0xC0)%N ->
  (0x80 <= b3 < 0xC0)%N ->
  c = ((b0 - 0xF0) * 262144 + (b1 - 0x80) * 4096 + (b2 - 0x80) * 64
       + (b3 - 0x80))%N ->
  (0x10000 <= c <= 0x10FFFF)%N ->
  decode (b0 :: b1 :: b2 :: b3 :: r) = option_map (cons c) (decode r).
Proof.
  intros H0 H1 H2 H3 Hc Hr. cbn [decode]. cbv zeta. rewrite <- Hc.
  rewrite (ltb_false b0 0x80), (ltb_false b0 0xC2), (ltb_false b0 0xE0),
    (ltb_false b0 0xF0), (ltb_true b0 0xF5) by lia.
  rewrite !continuation_true by lia. rewrite !leb_true by lia.
  reflexivity.
Qed.

Lemma some_eq {A} (a b : A) : Some a = Some b -> a = b.
Proof. congruence. Qed.

Lemma decode_encode_char (c : N) (b r : list N) :
  encode_char c = Some b -> decode (b ++ r) = option_map (cons c) (decode r).
Proof.
  unfold encode_char.
  destruct (N.ltb_spec c 0x80) as [H1|H1].
  { intros E. apply some_eq in E. subst b. cbn [app decode].
    now rewrite (ltb_true c 0x80). }
  destruct (N.ltb_spec c 0x800) as [H2|H2].
  { intros E. apply some_eq in E. subst b. cbn [app].
    rewrite decode_two by (zify; euclid).
    f_equal. f_equal. zify; euclid. }
  destruct (N.ltb_spec c 0x10000) as [H3|H3].
  { destruct ((0xD800 <=? c)%N && (c <=? 0xDFFF)%N) eqn:Hs; [discriminate|].
    intros E. apply some_eq in E. subst b. cbn [app].
    apply decode_three; try (zify; euclid). exact Hs. }
  destruct (N.leb_spec c 0x10FFFF) as [H4|H4]; [|discriminate].
  intros E. apply some_eq in E. subst b. cbn [app].
  apply decode_four; zify; euclid.
Qed.

(** What was encoded decodes to the same text. *)
Lemma decode_encode (s : pystr) (bs : list N) :
  encode s = Some bs -> decode bs = Some s.
Proof.
  revert bs; induction s as [|c s IH]; simpl; intros bs H.
  - now injection H as <-.
  - destruct (encode_char c) as [b|] eqn:Ec; [|discriminate].
    destruct (encode s) as [bs'|]; [|discriminate].
    injection H as <-. rewrite (decode_encode_char c b bs' Ec).
    now rewrite (IH bs' eq_refl).
Qed.

Lemma universal_newlines_plain (s : pystr) :
  Forall (fun c => c <> 13%N) s -> universal_newlines false s = s.
Proof.
  induction 1 as [|c s Hc _ IH]; simpl; [reflexivity|].
  destruct (N.eqb_spec c 13); [contradiction|].
  rewrite andb_false_r. now rewrite IH.
Qed.

End EncodingFacts.

Section StringLiteralFacts.
Import Files.

Lemma below_32 (c : N) : (c < 32)%N -> In c (map N.of_nat (seq 0 32)).
Proof.
  intros H. replace c with (N.of_nat (N.to_nat c)) by lia.
  apply in_map, in_seq. lia.
Qed.

Lemma eqb_false (a b : N) : a <> b -> (a =? b)%N = false.
Proof. apply N.eqb_neq. Qed.

(** One character, as the encoder writes it, is read as that character. *)
Lemma scanstring_escape_char (c x : N) (r : pystr) :
  scanstring (escape c ++ x :: r) = more c (scanstring (x :: r)).
Proof.
  destruct (N.ltb_spec c 32) as [Hlt|Hge].
  - apply below_32 in Hlt. simpl in Hlt.
    repeat (destruct Hlt as [<-|Hlt]; [reflexivity|]). contradiction.
  - unfold escape.
    destruct (N.eqb_spec c 34) as [->|H34]; [reflexivity|].
    destruct (N.eqb_spec c 92) as [->|H92]; [reflexivity|].
    rewrite !eqb_false, ltb_false by lia.
    cbn [app scanstring].
    rewrite !eqb_false, ltb_false by lia. reflexivity.
Qed.

(** The text between the quotes is read back as it was. *)
Lemma scanstring_escape (s rest : pystr) :
  scanstring (flat_map escape s ++ 34%N :: rest) = Some (s, rest).
Proof.
  induction s as [|c s IH]; [reflexivity|].
  cbn [flat_map]. rewrite <- app_assoc.
  destruct (flat_map escape s ++ 34%N :: rest) as [|x r] eqn:E.
  - destruct (flat_map escape s); discriminate.
  - rewrite scanstring_escape_char, IH. reflexivity.
Qed.

End StringLiteralFacts.

Section NumberFacts.
Import Files.

Ltac euclid := Z.to_euclidean_division_equations; lia.

Lemma decimal_app (l : pystr) (d : N) :
  decimal (l ++ [d]) = (10 * decimal l + (Z.of_N d - 48))%Z.
Proof. unfold decimal. now rewrite fold_left_app. Qed.

Lemma digits_of_step (fuel : nat) (n : N) (acc : pystr) :
  digits_of (S fuel) n acc
  = if (n <? 10)%N then (48 + n)%N :: acc
    else digits_of fuel (n / 10) ((48 + n mod 10)%N :: acc).
Proof. reflexivity. Qed.

Lemma digits_of_acc (fuel : nat) (n : N) (acc : pystr) :
  digits_of fuel n acc = digits_of fuel n [] ++ acc.
Proof.
  revert n acc; induction fuel as [|fuel IH]; intros n acc; [reflexivity|].
  cbn [digits_of]. destruct (n <? 10)%N; [reflexivity|].
  rewrite (IH _ [_]), (IH _ (_ :: acc)), <- app_assoc. reflexivity.
Qed.

Lemma digits_of_spec (fuel : nat) (n : N) :
  (n < 2 ^ N.of_nat (S fuel))%N -> digits_for n (digits_of (S fuel) n []).
Proof.
  revert n; induction fuel as [|fuel IH]; intros n Hn.
  - assert (Hc : n = 0%N \/ n = 1%N) by (simpl in Hn; lia).
    destruct Hc as [-> | ->]; (split; [reflexivity|split; [reflexivity|]]);
      eexists; eexists; (split; [reflexivity|]); split; intros H;
      first [now split | lia].
  - rewrite digits_of_step. destruct (N.ltb_spec n 10) as [Hlt|Hge].
    + split; [|split].
      * unfold decimal. cbn [fold_left]. lia.
      * cbn [forallb]. unfold is_digit. rewrite !leb_true by lia.
        reflexivity.
      * eexists; eexists. split; [reflexivity|]. split; intros; [|lia].
        subst n. now split.
    + rewrite digits_of_acc.
      assert (Hq : (n / 10 < 2 ^ N.of_nat (S fuel))%N).
      { rewrite (Nat2N.inj_succ (S fuel)), N.pow_succ_r' in Hn.
        zify. euclid. }
      destruct (IH (n / 10)%N Hq) as (Hd & Ha & c & r & E & _ & Hc).
      split; [|split].
      * rewrite decimal_app, Hd. zify. euclid.
      * rewrite forallb_app, Ha. cbn [forallb]. unfold is_digit.
        rewrite !leb_true by (zify; euclid). reflexivity.
      * exists c, (r ++ [(48 + n mod 10)%N]). rewrite E.
        split; [reflexivity|]. split; [lia|]. intros _. apply Hc.
        zify. euclid.
Qed.

Lemma decimal_digits_spec (n : N) : digits_for n (decimal_digits n).
Proof.
  apply digits_of_spec. rewrite Nat2N.inj_succ, N2Nat.id.
  destruct (N.eq_dec n 0) as [->|Hn]; [reflexivity|].
  apply N.log2_spec. lia.
Qed.

Lemma span_digits_app (ds rest : pystr) :
  forallb is_digit ds = true -> starts_with_digit rest = false ->
  span_digits (ds ++ rest) = (ds, rest).
Proof.
  intros Hd Hr. induction ds as [|c ds IH]; cbn [app forallb] in *.
  - destruct rest as [|c r]; [reflexivity|].
    cbn [starts_with_digit span_digits] in *. now rewrite Hr.
  - apply andb_true_iff in Hd. destruct Hd as [Hc Hd].
    cbn [span_digits]. now rewrite Hc, (IH Hd).
Qed.

End NumberFacts.

Section ScannerFacts.
Import Files.

Lemma null_text : utf8 "null" = [110; 117; 108; 108]%N.
Proof. reflexivity. Qed.

Lemma true_text : utf8 "true" = [116; 114; 117; 101]%N.
Proof. reflexivity. Qed.

Lemma false_text : utf8 "false" = [102; 97; 108; 115; 101]%N.
Proof. reflexivity. Qed.

Lemma stops_no_number (rest : pystr) :
  stops rest = true ->
  starts_with_digit rest = false /\ continues_as_float rest = false.
Proof.
  destruct rest as [|c r]; [now split|]. cbn [stops]. intros H.
  apply orb_true_iff in H. rewrite !N.eqb_eq in H.
  destruct H as [-> | ->]; now split.
Qed.

(** The digits of a natural number are read back as that number. *)
Lemma match_number_digits (n : N) (rest : pystr) :
  (List.length (decimal_digits n) <= max_str_digits)%nat ->
  stops rest = true ->
  match_number (decimal_digits n ++ rest) = Found (Z.of_N n, rest).
Proof.
  intros Hlen Hrest. apply stops_no_number in Hrest.
  destruct Hrest as [Hd Hf].
  destruct (decimal_digits_spec n) as (Hv & Hall & c & r & E & H0 & Hpos).
  rewrite E in *. cbn [forallb] in Hall. apply andb_true_iff in Hall.
  destruct Hall as [Hc Hr]. apply digit_bounds in Hc.
  unfold match_number. cbn [app].
  rewrite (eqb_false c 45) by lia.
  destruct (N.eq_dec n 0) as [Hn|Hn].
  - destruct (H0 Hn) as [-> ->]. cbn [app]. cbv iota beta.
    change ((49 <=? 48)%N && (48 <=? 57)%N) with false.
    change (48 =? 48)%N with true. cbv iota.
    rewrite Hf. apply Nat.leb_le in Hlen.
    rewrite Nat.ltb_antisym, Hlen. cbn [negb]. now rewrite Hv.
  - specialize (Hpos Hn). rewrite !leb_true by lia. cbn [andb].
    rewrite (span_digits_app r rest Hr Hd). rewrite Hf.
    apply Nat.leb_le in Hlen. rewrite Nat.ltb_antisym, Hlen.
    cbn [negb]. now rewrite Hv.
Qed.

Lemma match_number_minus (n : N) (rest : pystr) :
  (List.length (decimal_digits n) <= max_str_digits)%nat ->
  stops rest = true ->
  match_number (45%N :: decimal_digits n ++ rest) = Found (- Z.of_N n, rest)%Z.
Proof.
  intros Hlen Hrest. apply stops_no_number in Hrest.
  destruct Hrest as [Hd Hf].
  destruct (decimal_digits_spec n) as (Hv & Hall & c & r & E & H0 & Hpos).
  rewrite E in *. cbn [forallb] in Hall. apply andb_true_iff in Hall.
  destruct Hall as [Hc Hr]. apply digit_bounds in Hc.
  unfold match_number. change (45 =? 45)%N with true. cbn [app].
  cbv iota beta.
  destruct (N.eq_dec n 0) as [Hn|Hn].
  - destruct (H0 Hn) as [-> ->]. cbn [app].
    change ((49 <=? 48)%N && (48 <=? 57)%N) with false.
    change (48 =? 48)%N with true. cbv iota.
    rewrite Hf. apply Nat.leb_le in Hlen.
    rewrite Nat.ltb_antisym, Hlen. cbn [negb]. now rewrite Hv.
  - specialize (Hpos Hn). rewrite !leb_true by lia. cbn [andb].
    rewrite (span_digits_app r rest Hr Hd). rewrite Hf.
    apply Nat.leb_le in Hlen. rewrite Nat.ltb_antisym, Hlen.
    cbn [negb]. now rewrite Hv.
Qed.

End ScannerFacts.

Section ValueFacts.

(** Induction on a value, with the property at hand for the items of a
    list and for the values of a dictionary. *)
Lemma pyval_induction (P : pyval -> Prop) :
  P VNone -> (forall b, P (VBool b)) -> (forall z, P (VInt z)) ->
  (forall s, P (VStr s)) ->
  (forall lst, Forall P lst -> P (VList lst)) ->
  (forall items, Forall (fun kv => P (snd kv)) items -> P (VDict items)) ->
  forall v, P v.
Proof.
  intros HN HB HI HS HL HD. fix IH 1. intros [|b|z|s|lst|items].
  - exact HN.
  - apply HB.
  - apply HI.
  - apply HS.
  - apply HL. induction lst as [|x lst IHl]; constructor;
      [apply IH | exact IHl].
  - apply HD. induction items as [|[k x] items IHl]; constructor;
      [apply IH | exact IHl].
Qed.

End ValueFacts.

Section TextFacts.
Import Files.

Lemma joined_app (a b : list chunk) : joined (a ++ b) = joined a ++ joined b.
Proof. apply flat_map_app. Qed.

Lemma joined_ok (text : pystr) (l : list chunk) :
  joined (ok text :: l) = text ++ joined l.
Proof. reflexivity. Qed.

Lemma atom_iterencode (level : nat) (v : pyval) (c : chunk) :
  atom v = Some c -> iterencode level v = [c].
Proof.
  destruct v as [|[|]|z|s|lst|items]; simpl; intros H;
    try discriminate; now injection H as <-.
Qed.

Lemma int_repr_printable (z : Z) :
  printable (VInt z) = true ->
  int_repr z = ok (if (z <? 0)%Z then 45%N :: decimal_digits (Z.abs_N z)
                   else decimal_digits (Z.abs_N z)).
Proof.
  cbn [printable]. intros H. unfold int_repr.
  now rewrite Nat.ltb_antisym, H.
Qed.

(** An atom that is printable comes as text. *)
Lemma atom_ok (v : pyval) (c : chunk) :
  printable v = true -> atom v = Some c -> exists text, c = ok text.
Proof.
  destruct v as [|[|]|z|s|lst|items]; cbn [atom]; intros Hp H;
    try discriminate; injection H as <-; eauto.
  rewrite (int_repr_printable z Hp). eauto.
Qed.

Lemma joined_list_items (nested : pyval -> list chunk) (sep buf : pystr)
    (x : pyval) (l : list pyval) :
  printable x = true ->
  (forall c, atom x = Some c -> nested x = [c]) ->
  joined (list_items nested sep buf (x :: l))
  = buf ++ joined (nested x) ++ joined (list_items nested sep (44%N :: sep) l).
Proof.
  intros Hp Hn. cbn [list_items]. rewrite joined_app.
  destruct (atom x) as [c|] eqn:E.
  - destruct (atom_ok x c Hp E) as [text ->]. rewrite (Hn _ eq_refl).
    unfold ok. cbn [then_text joined flat_map].
    now rewrite !app_nil_r, <- app_assoc.
  - rewrite joined_ok. now rewrite <- app_assoc.
Qed.

Lemma joined_dict_items (nested : pyval -> list chunk) (sep : pystr)
    (first : bool) (k : pystr) (x : pyval) (r : list (pystr * pyval)) :
  (forall c, atom x = Some c -> nested x = [c]) ->
  joined (dict_items nested sep first ((k, x) :: r))
  = (if first then [] else 44%N :: sep)
    ++ encode_basestring k ++ [58; 32]%N ++ joined (nested x)
    ++ joined (dict_items nested sep false r).
Proof.
  intros Hn. cbn [dict_items]. rewrite !joined_app. f_equal.
  - destruct first; [reflexivity|]. rewrite joined_ok. apply app_nil_r.
  - rewrite !joined_ok. change (joined []) with (@nil N).
    rewrite app_nil_r, <- !app_assoc. f_equal.
    change (utf8 ": ") with [58; 32]%N. f_equal.
    f_equal.
    destruct (atom x) as [c|] eqn:E; [|reflexivity].
    now rewrite (Hn _ eq_refl).
Qed.

Lemma is_ws_false (c : N) :
  c <> 32%N -> c <> 9%N -> c <> 10%N -> c <> 13%N -> is_ws c = false.
Proof. intros. unfold is_ws. now rewrite !eqb_false. Qed.

Lemma opening_digit (c : N) : (48 <= c <= 57)%N -> opening c.
Proof.
  intros H. split; [|split].
  - apply is_ws_false; lia.
  - apply eqb_false; lia.
  - apply eqb_false; lia.
Qed.

Lemma text_head (level : nat) (v : pyval) :
  printable v = true ->
  exists c r, joined (iterencode level v) = c :: r /\ opening c.
Proof.
  intros Hp. destruct v as [|[|]|z|s|[|x l]|[|[k x] items]];
    try (eexists; eexists; split; [reflexivity|]; now repeat split).
  - cbn [iterencode joined flat_map]. rewrite (int_repr_printable z Hp).
    destruct (z <? 0)%Z.
    + eexists; eexists. split; [reflexivity|]. now repeat split.
    + destruct (decimal_digits_spec (Z.abs_N z))
        as (_ & Hall & c & r & E & _).
      rewrite E in *. cbn [forallb] in Hall. apply andb_true_iff in Hall.
      destruct Hall as [Hc _]. apply digit_bounds in Hc.
      exists c, (r ++ []). split; [reflexivity|]. now apply opening_digit.
  - cbn [printable forallb] in Hp. apply andb_true_iff in Hp.
    destruct Hp as [Hx _].
    change (iterencode level (VList (x :: l)))
      with (list_items (iterencode (S level)) (newline_indent (S level))
              (91%N :: newline_indent (S level)) (x :: l)
            ++ [ok (newline_indent level); ok (utf8 "]")]).
    rewrite joined_app, joined_list_items;
      [|exact Hx|apply atom_iterencode].
    eexists; eexists. split; [reflexivity|]. now repeat split.
Qed.

End TextFacts.

Section RoundTripFacts.
Import Files.

Lemma scan_once_string (fuel : nat) (r : pystr) :
  scan_once (S fuel) (34%N :: r)
  = match scanstring r with
    | Some (text, rest) => Found (VStr text, rest)
    | None => Malformed
    end.
Proof. reflexivity. Qed.

Lemma scan_once_array (fuel : nat) (r : pystr) :
  scan_once (S fuel) (91%N :: r)
  = match skip_ws r with
    | c' :: r' =>
      if (c' =? 93)%N then Found (VList [], r')
      else and_then (array_items fuel (c' :: r')) (fun found =>
           Found (VList (fst found), snd found))
    | [] => Malformed
    end.
Proof. reflexivity. Qed.

Lemma scan_once_object (fuel : nat) (r : pystr) :
  scan_once (S fuel) (123%N :: r)
  = match skip_ws r with
    | c' :: r' =>
      if (c' =? 125)%N then Found (VDict [], r')
      else and_then (object_items fuel (c' :: r')) (fun found =>
           Found (VDict (dict_of (fst found)), snd found))
    | [] => Malformed
    end.
Proof. reflexivity. Qed.

Lemma array_items_step (fuel : nat) (s : pystr) :
  array_items (S fuel) s
  = and_then (scan_once fuel s) (fun found =>
    match skip_ws (snd found) with
    | c :: r =>
      if (c =? 93)%N then Found ([fst found], r)
      else if (c =? 44)%N then
        and_then (array_items fuel (skip_ws r)) (fun more =>
        Found (fst found :: fst more, snd more))
      else Malformed
    | [] => Malformed
    end).
Proof. reflexivity. Qed.

Lemma object_items_step (fuel : nat) (r : pystr) :
  object_items (S fuel) (34%N :: r)
  = match scanstring r with
    | None => Malformed
    | Some (key, rest) =>
      match skip_ws rest with
      | c' :: r' =>
        if (c' =? 58)%N then
          and_then (scan_once fuel (skip_ws r')) (fun found =>
          match skip_ws (snd found) with
          | c'' :: r'' =>
            if (c'' =? 125)%N then Found ([(key, fst found)], r'')
            else if (c'' =? 44)%N then
              and_then (object_items fuel (skip_ws r'')) (fun more =>
              Found ((key, fst found) :: fst more, snd more))
            else Malformed
          | [] => Malformed
          end)
        else Malformed
      | [] => Malformed
      end
    end.
Proof. reflexivity. Qed.

Lemma startswith_other (p0 c : N) (p r : pystr) :
  p0 <> c -> startswith (p0 :: p) (c :: r) = false.
Proof. intros H. cbn [startswith]. now rewrite eqb_false. Qed.

Lemma nan_text : utf8 "NaN" = [78; 97; 78]%N.
Proof. reflexivity. Qed.

Lemma infinity_text :
  utf8 "Infinity" = [73; 110; 102; 105; 110; 105; 116; 121]%N.
Proof. reflexivity. Qed.

Lemma minus_infinity_text :
  utf8 "-Infinity" = [45; 73; 110; 102; 105; 110; 105; 116; 121]%N.
Proof. reflexivity. Qed.

(** A text that starts with a digit, or with a minus sign and a digit, is
    scanned as a number. *)
Lemma scan_once_number (fuel : nat) (c : N) (r : pystr) :
  (48 <= c <= 57)%N
  \/ (c = 45%N /\ exists d r', r = d :: r' /\ (48 <= d <= 57)%N) ->
  scan_once (S fuel) (c :: r)
  = and_then (match_number (c :: r)) (fun found =>
    Found (VInt (fst found), snd found)).
Proof.
  intros H. cbn [scan_once].
  rewrite null_text, true_text, false_text, nan_text, infinity_text,
    minus_infinity_text.
  destruct H as [H | (-> & d & r' & -> & H)].
  - rewrite !eqb_false by lia. rewrite !startswith_other by lia.
    reflexivity.
  - change (45 =? 34)%N with false. change (45 =? 123)%N with false.
    change (45 =? 91)%N with false. rewrite !startswith_other by lia.
    cbn [startswith]. rewrite (eqb_false 73 d) by lia. reflexivity.
Qed.

Lemma skip_ws_head (c : N) (r : pystr) :
  is_ws c = false -> skip_ws (c :: r) = c :: r.
Proof. intros H. cbn [skip_ws]. now rewrite H. Qed.

Lemma skip_ws_spaces (n : nat) (s : pystr) :
  skip_ws (repeat 32%N n ++ s) = skip_ws s.
Proof. induction n as [|n IH]; [reflexivity|exact IH]. Qed.

Lemma skip_ws_indent (level : nat) (c : N) (r : pystr) :
  is_ws c = false -> skip_ws (newline_indent level ++ c :: r) = c :: r.
Proof.
  intros H. unfold newline_indent.
  change (skip_ws ((10%N :: repeat 32%N (4 * level)) ++ c :: r))
    with (skip_ws (repeat 32%N (4 * level) ++ c :: r)).
  rewrite skip_ws_spaces. now apply skip_ws_head.
Qed.

(** An atom is read back. *)
Lemma reads_back_atom (v : pyval) (c : chunk) :
  atom v = Some c -> reads_back v.
Proof.
  intros Ha level fuel rest Hp Hfuel Hrest.
  rewrite (atom_iterencode level v c Ha) in *.
  destruct (atom_ok v c Hp Ha) as [text ->].
  unfold ok in *. cbn [joined flat_map] in *. rewrite app_nil_r in *.
  destruct fuel as [|fuel].
  { destruct (text_head level v Hp) as (c0 & r0 & E & _).
    rewrite (atom_iterencode level v _ Ha) in E. cbn [joined flat_map] in E.
    rewrite app_nil_r in E. rewrite E in Hfuel. simpl in Hfuel. lia. }
  destruct v as [|[|]|z|s|lst|items]; cbn [atom] in Ha; try discriminate.
  - apply some_eq in Ha. injection Ha as <-. reflexivity.
  - apply some_eq in Ha. injection Ha as <-. reflexivity.
  - apply some_eq in Ha. injection Ha as <-. reflexivity.
  - rewrite (int_repr_printable z Hp) in Ha. apply some_eq in Ha.
    injection Ha as <-. cbn [printable] in Hp. apply Nat.leb_le in Hp.
    destruct (decimal_digits_spec (Z.abs_N z))
      as (_ & Hall & d & r & E & _).
    assert (Hd : (48 <= d <= 57)%N).
    { rewrite E in Hall. cbn [forallb] in Hall.
      apply andb_true_iff in Hall. now apply digit_bounds. }
    destruct (Z.ltb_spec z 0) as [Hneg|Hpos].
    + cbn [app]. rewrite scan_once_number.
      2: { right. split; [reflexivity|]. rewrite E. cbn [app]. eauto. }
      rewrite match_number_minus by assumption. cbn [and_then fst snd].
      do 3 f_equal. lia.
    + rewrite E. cbn [app]. rewrite scan_once_number by (now left).
      change (d :: r ++ rest) with ((d :: r) ++ rest). rewrite <- E.
      rewrite match_number_digits by assumption. cbn [and_then fst snd].
      do 3 f_equal. lia.
  - apply some_eq in Ha. injection Ha as <-. unfold encode_basestring.
    cbn [app]. rewrite scan_once_string, <- app_assoc. cbn [app].
    now rewrite scanstring_escape.
Qed.

End RoundTripFacts.

Section ContainerFacts.
Import Files.

Lemma skip_ws_text (level : nat) (v : pyval) (tail : pystr) :
  printable v = true ->
  skip_ws (joined (iterencode level v) ++ tail)
  = joined (iterencode level v) ++ tail.
Proof.
  intros Hp. destruct (text_head level v Hp) as (c & r & -> & Hc & _).
  now apply skip_ws_head.
Qed.

Lemma skip_ws_indent_text (outer level : nat) (v : pyval) (tail : pystr) :
  printable v = true ->
  skip_ws (newline_indent outer ++ joined (iterencode level v) ++ tail)
  = joined (iterencode level v) ++ tail.
Proof.
  intros Hp. destruct (text_head level v Hp) as (c & r & -> & Hc & _).
  now apply skip_ws_indent.
Qed.

Lemma stops_indent (level : nat) (tail : pystr) :
  stops (newline_indent level ++ tail) = true.
Proof. reflexivity. Qed.

(** The loop of the array reads back the items that the loop of the
    encoder printed. *)
Lemma array_items_back (level outer : nat) (l : list pyval) :
  forall (x : pyval) (fuel : nat) (rest : pystr),
    Forall reads_back (x :: l) ->
    forallb printable (x :: l) = true ->
    (List.length (joined (iterencode level x))
     + List.length (joined (list_items (iterencode level)
                              (newline_indent level)
                              (44%N :: newline_indent level) l))
     + 1 <= fuel)%nat ->
    array_items fuel
      (joined (iterencode level x)
       ++ joined (list_items (iterencode level) (newline_indent level)
                    (44%N :: newline_indent level) l)
       ++ newline_indent outer ++ 93%N :: rest)
    = Found (x :: l, rest).
Proof.
  induction l as [|y l IH]; intros x fuel rest HF Hp Hfuel;
    (destruct fuel as [|fuel]; [lia|]);
    rewrite array_items_step;
    cbn [forallb] in Hp; apply andb_true_iff in Hp; destruct Hp as [Hx Hl];
    pose proof (Forall_inv HF) as Rx; pose proof (Forall_inv_tail HF) as Rl.
  - cbn [list_items joined flat_map app] in *.
    rewrite (Rx level fuel _ Hx) by (lia || apply stops_indent).
    cbn [and_then fst snd]. rewrite skip_ws_indent by reflexivity.
    reflexivity.
  - cbn [forallb] in Hl. pose proof Hl as Hl'.
    apply andb_true_iff in Hl'. destruct Hl' as [Hy _].
    rewrite joined_list_items in * by (assumption || apply atom_iterencode).
    rewrite <- !app_assoc. cbn [app].
    rewrite (Rx level fuel _ Hx) by (reflexivity || lia).
    cbn [and_then fst snd]. rewrite skip_ws_head by reflexivity.
    change (44 =? 93)%N with false. change (44 =? 44)%N with true.
    cbv iota. rewrite skip_ws_indent_text by exact Hy.
    rewrite (IH y fuel rest Rl Hl).
    + reflexivity.
    + rewrite !length_app in Hfuel. cbn [List.length] in Hfuel. lia.
Qed.

Lemma list_text (level : nat) (x : pyval) (l : list pyval) (rest : pystr) :
  printable x = true ->
  joined (iterencode level (VList (x :: l))) ++ rest
  = 91%N :: newline_indent (S level)
    ++ joined (iterencode (S level) x)
    ++ joined (list_items (iterencode (S level)) (newline_indent (S level))
                 (44%N :: newline_indent (S level)) l)
    ++ newline_indent level ++ 93%N :: rest.
Proof.
  intros Hx.
  change (iterencode level (VList (x :: l)))
    with (list_items (iterencode (S level)) (newline_indent (S level))
            (91%N :: newline_indent (S level)) (x :: l)
          ++ [ok (newline_indent level); ok (utf8 "]")]).
  rewrite joined_app, joined_list_items by (assumption || apply atom_iterencode).
  rewrite !joined_ok. change (joined []) with (@nil N).
  change (utf8 "]") with [93%N]. rewrite <- !app_assoc. reflexivity.
Qed.

Lemma reads_back_list (lst : list pyval) :
  Forall reads_back lst -> reads_back (VList lst).
Proof.
  intros HF level fuel rest Hp Hfuel Hrest. destruct lst as [|x l].
  - destruct fuel as [|fuel]; [simpl in Hfuel; lia | reflexivity].
  - cbn [printable] in Hp. pose proof Hp as Hp'. cbn [forallb] in Hp'.
    apply andb_true_iff in Hp'. destruct Hp' as [Hx _].
    pose proof (list_text level x l [] Hx) as E. rewrite app_nil_r in E.
    rewrite E in Hfuel. rewrite (list_text level x l rest Hx).
    destruct fuel as [|fuel]; [simpl in Hfuel; lia|].
    rewrite scan_once_array, skip_ws_indent_text by exact Hx.
    destruct (text_head (S level) x Hx) as (c & r & Ec & _ & Hc & _).
    rewrite Ec. cbn [app]. rewrite Hc.
    change (c :: r ++ ?t) with ((c :: r) ++ t). rewrite <- Ec.
    rewrite (array_items_back (S level) level l x fuel rest HF Hp).
    + reflexivity.
    + cbn [List.length] in Hfuel. rewrite !length_app in Hfuel.
      cbn [List.length] in Hfuel. lia.
Qed.

End ContainerFacts.

Section DictionaryFacts.
Import Files.

Lemma existsb_none {A} (f : A -> bool) (l : list A) (x : A) :
  existsb f l = false -> In x l -> f x = false.
Proof.
  intros H Hx. destruct (f x) eqn:E; [|reflexivity].
  assert (Ht : existsb f l = true) by (apply existsb_exists; eauto).
  congruence.
Qed.

Lemma dict_set_new (k : pystr) (v : pyval) (d : list (pystr * pyval)) :
  existsb (fun k' => str_eqb k' k) (map fst d) = false ->
  dict_set k v d = d ++ [(k, v)].
Proof.
  induction d as [|[k' v'] d IH]; cbn [dict_set map existsb app fst];
    [reflexivity|].
  intros H. apply orb_false_iff in H. destruct H as [H1 H2].
  now rewrite H1, (IH H2).
Qed.

Lemma dict_of_from (pairs acc : list (pystr * pyval)) :
  distinct (map fst pairs) = true ->
  (forall k, In k (map fst pairs) ->
             existsb (fun k' => str_eqb k' k) (map fst acc) = false) ->
  fold_left (fun d kv => dict_set (fst kv) (snd kv) d) pairs acc
  = acc ++ pairs.
Proof.
  revert acc; induction pairs as [|[k v] pairs IH]; intros acc Hd Hacc;
    cbn [fold_left map distinct fst snd] in *.
  - now rewrite app_nil_r.
  - apply andb_true_iff in Hd. destruct Hd as [Hk Hd].
    rewrite dict_set_new by (apply Hacc; now left).
    rewrite IH; [now rewrite <- app_assoc | exact Hd |].
    intros k' Hk'. rewrite map_app, existsb_app.
    rewrite Hacc by (now right). cbn [map existsb fst orb].
    rewrite orb_false_r. apply negb_true_iff in Hk.
    apply (existsb_none _ _ k' Hk Hk').
Qed.

(** A dictionary built from bindings of distinct keys holds them as they
    came. *)
Lemma dict_of_distinct (pairs : list (pystr * pyval)) :
  distinct (map fst pairs) = true -> dict_of pairs = pairs.
Proof.
  intros H. unfold dict_of. now rewrite dict_of_from.
Qed.

Lemma stops_comma (tail : pystr) : stops (44%N :: tail) = true.
Proof. reflexivity. Qed.

(** The loop of the object reads back the bindings that the loop of the
    encoder printed. *)
Lemma object_items_back (level outer : nat) (items : list (pystr * pyval)) :
  forall (k : pystr) (x : pyval) (fuel : nat) (rest : pystr),
    Forall (fun kv => reads_back (snd kv)) ((k, x) :: items) ->
    forallb (fun kv => printable (snd kv)) ((k, x) :: items) = true ->
    (List.length (joined (iterencode level x))
     + List.length (joined (dict_items (iterencode level)
                              (newline_indent level) false items))
     + 1 <= fuel)%nat ->
    object_items fuel
      (encode_basestring k ++ [58; 32]%N
       ++ joined (iterencode level x)
       ++ joined (dict_items (iterencode level) (newline_indent level)
                    false items)
       ++ newline_indent outer ++ 125%N :: rest)
    = Found ((k, x) :: items, rest).
Proof.
  induction items as [|[k' y] items IH]; intros k x fuel rest HF Hp Hfuel;
    (destruct fuel as [|fuel]; [lia|]);
    unfold encode_basestring; cbn [app]; rewrite <- app_assoc; cbn [app];
    rewrite object_items_step, scanstring_escape;
    rewrite skip_ws_head by reflexivity;
    change (58 =? 58)%N with true; cbv iota;
    change (skip_ws (32%N :: ?t)) with (skip_ws t);
    cbn [forallb snd] in Hp; apply andb_true_iff in Hp;
    destruct Hp as [Hx Hl];
    pose proof (Forall_inv HF) as Rx; pose proof (Forall_inv_tail HF) as Rl;
    cbn [snd] in Rx; rewrite skip_ws_text by exact Hx.
  - cbn [dict_items joined flat_map app] in *.
    rewrite (Rx level fuel _ Hx) by (lia || apply stops_indent).
    cbn [and_then fst snd]. rewrite skip_ws_indent by reflexivity.
    reflexivity.
  - rewrite joined_dict_items in * by apply atom_iterencode.
    rewrite <- !app_assoc. cbn [app].
    rewrite (Rx level fuel _ Hx) by (apply stops_comma || lia).
    cbn [and_then fst snd]. rewrite skip_ws_head by reflexivity.
    change (44 =? 125)%N with false. change (44 =? 44)%N with true.
    cbv iota. unfold encode_basestring at 1. cbn [app].
    rewrite skip_ws_indent by reflexivity.
    change (34%N :: (flat_map escape k' ++ [34%N]) ++ ?t)
      with (encode_basestring k' ++ t).
    change (58%N :: 32%N :: ?t) with ([58; 32]%N ++ t).
    rewrite (IH k' y fuel rest Rl Hl).
    + reflexivity.
    + rewrite !length_app in Hfuel. cbn [List.length] in Hfuel. lia.
Qed.

Lemma dict_text (level : nat) (k : pystr) (x : pyval)
    (items : list (pystr * pyval)) (rest : pystr) :
  joined (iterencode level (VDict ((k, x) :: items))) ++ rest
  = 123%N :: newline_indent (S level)
    ++ encode_basestring k ++ [58; 32]%N
    ++ joined (iterencode (S level) x)
    ++ joined (dict_items (iterencode (S level)) (newline_indent (S level))
                 false items)
    ++ newline_indent level ++ 125%N :: rest.
Proof.
  change (iterencode level (VDict ((k, x) :: items)))
    with ([ok (utf8 "{"); ok (newline_indent (S level))]
          ++ dict_items (iterencode (S level)) (newline_indent (S level))
               true ((k, x) :: items)
          ++ [ok (newline_indent level); ok (utf8 "}")]).
  rewrite !joined_app, joined_dict_items by apply atom_iterencode.
  rewrite !joined_ok. change (joined []) with (@nil N).
  change (utf8 "{") with [123%N]. change (utf8 "}") with [125%N].
  rewrite <- !app_assoc. reflexivity.
Qed.

Lemma reads_back_dict (items : list (pystr * pyval)) :
  Forall (fun kv => reads_back (snd kv)) items -> reads_back (VDict items).
Proof.
  intros HF level fuel rest Hp Hfuel Hrest. destruct items as [|[k x] l].
  - destruct fuel as [|fuel]; [simpl in Hfuel; lia | reflexivity].
  - cbn [printable] in Hp. apply andb_true_iff in Hp.
    destruct Hp as [Hp Hk].
    pose proof (dict_text level k x l []) as E. rewrite app_nil_r in E.
    rewrite E in Hfuel. rewrite (dict_text level k x l rest).
    destruct fuel as [|fuel]; [simpl in Hfuel; lia|].
    rewrite scan_once_object. unfold encode_basestring at 1. cbn [app].
    rewrite skip_ws_indent by reflexivity.
    change (34 =? 125)%N with false. cbv iota.
    change (34%N :: (flat_map escape k ++ [34%N]) ++ ?t)
      with (encode_basestring k ++ t).
    change (58%N :: 32%N :: ?t) with ([58; 32]%N ++ t).
    rewrite (object_items_back (S level) level l k x fuel rest HF Hp).
    + cbn [and_then fst snd]. now rewrite (dict_of_distinct _ Hk).
    + cbn [List.length] in Hfuel. rewrite !length_app in Hfuel.
      cbn [List.length] in Hfuel. lia.
Qed.

(** Every value is read back from its printed text. *)
Lemma reads_back_all (v : pyval) : reads_back v.
Proof.
  induction v using pyval_induction.
  - now apply (reads_back_atom VNone (ok (utf8 "null"))).
  - destruct b; eapply reads_back_atom; reflexivity.
  - eapply reads_back_atom; reflexivity.
  - eapply reads_back_atom; reflexivity.
  - now apply reads_back_list.
  - now apply reads_back_dict.
Qed.

End DictionaryFacts.

Section WritingFacts.
Import Files.

Lemma writes_low (c : N) : (c < 0xD800)%N -> c <> 13%N -> writes c = true.
Proof.
  intros H1 H2. unfold writes, scalar.
  now rewrite ltb_true, eqb_false by assumption.
Qed.

Lemma writes_scalar (c : N) : writes c = true -> scalar c = true.
Proof. unfold writes. now intros H%andb_true_iff. Qed.

Lemma writes_encodable (s : pystr) :
  forallb writes s = true -> encodable s = true.
Proof.
  unfold encodable. rewrite !forallb_forall. intros H c Hc.
  apply writes_scalar. auto.
Qed.

Lemma writes_no_return (s : pystr) :
  forallb writes s = true -> Forall (fun c => c <> 13%N) s.
Proof.
  rewrite forallb_forall, Forall_forall. intros H c Hc.
  specialize (H c Hc). unfold writes in H. apply andb_true_iff in H.
  destruct H as [_ H]. apply negb_true_iff in H. now apply N.eqb_neq.
Qed.

Lemma escape_writes (c : N) :
  scalar c = true -> forallb writes (escape c) = true.
Proof.
  intros Hs. destruct (N.ltb_spec c 32) as [Hlt|Hge].
  - apply below_32 in Hlt. simpl in Hlt.
    repeat (destruct Hlt as [<-|Hlt]; [reflexivity|]). contradiction.
  - unfold escape.
    destruct (N.eqb_spec c 34) as [->|H34]; [reflexivity|].
    destruct (N.eqb_spec c 92) as [->|H92]; [reflexivity|].
    rewrite !eqb_false, ltb_false by lia.
    cbn [forallb]. unfold writes. rewrite Hs, eqb_false by lia. reflexivity.
Qed.

Lemma encode_basestring_writes (s : pystr) :
  encodable s = true -> forallb writes (encode_basestring s) = true.
Proof.
  intros H. unfold encode_basestring. cbn [forallb].
  rewrite forallb_app. cbn [forallb].
  change (writes 34) with true. cbn [andb]. rewrite andb_true_r.
  unfold encodable in H. induction s as [|c s IH]; [reflexivity|].
  cbn [forallb flat_map] in *. apply andb_true_iff in H.
  destruct H as [Hc Hs]. now rewrite forallb_app, escape_writes, IH.
Qed.

Lemma digits_write (ds : pystr) :
  forallb is_digit ds = true -> forallb writes ds = true.
Proof.
  rewrite !forallb_forall. intros H c Hc. specialize (H c Hc).
  apply digit_bounds in H. apply writes_low; lia.
Qed.

Lemma newline_indent_writes (level : nat) :
  forallb writes (newline_indent level) = true.
Proof.
  unfold newline_indent. cbn [forallb]. change (writes 10) with true.
  cbn [andb]. induction (4 * level)%nat as [|n IH]; [reflexivity|exact IH].
Qed.

Lemma good_ok (text : pystr) : forallb writes text = true -> good (ok text).
Proof. intros H. exists text. now split. Qed.

(** An atom is printed as one good piece. *)
Lemma atom_good (v : pyval) (c : chunk) :
  printable v = true -> encodable_value v = true -> atom v = Some c ->
  good c.
Proof.
  destruct v as [|[|]|z|s|lst|items]; cbn [atom]; intros Hp He H;
    try discriminate; apply some_eq in H; subst c;
    try (apply good_ok; reflexivity).
  - rewrite (int_repr_printable z Hp). apply good_ok.
    destruct (decimal_digits_spec (Z.abs_N z)) as (_ & Hall & _).
    apply digits_write in Hall.
    destruct (z <? 0)%Z; [cbn [forallb]; now rewrite Hall | exact Hall].
  - apply good_ok. now apply encode_basestring_writes.
Qed.

Lemma then_text_good (buf : pystr) (c : chunk) :
  forallb writes buf = true -> good c -> good (then_text buf c).
Proof.
  intros Hb (text & -> & Ht). apply good_ok.
  now rewrite forallb_app, Hb, Ht.
Qed.

Lemma list_items_good (level : nat) (l : list pyval) :
  forall buf,
    forallb writes buf = true ->
    Forall prints_well l ->
    forallb printable l = true -> forallb encodable_value l = true ->
    Forall good (list_items (iterencode level) (newline_indent level) buf l).
Proof.
  induction l as [|x l IH]; intros buf Hb HF Hp He; cbn [list_items];
    [constructor|].
  cbn [forallb] in Hp, He. apply andb_true_iff in Hp, He.
  destruct Hp as [Hx Hl], He as [Ex El].
  apply Forall_app. split.
  - destruct (atom x) as [c|] eqn:E.
    + constructor; [|constructor].
      apply then_text_good; [exact Hb|]. now apply (atom_good x).
    + constructor; [now apply good_ok|].
      now apply (Forall_inv HF).
  - apply IH; try assumption; [|exact (Forall_inv_tail HF)].
    cbn [forallb]. change (writes 44) with true.
    apply newline_indent_writes.
Qed.

Lemma dict_items_good (level : nat) (items : list (pystr * pyval)) :
  forall first,
    Forall (fun kv => prints_well (snd kv)) items ->
    forallb (fun kv => printable (snd kv)) items = true ->
    forallb (fun kv => encodable (fst kv) && encodable_value (snd kv)) items
    = true ->
    Forall good
      (dict_items (iterencode level) (newline_indent level) first items).
Proof.
  induction items as [|[k x] items IH]; intros first HF Hp He;
    cbn [dict_items]; [constructor|].
  cbn [forallb fst snd] in Hp, He. apply andb_true_iff in Hp, He.
  destruct Hp as [Hx Hl], He as [Ex El]. apply andb_true_iff in Ex.
  destruct Ex as [Ek Ex].
  apply Forall_app. split; [|apply Forall_app; split;
                              [|apply Forall_app; split]].
  - destruct first; constructor; [|constructor]. apply good_ok.
    cbn [forallb]. change (writes 44) with true.
    apply newline_indent_writes.
  - constructor; [|constructor; [|constructor]].
    + apply good_ok. now apply encode_basestring_writes.
    + now apply good_ok.
  - destruct (atom x) as [c|] eqn:E.
    + constructor; [|constructor]. now apply (atom_good x).
    + now apply (Forall_inv HF).
  - apply IH; try assumption. exact (Forall_inv_tail HF).
Qed.

(** Every value that is printable and holds no lone surrogate is printed
    in good pieces. *)
Lemma prints_well_all (v : pyval) : prints_well v.
Proof.
  induction v as [| b | z | s | lst IH | items IH] using pyval_induction;
    intros level Hp He.
  - constructor; [now apply good_ok | constructor].
  - destruct b; (constructor; [now apply good_ok | constructor]).
  - constructor; [|constructor]. now apply (atom_good (VInt z)).
  - constructor; [|constructor]. now apply (atom_good (VStr s)).
  - destruct lst as [|x l]; [constructor; [now apply good_ok|constructor]|].
    change (iterencode level (VList (x :: l)))
      with (list_items (iterencode (S level)) (newline_indent (S level))
              (91%N :: newline_indent (S level)) (x :: l)
            ++ [ok (newline_indent level); ok (utf8 "]")]).
    apply Forall_app. split.
    + apply list_items_good; try assumption.
      cbn [forallb]. change (writes 91) with true.
      apply newline_indent_writes.
    + constructor; [|constructor; [|constructor]].
      * apply good_ok, newline_indent_writes.
      * now apply good_ok.
  - destruct items as [|[k x] l];
      [constructor; [now apply good_ok|constructor]|].
    change (iterencode level (VDict ((k, x) :: l)))
      with ([ok (utf8 "{"); ok (newline_indent (S level))]
            ++ dict_items (iterencode (S level)) (newline_indent (S level))
                 true ((k, x) :: l)
            ++ [ok (newline_indent level); ok (utf8 "}")]).
    cbn [printable] in Hp. apply andb_true_iff in Hp. destruct Hp as [Hp _].
    apply Forall_app. split; [|apply Forall_app; split].
    + constructor; [now apply good_ok|].
      constructor; [|constructor]. apply good_ok, newline_indent_writes.
    + now apply dict_items_good.
    + constructor; [|constructor; [|constructor]].
      * apply good_ok, newline_indent_writes.
      * now apply good_ok.
Qed.

Lemma joined_good (chunks : list chunk) :
  Forall good chunks -> forallb writes (joined chunks) = true.
Proof.
  induction 1 as [|c chunks (text & -> & Ht) _ IH]; [reflexivity|].
  rewrite joined_ok, forallb_app, Ht, IH. reflexivity.
Qed.

(** Good pieces are all written: the file receives the encoding of their
    text. *)
Lemma write_chunks_good (chunks : list chunk) :
  Forall good chunks ->
  forall written,
  exists bs,
    encode (joined chunks) = Some bs
    /\ write_chunks chunks written = (None, written ++ bs).
Proof.
  induction 1 as [|c chunks (text & -> & Ht) _ IH]; intros written.
  - exists []. split; [reflexivity|]. cbn. now rewrite app_nil_r.
  - destruct (proj1 (encodable_encode text) (writes_encodable _ Ht))
      as [bt Et].
    destruct (IH (written ++ bt)) as (bs & Es & Ew).
    exists (bt ++ bs). split.
    + rewrite joined_ok. now apply encode_app.
    + unfold ok. cbn [write_chunks]. rewrite Et, Ew.
      now rewrite <- app_assoc.
Qed.

(** The printed text of a value is a document that holds that value. *)
Lemma loads_joined (v : pyval) :
  printable v = true -> loads (joined (iterencode 0 v)) = Found v.
Proof.
  intros Hp. unfold loads.
  assert (Hb : startswith [0xFEFF%N] (joined (iterencode 0 v)) = false).
  { destruct (text_head 0 v Hp) as (c & r & -> & _ & _ & Hbom).
    cbn [startswith]. now rewrite N.eqb_sym, Hbom. }
  assert (Hs : skip_ws (joined (iterencode 0 v)) = joined (iterencode 0 v)).
  { pose proof (skip_ws_text 0 v [] Hp) as H. now rewrite app_nil_r in H. }
  pose proof (reads_back_all v 0
                (2 * List.length (joined (iterencode 0 v)) + 1) [] Hp) as Hr.
  rewrite app_nil_r in Hr. rewrite Hb, Hs, Hr by (reflexivity || lia).
  reflexivity.
Qed.

(** What [dump] writes for a value, [load] reads back as that value. *)
Lemma load_dump (v : pyval) :
  printable v = true -> encodable_value v = true ->
  exists bs, dump v = (None, bs) /\ load bs = Some (inr v).
Proof.
  intros Hp He.
  pose proof (prints_well_all v 0 Hp He) as Hg.
  destruct (write_chunks_good _ Hg []) as (bs & Eb & Ew).
  exists bs. split; [exact Ew|]. unfold load.
  rewrite (decode_encode _ _ Eb).
  rewrite universal_newlines_plain
    by (apply writes_no_return, joined_good, Hg).
  now rewrite loads_joined.
Qed.

End WritingFacts.

Section StoreFileFacts.
Context {RT : PyRuntime} {RL : PyRuntimeLaws RT}.

Lemma model_dump_printable (b : BookRead.t) :
  storable b -> printable (BookRead.model_dump b) = true.
Proof.
  intros (_ & _ & _ & Hy). destruct b as [t a y i s].
  cbn [BookRead.year] in Hy. apply Nat.leb_le in Hy.
  unfold BookRead.model_dump.
  cbn [printable forallb map fst snd BookRead.title BookRead.author
       BookRead.year BookRead.id BookRead.status].
  rewrite Hy. reflexivity.
Qed.

Lemma model_dump_encodable (b : BookRead.t) :
  storable b -> encodable_value (BookRead.model_dump b) = true.
Proof.
  intros (Ht & Ha & Hi & _). destruct b as [t a y i s].
  cbn [BookRead.title BookRead.author BookRead.id] in *.
  unfold BookRead.model_dump.
  cbn [encodable_value forallb fst snd BookRead.title BookRead.author
       BookRead.year BookRead.id BookRead.status].
  rewrite Ht, Ha, Hi. now destruct s.
Qed.

Lemma document_printable (bs : list BookRead.t) :
  Forall storable bs ->
  printable (VList (map BookRead.model_dump bs)) = true.
Proof.
  intros H. cbn [printable]. apply forallb_forall. intros x Hx.
  apply in_map_iff in Hx. destruct Hx as (b & <- & Hb).
  rewrite Forall_forall in H. now apply model_dump_printable, H.
Qed.

Lemma document_encodable (bs : list BookRead.t) :
  Forall storable bs ->
  encodable_value (VList (map BookRead.model_dump bs)) = true.
Proof.
  intros Hs. cbn [encodable_value]. apply forallb_forall. intros x Hx.
  apply in_map_iff in Hx. destruct Hx as (b & <- & Hb).
  rewrite Forall_forall in Hs. now apply model_dump_encodable, Hs.
Qed.

End StoreFileFacts.


Lemma test_books_storable : Forall storable test_books.
Proof.
  unfold test_books.
  repeat (apply Forall_cons;
          [split; [|split; [|split]];
           [reflexivity | reflexivity | reflexivity
            | apply Nat.leb_le; reflexivity]|]).
  apply Forall_nil.
Qed.


(** C2, counterexample: a data file whose record has the escape of a lone
    surrogate for its id.  The file loads, and the record meets the
    schema; saving the list just loaded raises [UnicodeEncodeError] and
    leaves the file cut off in front of the id, so that the next load
    raises [JSONDecodeError]. *)
Lemma save_fails_on_lone_surrogate :
  Files.init (RT := Fragment.runtime) surrogate_storage (utf8 "library.json")
  = Some (inr (library "library.json" [surrogate_book]))
  /\ well_formed (RT := Fragment.runtime) surrogate_book
  /\ fst (Files.save_data (library "library.json" [surrogate_book])
            surrogate_storage)
     = inl Files.UnicodeEncodeError
  /\ Files.init (RT := Fragment.runtime)
       (snd (Files.save_data (library "library.json" [surrogate_book])
               surrogate_storage))
       (utf8 "library.json")
     = Some (inl Files.JSONDecodeError).
Proof.
  split; [vm_compute; reflexivity|]. split; [|split].
  - apply (well_formed_by_validator (RT := Fragment.runtime));
      vm_compute; reflexivity.
  - vm_compute. reflexivity.
  - vm_compute. reflexivity.
Qed.

(** ** Finding, deleting and updating by id *)

Section IdFacts.
Context {RT : PyRuntime}.

Lemma id_test_nocase (q : pystr) (b : BookRead.t) :
  str_eqb (lower q) (lower (BookRead.id b)) = true <-> same_id_nocase q b.
Proof. unfold same_id_nocase. rewrite str_eqb_eq. split; congruence. Qed.

Lemma id_test_differs (q : pystr) (b : BookRead.t) :
  ~ same_id_nocase q b -> str_eqb (lower q) (lower (BookRead.id b)) = false.
Proof.
  intros H. destruct (str_eqb _ _) eqn:E; [|reflexivity].
  now apply id_test_nocase in E.
Qed.

(** [find_book_by_id] returns the first record whose id is the query up
    to case, and nothing when there is none. *)
Lemma find_book_by_id_first (s : LibraryService) (q : pystr)
    (pre post : list BookRead.t) (r : BookRead.t) :
  books s = pre ++ r :: post ->
  same_id_nocase q r ->
  (forall b, In b pre -> ~ same_id_nocase q b) ->
  find_book_by_id s q = Some r.
Proof.
  intros Hs Hr Hpre. unfold find_book_by_id. rewrite Hs.
  apply find_at; [|now apply id_test_nocase].
  intros b Hb. apply id_test_differs. auto.
Qed.

Lemma find_book_by_id_none (s : LibraryService) (q : pystr) :
  (forall b, In b (books s) -> ~ same_id_nocase q b) ->
  find_book_by_id s q = None.
Proof.
  intros H. unfold find_book_by_id. apply find_none.
  intros b Hb. apply id_test_differs. auto.
Qed.

Lemma find_book_by_id_some (s : LibraryService) (q : pystr)
    (r : BookRead.t) :
  find_book_by_id s q = Some r ->
  exists pre post,
    books s = pre ++ r :: post /\ same_id_nocase q r
    /\ forall b, In b pre -> ~ same_id_nocase q b.
Proof.
  unfold find_book_by_id. intros H. apply find_first in H.
  destruct H as (pre & post & Hs & Hr & Hpre).
  exists pre, post. split; [exact Hs|]. split; [now apply id_test_nocase|].
  intros b Hb Hm. apply id_test_nocase in Hm. rewrite (Hpre b Hb) in Hm.
  discriminate.
Qed.

(** [delete_book] takes out the first record whose id is the query up to
    case. *)
Lemma delete_book_first (q : pystr) (need_save : bool) (w : world)
    (pre post : list BookRead.t) (r : BookRead.t) :
  books (self w) = pre ++ r :: post ->
  same_id_nocase q r ->
  (forall b, In b pre -> ~ same_id_nocase q b) ->
  delete_book q need_save w = when need_save save_data (with_books w (pre ++ post)).
Proof.
  intros Hs Hr Hpre. unfold delete_book.
  rewrite (find_book_by_id_first _ q pre post r Hs Hr Hpre), Hs.
  rewrite list_remove_at.
  - reflexivity.
  - intros b Hb. destruct (BookRead.eqb b r) eqn:E; [|reflexivity].
    apply BookRead_eqb_eq in E. subst b. now destruct (Hpre r Hb).
  - now apply BookRead_eqb_eq.
Qed.

Lemma delete_book_absent (q : pystr) (need_save : bool) (w : world) :
  (forall b, In b (books (self w)) -> ~ same_id_nocase q b) ->
  delete_book q need_save w = (raise (BookDoesNotExists q), w).
Proof.
  intros H. unfold delete_book. now rewrite find_book_by_id_none.
Qed.

(** What a call of [delete_book] can do to the store: nothing, when it
    raises, or take one record out. *)
Lemma delete_book_outcome (q : pystr) (need_save : bool) (w : world) :
  delete_book q need_save w = (raise (BookDoesNotExists q), w)
  \/ exists pre r post w',
       delete_book q need_save w = (ok tt, w')
       /\ books (self w) = pre ++ r :: post
       /\ books (self w') = pre ++ post
       /\ file_name (self w') = file_name (self w).
Proof.
  destruct (find_book_by_id (self w) q) as [r|] eqn:E.
  - right. apply find_book_by_id_some in E.
    destruct E as (pre & post & Hs & Hr & Hpre).
    exists pre, r, post. rewrite (delete_book_first q need_save w _ _ _ Hs Hr Hpre).
    destruct need_save; eexists; repeat split; eauto.
  - left. unfold delete_book. now rewrite E.
Qed.

(** What a call of [update_status] can do to the store. *)
Lemma update_status_present (q : pystr) (status : BookStatus)
    (need_save : bool) (w : world) (pre post : list BookRead.t)
    (r : BookRead.t) :
  books (self w) = pre ++ r :: post ->
  BookRead.id r = q ->
  (forall b, In b pre -> BookRead.id b <> q) ->
  update_status q status need_save w
  = when need_save save_data
      (with_books w (pre ++ BookRead.set_status r status :: post)).
Proof.
  intros Hs Hr Hpre. unfold update_status, bind, get_books, ok.
  cbv beta iota.
  now rewrite Hs, (assign_status_first q status pre post r Hpre Hr).
Qed.

Lemma update_status_absent (q : pystr) (status : BookStatus)
    (need_save : bool) (w : world) :
  (forall b, In b (books (self w)) -> BookRead.id b <> q) ->
  update_status q status need_save w = (raise (BookDoesNotExists q), w).
Proof.
  intros H. unfold update_status, bind, get_books, ok. cbv beta iota.
  now rewrite (assign_status_absent q status _ H).
Qed.

Lemma update_status_outcome (q : pystr) (status : BookStatus)
    (need_save : bool) (w : world) :
  update_status q status need_save w = (raise (BookDoesNotExists q), w)
  \/ exists bs' w',
       update_status q status need_save w = (ok tt, w')
       /\ assign_status q status (books (self w)) = Some bs'
       /\ books (self w') = bs'
       /\ file_name (self w') = file_name (self w).
Proof.
  unfold update_status, bind, get_books, ok. cbv beta iota.
  destruct (assign_status q status (books (self w))) as [bs'|] eqn:E.
  - right. exists bs'.
    destruct need_save; eexists; repeat split; eauto.
  - now left.
Qed.

End IdFacts.

(** ** Invariants of the store *)

Section InvariantFacts.
Context {RT : PyRuntime}.

Lemma NoDup_snoc (u : pystr) (l : list pystr) :
  NoDup l -> ~ In u l -> NoDup (l ++ [u]).
Proof.
  intros Hl Hu.
  apply (Permutation_NoDup (Permutation_cons_append l u)).
  now constructor.
Qed.

(** One operation keeps the ids distinct, when the id it may draw is new. *)
Lemma run_keeps_ids_distinct (o : op) (w : world) :
  NoDup (ids w) -> fresh o w -> NoDup (ids (run o w)).
Proof.
  intros Hnd Hf. destruct o as [t a y ns rnd | q ns | q st ns]; simpl.
  - destruct (create_outcome t a y ns rnd w)
      as [(e & ->) | (r & w' & -> & Hid & _ & Hbs & _)]; [exact Hnd|].
    unfold ids in *. cbn [snd]. rewrite Hbs, map_app. cbn [map].
    rewrite Hid. now apply NoDup_snoc.
  - destruct (delete_book_outcome q ns w)
      as [-> | (pre & r & post & w' & -> & Hs & Hbs & _)]; [exact Hnd|].
    unfold ids in *. cbn [snd]. rewrite Hbs, map_app.
    rewrite Hs, map_app in Hnd. cbn [map] in Hnd.
    now apply NoDup_remove_1 in Hnd.
  - destruct (update_status_outcome q st ns w)
      as [-> | (bs' & w' & -> & Ha & Hbs & _)]; [exact Hnd|].
    unfold ids in *. cbn [snd]. rewrite Hbs.
    now rewrite (assign_status_ids _ _ _ _ Ha).
Qed.

Lemma set_status_well_formed (b : BookRead.t) (s : BookStatus) :
  well_formed b -> well_formed (BookRead.set_status b s).
Proof. now destruct b. Qed.

Lemma assign_status_well_formed (q : pystr) (s : BookStatus)
    (bs bs' : list BookRead.t) :
  assign_status q s bs = Some bs' ->
  Forall well_formed bs -> Forall well_formed bs'.
Proof.
  revert bs'; induction bs as [|b bs IH]; simpl; intros bs' H Hwf;
    [discriminate|].
  apply Forall_cons_iff in Hwf. destruct Hwf as [Hb Hbs].
  destruct (str_eqb (BookRead.id b) q).
  - injection H as <-. constructor; auto using set_status_well_formed.
  - destruct (assign_status q s bs) as [r|]; [|discriminate].
    injection H as <-. constructor; auto.
Qed.

(** One operation keeps every record within the schema. *)
Lemma run_well_formed (o : op) (w : world) :
  Forall well_formed (books (self w)) ->
  Forall well_formed (books (self (run o w))).
Proof.
  intros Hwf. destruct o as [t a y ns rnd | q ns | q st ns]; simpl.
  - destruct (create_outcome t a y ns rnd w)
      as [(e & ->) | (r & w' & -> & _ & Hr & Hbs & _)]; [exact Hwf|].
    cbn [snd]. rewrite Hbs. apply Forall_app. split; [exact Hwf|].
    now constructor.
  - destruct (delete_book_outcome q ns w)
      as [-> | (pre & r & post & w' & -> & Hs & Hbs & _)]; [exact Hwf|].
    cbn [snd]. rewrite Hbs. rewrite Hs in Hwf.
    rewrite Forall_app in Hwf |- *. destruct Hwf as [Hpre Hpost].
    apply Forall_cons_iff in Hpost. tauto.
  - destruct (update_status_outcome q st ns w)
      as [-> | (bs' & w' & -> & Ha & Hbs & _)]; [exact Hwf|].
    cbn [snd]. rewrite Hbs. eauto using assign_status_well_formed.
Qed.

End InvariantFacts.

(** C4.  In every store that a sequence of create, delete and status
    update operations builds from an empty store, the draws of fresh ids
    never hitting an id of the store, the ids of the records are pairwise
    distinct; and each single operation keeps them distinct. *)
Theorem ids_stay_unique {RT : PyRuntime} :
  (forall w, reachable w -> NoDup (ids w))
  /\ (forall o w, NoDup (ids w) -> fresh o w -> NoDup (ids (run o w))).
Proof.
  split.
  - induction 1 as [w Hw | w o _ IH Hf].
    + unfold ids. rewrite Hw. constructor.
    + now apply run_keeps_ids_distinct.
  - intros o w. apply run_keeps_ids_distinct.
Qed.

Lemma session_reachable :
  reachable (RT := Fragment.runtime)
    (run_all (RT := Fragment.runtime) session empty_world).
Proof.
  unfold run_all, session. cbn [fold_left].
  repeat (apply reach_step;
          [| first [exact I | vm_compute; intuition discriminate]]).
  now apply reach_empty.
Qed.

(** C4, witness: the ids after the session are distinct, and they are the
    one id that is left. *)
Lemma ids_stay_unique_witness :
  NoDup (ids (run_all (RT := Fragment.runtime) session empty_world))
  /\ ids (run_all (RT := Fragment.runtime) session empty_world)
     = [utf8 "00000000-0000-4000-8000-00000000000b"].
Proof.
  split.
  - apply (proj1 (ids_stay_unique (RT := Fragment.runtime))).
    exact session_reachable.
  - vm_compute. reflexivity.
Defined.

(** C7, as the code has it.  [delete_book] raises [BookDoesNotExists] and leaves
    the store and the files as they were when no record's id is the given
    id up to the case of letters.  Otherwise it removes the first record
    whose id is the given id up to case, and a [find_book_by_id] with the
    same id that follows returns the next such record: it returns nothing
    exactly when the removed record was the only one whose id matched up
    to case. *)
Theorem delete_book_removes_first_match {RT : PyRuntime}
    (book_id : pystr) (need_save : bool) (w : world) :
  ((forall b, In b (books (self w)) -> ~ same_id_nocase book_id b) ->
   delete_book book_id need_save w = (raise (BookDoesNotExists book_id), w))
  /\ (forall pre r post,
        books (self w) = pre ++ r :: post ->
        same_id_nocase book_id r ->
        (forall b, In b pre -> ~ same_id_nocase book_id b) ->
        exists w',
          delete_book book_id need_save w = (ok tt, w')
          /\ books (self w') = pre ++ post
          /\ find_book_by_id (self w') book_id
             = find_book_by_id {| file_name := file_name (self w);
                                  books := post |} book_id
          /\ ((forall b, In b post -> ~ same_id_nocase book_id b) ->
              find_book_by_id (self w') book_id = None)).
Proof.
  split; [apply delete_book_absent|].
  intros pre r post Hs Hr Hpre.
  rewrite (delete_book_first book_id need_save w pre post r Hs Hr Hpre).
  assert (F : find_book_by_id (with_books w (pre ++ post)).(self) book_id
              = find_book_by_id {| file_name := file_name (self w);
                                   books := post |} book_id).
  { unfold find_book_by_id. cbn [with_books self books]. clear Hs.
    induction pre as [|b pre IH]; [reflexivity|]. cbn [app find].
    rewrite id_test_differs by (apply Hpre; now left).
    apply IH. intros; apply Hpre; now right. }
  destruct need_save; eexists; (split; [reflexivity|]);
    (split; [reflexivity|]); (split; [exact F|]);
    intros Hpost; cbn [when save_data ret snd self];
    apply find_book_by_id_none; cbn [with_books self books];
    intros b Hb; apply in_app_or in Hb; destruct Hb; auto.
Qed.

(** C7, witness: the second book of the tests is deleted by its id, and
    cannot be found afterwards. *)
Lemma delete_book_removes_first_match_witness :
  exists w',
    delete_book (RT := Fragment.runtime) (utf8 "id-2") true test_world
    = (ok tt, w')
    /\ find_book_by_id (RT := Fragment.runtime) (self w') (utf8 "id-2") = None.
Proof.
  destruct (proj2 (delete_book_removes_first_match
                     (RT := Fragment.runtime) (utf8 "id-2") true test_world)
              (firstn 1 test_books)
              (book "id-2" "Реквием" "Ахматова Анна" 1963 issued)
              (skipn 2 test_books))
    as (w' & E & _ & _ & Hnone).
  - reflexivity.
  - vm_compute. reflexivity.
  - intros b [<- | []]. vm_compute. discriminate.
  - exists w'. split; [exact E|]. apply Hnone.
    intros b [<- | [<- | []]]; vm_compute; discriminate.
Defined.

(** C7, counterexample: the record with id "abc" is present and is
    deleted, and [find_book_by_id] with the same id still returns a record
    afterwards, the one with id "ABC". *)
Lemma delete_book_leaves_other_case :
  In lower_case_book (books (self two_case_world))
  /\ BookRead.id lower_case_book = utf8 "abc"
  /\ exists w',
       delete_book (RT := Fragment.runtime) (utf8 "abc") false two_case_world
       = (ok tt, w')
       /\ find_book_by_id (RT := Fragment.runtime) (self w') (utf8 "abc")
          = Some upper_case_book.
Proof.
  split; [now left|]. split; [reflexivity|].
  eexists. split; vm_compute; reflexivity.
Qed.

Section UpdateFacts.
Context {RT : PyRuntime}.

Lemma set_status_twice (r : BookRead.t) (s : BookStatus) :
  BookRead.set_status (BookRead.set_status r s) s = BookRead.set_status r s.
Proof. reflexivity. Qed.

(** Writing the document a second time changes nothing. *)
Lemma when_save_twice (c : bool) (w : world) :
  same_world (snd (when c save_data (snd (when c save_data w))))
             (snd (when c save_data w)).
Proof.
  destruct c; split; try reflexivity.
  intros path. cbn [when save_data snd fs self]. unfold write.
  now destruct (str_eqb path (file_name (self w))).
Qed.

End UpdateFacts.

(** C8.  [update_status] raises [BookDoesNotExists], the store untouched,
    when no record has the given id.  When some record has it, the first
    such record gets the given status whatever its status was, every other
    field and every other record staying as it is; and a second call with
    the same id and status succeeds and leaves the store and the files as
    the first call left them. *)
Theorem update_status_overwrites
    (book_id : pystr) (status : BookStatus) (need_save : bool) (w : world) :
  ((forall b, In b (books (self w)) -> BookRead.id b <> book_id) ->
   update_status book_id status need_save w
   = (raise (BookDoesNotExists book_id), w))
  /\ (forall pre r post,
        books (self w) = pre ++ r :: post ->
        BookRead.id r = book_id ->
        (forall b, In b pre -> BookRead.id b <> book_id) ->
        exists w',
          update_status book_id status need_save w = (ok tt, w')
          /\ books (self w')
             = pre ++ {| BookRead.title := BookRead.title r;
                         BookRead.author := BookRead.author r;
                         BookRead.year := BookRead.year r;
                         BookRead.id := BookRead.id r;
                         BookRead.status := status |} :: post
          /\ file_name (self w') = file_name (self w)
          /\ exists w'',
               update_status book_id status need_save w' = (ok tt, w'')
               /\ same_world w'' w').
Proof.
  split; [apply update_status_absent|].
  intros pre r post Hs Hr Hpre.
  rewrite (update_status_present book_id status need_save w pre post r
             Hs Hr Hpre).
  set (w1 := with_books w (pre ++ BookRead.set_status r status :: post)).
  exists (snd (when need_save save_data w1)).
  destruct (when_save_self need_save w1) as [Hfst Hself].
  split; [now rewrite <- Hfst; destruct (when need_save save_data w1)|].
  split; [now rewrite Hself|]. split; [now rewrite Hself|].
  set (w2 := snd (when need_save save_data w1)).
  assert (Hs2 : books (self w2)
                = pre ++ BookRead.set_status r status :: post)
    by (unfold w2; now rewrite Hself).
  rewrite (update_status_present book_id status need_save w2 pre post
             (BookRead.set_status r status) Hs2 Hr Hpre).
  rewrite set_status_twice.
  assert (E : with_books w2 (pre ++ BookRead.set_status r status :: post)
              = w2).
  { unfold with_books. rewrite <- Hs2. now destruct w2 as [[f bs] d]. }
  rewrite E.
  exists (snd (when need_save save_data w2)). split.
  - destruct (when_save_self need_save w2) as [Hfst2 _].
    rewrite <- Hfst2. now destruct (when need_save save_data w2).
  - apply when_save_twice.
Qed.

(** C8, witness: the first book of the tests is issued twice. *)
Lemma update_status_overwrites_witness :
  exists w' w'',
    update_status (utf8 "id-1") issued true test_world = (ok tt, w')
    /\ map BookRead.status (books (self w'))
       = [issued; issued; available; available]
    /\ update_status (utf8 "id-1") issued true w' = (ok tt, w'')
    /\ same_world w'' w'.
Proof.
  destruct (proj2 (update_status_overwrites (utf8 "id-1") issued true
                     test_world)
              [] (book "id-1" "Тёмные аллеи" "Бунин Иван Алексеевич" 1937
                       available)
              (skipn 1 test_books))
    as (w' & E & Hbs & _ & w'' & E' & Hsame).
  - reflexivity.
  - reflexivity.
  - intros b [].
  - exists w', w''. repeat split; try assumption; try apply Hsame.
    now rewrite Hbs.
Defined.

(** C10, as the code has it.  Let a record of the store have an id that differs
    from the query but equals it once both are lowercased, and let no
    other record have an id that is the query up to case.  Then
    [find_book_by_id] returns that record and [delete_book] removes it,
    while [update_status] with the very same query raises
    [BookDoesNotExists] and changes nothing. *)
Theorem id_matching_differs_by_operation {RT : PyRuntime}
    (q : pystr) (status : BookStatus) (need_save : bool) (w : world)
    (pre post : list BookRead.t) (r : BookRead.t) :
  books (self w) = pre ++ r :: post ->
  BookRead.id r <> q ->
  same_id_nocase q r ->
  (forall b, In b (pre ++ post) -> ~ same_id_nocase q b) ->
  find_book_by_id (self w) q = Some r
  /\ (exists w',
        delete_book q need_save w = (ok tt, w')
        /\ books (self w') = pre ++ post)
  /\ update_status q status need_save w = (raise (BookDoesNotExists q), w).
Proof.
  intros Hs Hne Hr Hothers.
  assert (Hpre : forall b, In b pre -> ~ same_id_nocase q b).
  { intros b Hb. apply Hothers, in_or_app. now left. }
  split; [now apply (find_book_by_id_first _ q pre post r)|]. split.
  - rewrite (delete_book_first q need_save w pre post r Hs Hr Hpre).
    destruct need_save; eexists; split; reflexivity.
  - apply update_status_absent. intros b Hb E. rewrite Hs in Hb.
    apply in_app_or in Hb. destruct Hb as [Hb | [<- | Hb]].
    + apply (Hpre b Hb). unfold same_id_nocase. now rewrite E.
    + contradiction.
    + apply (Hothers b); [apply in_or_app; now right|].
      unfold same_id_nocase. now rewrite E.
Qed.

(** C10, witness: the second book of the tests is looked up, deleted and
    updated under the upper-case spelling of its id. *)
Lemma id_matching_differs_by_operation_witness :
  find_book_by_id (RT := Fragment.runtime) (self test_world) (utf8 "ID-2")
  = Some (book "id-2" "Реквием" "Ахматова Анна" 1963 issued)
  /\ (exists w',
        delete_book (RT := Fragment.runtime) (utf8 "ID-2") true test_world
        = (ok tt, w')
        /\ books (self w') = firstn 1 test_books ++ skipn 2 test_books)
  /\ update_status (utf8 "ID-2") available true test_world
     = (raise (BookDoesNotExists (utf8 "ID-2")), test_world).
Proof.
  apply (id_matching_differs_by_operation
           (RT := Fragment.runtime) (utf8 "ID-2") available true test_world
           (firstn 1 test_books) (skipn 2 test_books)
           (book "id-2" "Реквием" "Ахматова Анна" 1963 issued)).
  - reflexivity.
  - vm_compute. discriminate.
  - vm_compute. reflexivity.
  - intros b [<- | [<- | [<- | []]]]; vm_compute; discriminate.
Defined.

(** C10, counterexample: the record with id "ABC" equals the query "abc"
    only up to case, yet [find_book_by_id] returns another record, the one
    whose id is "abc", and [update_status] with the same query succeeds. *)
Lemma case_mismatch_needs_single_match :
  In upper_case_book (books (self two_case_world))
  /\ BookRead.id upper_case_book <> utf8 "abc"
  /\ same_id_nocase (RT := Fragment.runtime) (utf8 "abc") upper_case_book
  /\ find_book_by_id (RT := Fragment.runtime) (self two_case_world)
       (utf8 "abc") = Some lower_case_book
  /\ lower_case_book <> upper_case_book
  /\ exists w',
       update_status (utf8 "abc") issued false two_case_world = (ok tt, w').
Proof.
  split; [right; now left|].
  split; [vm_compute; discriminate|].
  split; [vm_compute; reflexivity|].
  split; [vm_compute; reflexivity|].
  split; [vm_compute; discriminate|].
  eexists. vm_compute. reflexivity.
Qed.

(** ** Listing and searching *)

Section SearchFacts.

Lemma filter_r_total {A} (c : A -> bool) (l : list A) :
  filter_r (fun x => ok (c x)) l = ok (filter c l).
Proof.
  induction l as [|x l IH]; simpl; [reflexivity|].
  rewrite IH. simpl. now destruct (c x).
Qed.

Lemma filter_r_ext {A} (c1 c2 : A -> result bool) (l : list A) :
  (forall x, c1 x = c2 x) -> filter_r c1 l = filter_r c2 l.
Proof.
  intros H. induction l as [|x l IH]; simpl; [reflexivity|].
  now rewrite H, IH.
Qed.

(** A key that starts with the title is ordered by the title first. *)
Lemma title_first_le {B C} `{PyOrd B} `{PyOrd C}
    (t1 t2 : pystr) (a1 a2 : B) (i1 i2 : C) :
  py_le (t1, a1, i1) (t2, a2, i2) = true -> str_cmp t1 t2 <> Gt.
Proof.
  unfold py_le. simpl. unfold pair_cmp. simpl.
  unfold pair_cmp. simpl.
  destruct (str_cmp t1 t2); simpl; congruence.
Qed.

End SearchFacts.

(** C5.  [list_books] returns a permutation of the records of the store,
    in ascending order of the tuple (title, author, id), strings being
    compared code point by code point.  When the titles of the store are
    "1984", "Тёмные аллеи", "Реквием" and "Мертвые души", in whatever
    order, the first record returned is the one titled "1984" and the last
    the one titled "Тёмные аллеи". *)
Theorem list_books_sorted_permutation (s : LibraryService) :
  Permutation (list_books s) (books s)
  /\ ascending (fun x => (BookRead.title x, BookRead.author x, BookRead.id x))
               (list_books s)
  /\ (Permutation (map BookRead.title (books s)) four_titles ->
      exists first middle last,
        list_books s = first :: middle ++ [last]
        /\ BookRead.title first = utf8 "1984"
        /\ BookRead.title last = utf8 "Тёмные аллеи").
Proof.
  pose proof (sorted_perm
    (fun x => (BookRead.title x, BookRead.author x, BookRead.id x))
    (books s)) as Hperm.
  pose proof (sorted_ascending
    (fun x => (BookRead.title x, BookRead.author x, BookRead.id x))
    (books s)) as Hasc.
  fold (list_books s) in Hperm, Hasc.
  split; [exact Hperm|]. split; [exact Hasc|].
  intros Ht.
  assert (Htl : Permutation (map BookRead.title (list_books s)) four_titles).
  { rewrite <- Ht. now apply Permutation_map. }
  pose proof (Permutation_length Htl) as Hlen. rewrite length_map in Hlen.
  destruct (list_books s) as [|a [|b [|c [|d [|e l]]]]]; try discriminate.
  exists a, [b; c], d. split; [reflexivity|].
  assert (Hin : forall t, In t four_titles ->
                exists x, In x [a; b; c; d] /\ BookRead.title x = t).
  { intros t Hin. apply (Permutation_in _ (Permutation_sym Htl)) in Hin.
    apply in_map_iff in Hin. destruct Hin as (x & <- & Hx). eauto. }
  assert (Hti : forall x, In x [a; b; c; d] ->
                In (BookRead.title x) four_titles).
  { intros x Hx. apply (Permutation_in _ Htl). now apply in_map. }
  split.
  - destruct (Hin (utf8 "1984")) as (x & Hx & Hxt); [now left|].
    pose proof (ascending_head _ a [b; c; d] x Hasc Hx) as Hle.
    apply title_first_le in Hle. rewrite Hxt in Hle.
    destruct (Hti a (or_introl eq_refl)) as [E | [E | [E | [E | []]]]];
      rewrite <- E in Hle |- *; try reflexivity;
      exfalso; apply Hle; vm_compute; reflexivity.
  - destruct (Hin (utf8 "Тёмные аллеи")) as (x & Hx & Hxt);
      [right; now left|].
    pose proof (ascending_last _ [a; b; c] d x Hasc Hx) as Hle.
    apply title_first_le in Hle. rewrite Hxt in Hle.
    destruct (Hti d) as [E | [E | [E | [E | []]]]];
      [do 3 right; now left | ..];
      rewrite <- E in Hle |- *; try reflexivity;
      exfalso; apply Hle; vm_compute; reflexivity.
Qed.

(** C5, witness: the store of the tests, whose titles are entered in
    another order than the one above. *)
Lemma list_books_sorted_permutation_witness :
  exists first middle last,
    list_books (self test_world) = first :: middle ++ [last]
    /\ BookRead.title first = utf8 "1984"
    /\ BookRead.title last = utf8 "Тёмные аллеи".
Proof.
  apply (proj2 (proj2 (list_books_sorted_permutation (self test_world)))).
  change (Permutation
            [utf8 "Тёмные аллеи"; utf8 "Реквием"; utf8 "Мертвые души";
             utf8 "1984"]
            [utf8 "1984"; utf8 "Тёмные аллеи"; utf8 "Реквием";
             utf8 "Мертвые души"]).
  apply Permutation_sym, Permutation_cons_app with (l1 := [_; _; _]) (l2 := []).
  reflexivity.
Defined.

Section SubstringFacts.
Context {RT : PyRuntime}.

(** A search by substring: the records that pass the test, sorted. *)
Lemma search_exact {K} `{PyOrd K} `{!PyOrdLaws K}
    (key : BookRead.t -> K) (field : BookRead.t -> pystr)
    (needle : pystr) (bs : list BookRead.t) :
  let found :=
    sorted key
      (filter (fun b => contains (lower needle) (lower (field b))) bs) in
  (forall b, In b found
             <-> In b bs /\ infix (lower needle) (lower (field b)))
  /\ Permutation found
       (filter (fun b => contains (lower needle) (lower (field b))) bs)
  /\ ascending key found.
Proof.
  intros found. split; [|split].
  - intros b. unfold found. rewrite sorted_In, filter_In, contains_infix.
    reflexivity.
  - apply sorted_perm.
  - apply sorted_ascending.
Qed.

End SubstringFacts.



(** C6.  A search by title misses a record whose title contains the
    needle.  The store holds one record, titled with the three capital
    letters omicron, sigma, alpha.  The title contains the needle
    omicron, sigma, and the record meets the schema; yet
    [find_books_by_name] returns nothing for this needle, because
    [lower] ends the needle in a final sigma and the title has none.
    For the whole title as the needle the record is found. *)
Theorem find_books_by_name_misses_final_sigma :
  infix (utf8 "ΟΣ") (BookRead.title sigma_book)
  /\ well_formed (RT := Hellenic.runtime) sigma_book
  /\ find_books_by_name (RT := Hellenic.runtime)
       (library "library.json" [sigma_book]) (utf8 "ΟΣ")
     = []
  /\ find_books_by_name (RT := Hellenic.runtime)
       (library "library.json" [sigma_book]) (utf8 "ΟΣΑ")
     = [sigma_book]
  /\ @lower Hellenic.runtime (utf8 "ΟΣ") = utf8 "ος"
  /\ @lower Hellenic.runtime (utf8 "ΟΣΑ") = utf8 "οσα".
Proof.
  split; [apply contains_infix; vm_compute; reflexivity|].
  split; [apply (well_formed_by_validator (RT := Hellenic.runtime));
          vm_compute; reflexivity|].
  repeat split; vm_compute; reflexivity.
Qed.

Lemma numeric_digits (s : pystr) :
  numeric s -> s <> [] /\ forallb is_digit s = true.
Proof.
  intros [Hne H]. split; [exact Hne|].
  rewrite forallb_forall. rewrite Forall_forall in H.
  intros c Hc. apply digit_bounds. auto.
Qed.



(** C9, counterexample: a numeric string of 4301 digits.  The search with
    the string raises [ValueError] at the first record, the search with
    the integer it denotes returns (no record has that year). *)
Lemma find_books_by_year_long_string :
  numeric (repeat 49%N 4301)
  /\ find_books_by_year (RT := Fragment.runtime)
       (library "test_library.json" year_books) (VStr (repeat 49%N 4301))
     = raise ValueError
  /\ find_books_by_year (RT := Fragment.runtime)
       (library "test_library.json" year_books)
       (VInt (decimal (repeat 49%N 4301)))
     = ok [].
Proof.
  split; [|split].
  - split; [discriminate|]. apply Forall_forall. intros c Hc.
    apply repeat_spec in Hc. subst c. lia.
  - vm_compute. reflexivity.
  - vm_compute. reflexivity.
Qed.

(* ================================================================== *)
(** * Further properties of the code *)

(** ** Loading *)

Section LoadFacts.
Context {RT : PyRuntime}.

Lemma model_validate_error (obj : pyval) (e : exn) :
  BookRead.model_validate obj = inl e -> e = ValidationError.
Proof.
  unfold BookRead.model_validate, raise, ok.
  destruct obj as [| | | |?|kvs]; try (intros H; now injection H as <-).
  destruct (BookRead.field validate_title "title" kvs),
           (BookRead.field validate_author_field "author" kvs),
           (BookRead.field validate_year "year" kvs),
           (BookRead.field BookRead.validate_id "id" kvs),
           (BookRead.field BookRead.validate_status "status" kvs);
    intros H; try discriminate; now injection H as <-.
Qed.

Lemma map_r_validate_error (items : list pyval) (e : exn) :
  map_r BookRead.model_validate items = inl e -> e = ValidationError.
Proof.
  induction items as [|x items IH]; simpl; [discriminate|].
  destruct (BookRead.model_validate x) as [e'|b] eqn:E; simpl.
  - intros H. injection H as <-. now apply (model_validate_error x).
  - destruct (map_r BookRead.model_validate items) as [e'|bs]; simpl;
      [|discriminate].
    intros H. injection H as <-. now apply IH.
Qed.

Lemma map_r_validate_each (items : list pyval) (bs : list BookRead.t) :
  map_r BookRead.model_validate items = ok bs <->
  Forall2 (fun x b => BookRead.model_validate x = ok b) items bs.
Proof.
  revert bs; induction items as [|x items IH]; intros bs; simpl.
  - split.
    + intros H. injection H as <-. constructor.
    + intros H. now inversion H.
  - destruct (BookRead.model_validate x) as [e|b] eqn:E; simpl.
    + split; [discriminate|]. intros H. inversion H; subst.
      unfold ok in *. congruence.
    + destruct (map_r BookRead.model_validate items) as [e|r] eqn:Er; simpl.
      * split; [discriminate|]. intros H. inversion H; subst.
        apply IH in H4. discriminate.
      * split.
        -- intros H. injection H as <-. constructor; [exact E|].
           now apply IH.
        -- intros H. inversion H; subst. apply IH in H4.
           unfold ok in *. congruence.
Qed.

End LoadFacts.

(** X1.  Loading is all or nothing.  A path that does not exist gives the
    empty list.  When the document is a list, the load returns records
    exactly when every item validates, one record per item in the order of
    the document, and it raises [ValidationError] as soon as one item does
    not validate, whatever the other items are. *)
Theorem load_is_all_or_nothing {RT : PyRuntime} (d : disk) (path : pystr) :
  (d path = None -> _load_data d path = ok [])
  /\ (forall items,
        d path = Some (VList items) ->
        (forall bs,
           _load_data d path = ok bs <->
           Forall2 (fun x b => BookRead.model_validate x = ok b) items bs)
        /\ ((exists x, In x items
                       /\ forall b, BookRead.model_validate x <> ok b) ->
            _load_data d path = raise ValidationError)).
Proof.
  split.
  - intros H. unfold _load_data. now rewrite H.
  - intros items H. unfold _load_data. rewrite H. cbn [py_iter rbind ok].
    split; [intros bs; apply map_r_validate_each|].
    intros (x & Hx & Hbad).
    destruct (map_r BookRead.model_validate items) as [e|bs] eqn:E.
    + now rewrite (map_r_validate_error items e E).
    + exfalso. apply map_r_validate_each in E.
      clear H. induction E as [|y b items bs Hy _ IH]; [contradiction|].
      destruct Hx as [-> | Hx]; [now apply (Hbad b)|auto].
Qed.

(** X1, witness: one record without status makes the load of a document
    of two records fail. *)
Lemma load_is_all_or_nothing_witness :
  _load_data (RT := Fragment.runtime) broken_disk Main.DATA_FILE
  = raise ValidationError.
Proof.
  apply (proj2 (proj2 (load_is_all_or_nothing (RT := Fragment.runtime)
                         broken_disk Main.DATA_FILE)
                  _ eq_refl)).
  eexists. split; [right; left; reflexivity|].
  intros b. vm_compute. discriminate.
Defined.

Section ReloadFacts.
Context {RT : PyRuntime} {RL : PyRuntimeLaws RT}.

(** What [save_data] writes loads back as the books of the object. *)
Lemma load_saved (w : world) :
  Forall well_formed (books (self w)) ->
  Service.init (fs (snd (save_data w))) (file_name (self w)) = ok (self w).
Proof.
  intros Hwf. unfold Service.init, _load_data, save_data. cbn [snd fs].
  rewrite write_same. cbn [py_iter rbind ok].
  rewrite (map_r_validate_dump _ Hwf). cbn [rbind ok].
  now destruct (self w).
Qed.

Lemma init_file_name (d : disk) (path : pystr) (s : LibraryService) :
  Service.init d path = ok s -> file_name s = path.
Proof.
  unfold Service.init.
  destruct (_load_data d path) as [e|bs]; [discriminate|].
  simpl. intros H. now injection H as <-.
Qed.

End ReloadFacts.

(** ** Flushing *)

Section FlushFacts.
Context {RT : PyRuntime}.

(** The two ways [add_book] ends. *)
Lemma add_book_outcome (data : BookCreate.t) (need_save : bool) (rnd : N)
    (w : world) :
  add_book data need_save rnd w = (raise ValidationError, w)
  \/ exists r,
       add_book data need_save rnd w
       = (ok r, snd (when need_save save_data
                       (with_books w (books (self w) ++ [r]))))
       /\ well_formed r
       /\ BookRead.id r = uuid_str (uuid4 rnd).
Proof.
  unfold add_book, bind, lift.
  match goal with
  | |- context [BookRead.model_validate (VDict ?kvs)] =>
    destruct (BookRead.model_validate (VDict kvs)) as [e|r] eqn:E
  end.
  - left. now rewrite (model_validate_error _ e E).
  - right. exists r. pose proof (model_validate_well_formed _ _ E) as Hwf.
    apply model_validate_id in E.
    change (Some (VStr (uuid_str (uuid4 rnd))) = Some (VStr (BookRead.id r)))
      in E.
    injection E as E.
    split; [|split; [exact Hwf | now symmetry]].
    unfold get_books, set_books, ret. now destruct need_save.
Qed.

Lemma delete_book_cases (q : pystr) (need_save : bool) (w : world) :
  delete_book q need_save w = (raise (BookDoesNotExists q), w)
  \/ exists pre r post,
       books (self w) = pre ++ r :: post
       /\ same_id_nocase q r
       /\ (forall b, In b pre -> ~ same_id_nocase q b)
       /\ delete_book q need_save w
          = when need_save save_data (with_books w (pre ++ post)).
Proof.
  destruct (find_book_by_id (self w) q) as [r|] eqn:E.
  - right. apply find_book_by_id_some in E.
    destruct E as (pre & post & Hs & Hr & Hpre).
    exists pre, r, post. repeat split; auto.
    now apply (delete_book_first q need_save w pre post r).
  - left. unfold delete_book. now rewrite E.
Qed.

Lemma update_status_cases (q : pystr) (status : BookStatus)
    (need_save : bool) (w : world) :
  (assign_status q status (books (self w)) = None
   /\ update_status q status need_save w = (raise (BookDoesNotExists q), w))
  \/ exists bs',
       assign_status q status (books (self w)) = Some bs'
       /\ update_status q status need_save w
          = when need_save save_data (with_books w bs').
Proof.
  unfold update_status, bind, get_books, ok. cbv beta iota.
  destruct (assign_status q status (books (self w))) as [bs'|] eqn:E.
  - right. exists bs'. split; [reflexivity|]. now destruct need_save.
  - now left.
Qed.

Lemma when_save_ok (c : bool) (w : world) :
  when c save_data w = (ok tt, snd (when c save_data w)).
Proof. now destruct c. Qed.

Lemma unsaved_files (w : world) (bs : list BookRead.t) :
  fs (snd (when false save_data (with_books w bs))) = fs w.
Proof. reflexivity. Qed.

Context {RL : PyRuntimeLaws RT}.

(** After a flush the file and the object agree. *)
Lemma flushed_in_sync (w : world) (bs : list BookRead.t) :
  Forall well_formed bs ->
  in_sync (snd (when true save_data (with_books w bs))).
Proof.
  intros Hwf. unfold in_sync. cbn [when].
  exact (load_saved (with_books w bs) Hwf).
Qed.

Lemma in_sync_well_formed (w : world) :
  in_sync w -> Forall well_formed (books (self w)).
Proof. apply init_well_formed. Qed.

Lemma add_book_flushed (data : BookCreate.t) (rnd : N) (w w' : world)
    (r : BookRead.t) :
  Forall well_formed (books (self w)) ->
  add_book data true rnd w = (ok r, w') -> in_sync w'.
Proof.
  intros Hwf H.
  destruct (add_book_outcome data true rnd w) as [E | (r' & E & Hr & _)];
    rewrite E in H; [discriminate|].
  injection H as <- <-. apply flushed_in_sync.
  apply Forall_app. split; [exact Hwf | now constructor].
Qed.

Lemma delete_book_flushed (q : pystr) (w w' : world) :
  Forall well_formed (books (self w)) ->
  delete_book q true w = (ok tt, w') -> in_sync w'.
Proof.
  intros Hwf H.
  destruct (delete_book_cases q true w)
    as [E | (pre & r & post & Hs & _ & _ & E)];
    rewrite E in H; [discriminate|].
  rewrite when_save_ok in H. injection H as <-. apply flushed_in_sync.
  rewrite Hs in Hwf. rewrite Forall_app in Hwf |- *.
  destruct Hwf as [Hpre Hpost]. apply Forall_cons_iff in Hpost. tauto.
Qed.

Lemma update_status_flushed (q : pystr) (status : BookStatus)
    (w w' : world) :
  Forall well_formed (books (self w)) ->
  update_status q status true w = (ok tt, w') -> in_sync w'.
Proof.
  intros Hwf H.
  destruct (update_status_cases q status true w)
    as [[_ E] | (bs' & Ha & E)];
    rewrite E in H; [discriminate|].
  rewrite when_save_ok in H. injection H as <-. apply flushed_in_sync.
  eauto using assign_status_well_formed.
Qed.

End FlushFacts.

(** X3.  A change that is flushed reaches the file.  On a store whose
    records meet the schema, after [add_book], [delete_book] or
    [update_status] has returned with [need_save] set, a fresh object built
    on the same path holds exactly the books the object now holds. *)
Theorem flushed_change_reaches_the_file
    {RT : PyRuntime} {RL : PyRuntimeLaws RT} (w : world) :
  Forall well_formed (books (self w)) ->
  (forall data rnd r w',
     add_book data true rnd w = (ok r, w') -> in_sync w')
  /\ (forall q w', delete_book q true w = (ok tt, w') -> in_sync w')
  /\ (forall q status w',
        update_status q status true w = (ok tt, w') -> in_sync w').
Proof.
  intros Hwf. split; [|split].
  - intros data rnd r w'. now apply add_book_flushed.
  - intros q w'. now apply delete_book_flushed.
  - intros q status w'. now apply update_status_flushed.
Qed.

(** X3, witness: the first book of the tests is issued and flushed; a
    fresh object then loads the store with this book issued. *)
Lemma flushed_change_reaches_the_file_witness :
  in_sync (RT := Fragment.runtime)
    (snd (update_status (utf8 "id-1") issued true test_world)).
Proof.
  apply (proj2 (proj2 (flushed_change_reaches_the_file
                         (RT := Fragment.runtime) test_world
                         test_books_well_formed))
           (utf8 "id-1") issued).
  vm_compute. reflexivity.
Defined.



(** ** Searching: edges *)

Section YearFacts.
Context {RT : PyRuntime}.

Lemma filter_r_raises {A} (c : A -> result bool) (e : exn) (x : A)
    (l : list A) :
  (forall y, c y = raise e) -> filter_r c (x :: l) = raise e.
Proof. intros H. simpl. now rewrite H. Qed.

End YearFacts.

(** X5.  [find_books_by_year] converts its argument once per book.  On an
    empty store it returns the empty list for every argument, a
    non-numeric one included.  On a store with at least one book it raises
    [ValueError] for a string that [int] does not read, and [TypeError]
    for [None], a list or a dictionary. *)
Theorem find_books_by_year_conversion_errors {RT : PyRuntime}
    (s : LibraryService) :
  (books s = [] -> forall year, find_books_by_year s year = ok [])
  /\ (books s <> [] ->
      (forall text, int_of_str text = None ->
                    find_books_by_year s (VStr text) = raise ValueError)
      /\ find_books_by_year s VNone = raise TypeError
      /\ (forall items, find_books_by_year s (VList items) = raise TypeError)
      /\ (forall kvs, find_books_by_year s (VDict kvs) = raise TypeError)).
Proof.
  unfold find_books_by_year. split.
  - intros H year. rewrite H. reflexivity.
  - intros Hne. destruct (books s) as [|b bs]; [contradiction|].
    split; [|split; [|split]].
    + intros text H. rewrite filter_r_raises with (e := ValueError);
        [reflexivity|]. intros y. cbn [py_int]. now rewrite H.
    + now rewrite filter_r_raises with (e := TypeError).
    + intros items. now rewrite filter_r_raises with (e := TypeError).
    + intros kvs. now rewrite filter_r_raises with (e := TypeError).
Qed.

(** X5, witness: the year "some year" of the tests, looked up in the store
    of the tests and in an empty store. *)
Lemma find_books_by_year_conversion_errors_witness :
  find_books_by_year (RT := Fragment.runtime) (self test_world)
    (VStr (utf8 "какой-то год")) = raise ValueError
  /\ find_books_by_year (RT := Fragment.runtime) (self empty_world)
       (VStr (utf8 "какой-то год")) = ok [].
Proof.
  split.
  - apply (proj2 (find_books_by_year_conversion_errors
                    (RT := Fragment.runtime) (self test_world))).
    + discriminate.
    + vm_compute. reflexivity.
  - apply (proj1 (find_books_by_year_conversion_errors
                    (RT := Fragment.runtime) (self empty_world))).
    reflexivity.
Defined.

(** X6.  [find_book_by_id] returns nothing exactly when no record of the
    store has the queried id up to the case of letters; otherwise it
    returns the first such record in the order of the store. *)
Theorem find_book_by_id_first_match {RT : PyRuntime}
    (s : LibraryService) (q : pystr) :
  (find_book_by_id s q = None
   <-> forall b, In b (books s) -> ~ same_id_nocase q b)
  /\ (forall r,
        find_book_by_id s q = Some r
        <-> exists pre post,
              books s = pre ++ r :: post /\ same_id_nocase q r
              /\ forall b, In b pre -> ~ same_id_nocase q b).
Proof.
  assert (Hsome : forall r,
            find_book_by_id s q = Some r
            <-> exists pre post,
                  books s = pre ++ r :: post /\ same_id_nocase q r
                  /\ forall b, In b pre -> ~ same_id_nocase q b).
  { intros r. split; [apply find_book_by_id_some|].
    intros (pre & post & Hs & Hr & Hpre).
    now apply (find_book_by_id_first s q pre post r). }
  split; [|exact Hsome]. split; [|apply find_book_by_id_none].
  intros Hnone b Hb Hm.
  apply in_split in Hb. destruct Hb as (l1 & l2 & Hs).
  assert (Hex : exists r, find_book_by_id s q = Some r).
  { unfold find_book_by_id. rewrite Hs. clear Hs Hnone Hsome.
    induction l1 as [|x l1 IH]; simpl.
    - rewrite (proj2 (id_test_nocase q b) Hm). eauto.
    - destruct (str_eqb (lower q) (lower (BookRead.id x))); eauto. }
  destruct Hex as [r Hr]. congruence.
Qed.

(** X6, witness: the id "1" of the tests, which no record has, finds
    nothing. *)
Lemma find_book_by_id_first_match_witness :
  find_book_by_id (RT := Fragment.runtime) (self test_world) (utf8 "1") = None.
Proof.
  apply (proj1 (find_book_by_id_first_match (RT := Fragment.runtime)
                  (self test_world) (utf8 "1"))).
  intros b [<- | [<- | [<- | [<- | []]]]]; vm_compute; discriminate.
Defined.


(** ** Operations in sequence *)

Section SequenceFacts.
Context {RT : PyRuntime}.

Lemma create_returns (t a y : pyval) (need_save : bool) (rnd : N)
    (w w1 : world) (r : BookRead.t) :
  create t a y need_save rnd w = (ok r, w1) ->
  BookRead.id r = uuid_str (uuid4 rnd)
  /\ well_formed r
  /\ books (self w1) = books (self w) ++ [r]
  /\ file_name (self w1) = file_name (self w).
Proof.
  intros H.
  destruct (create_outcome t a y need_save rnd w)
    as [(e & E) | (r' & w' & E & Hid & Hwf & Hbs & Hfn)];
    rewrite E in H; [discriminate|].
  injection H as <- <-. auto.
Qed.

Lemma same_id_nocase_refl (r : BookRead.t) : same_id_nocase (BookRead.id r) r.
Proof. reflexivity. Qed.

Lemma exact_id_same_nocase (q : pystr) (b : BookRead.t) :
  BookRead.id b = q -> same_id_nocase q b.
Proof. unfold same_id_nocase. now intros ->. Qed.

End SequenceFacts.

(** X8.  Adding a book and deleting it by the id that was returned gives
    back the books that were there, provided no book that was there has
    this id, even up to the case of letters. *)
Theorem create_then_delete_restores {RT : PyRuntime}
    (t a y : pyval) (need_save need_save' : bool) (rnd : N)
    (w w1 : world) (r : BookRead.t) :
  create t a y need_save rnd w = (ok r, w1) ->
  (forall b, In b (books (self w)) -> ~ same_id_nocase (BookRead.id r) b) ->
  exists w2,
    delete_book (BookRead.id r) need_save' w1 = (ok tt, w2)
    /\ books (self w2) = books (self w)
    /\ find_book_by_id (self w2) (BookRead.id r) = None.
Proof.
  intros H Hnew. apply create_returns in H.
  destruct H as (_ & _ & Hbs & _).
  rewrite (delete_book_first (BookRead.id r) need_save' w1
             (books (self w)) [] r Hbs (same_id_nocase_refl r) Hnew).
  rewrite app_nil_r.
  exists (snd (when need_save' save_data (with_books w1 (books (self w))))).
  split; [apply when_save_ok|].
  destruct need_save'; (split; [reflexivity|]);
    now apply find_book_by_id_none.
Qed.

Lemma after_add_created :
  create (RT := Fragment.runtime)
    (VStr (utf8 "Книга для удаления")) (VStr (utf8 "Автор"))
    (VInt 1000) false 1 test_world = (ok added_book, after_add).
Proof. vm_compute. reflexivity. Qed.

Lemma added_book_is_new :
  forall b, In b (books (self test_world)) ->
            ~ same_id_nocase (RT := Fragment.runtime) (BookRead.id added_book) b.
Proof.
  intros b [<- | [<- | [<- | [<- | []]]]]; vm_compute; discriminate.
Qed.

(** X8, witness: the test of deletion, on the store of the tests. *)
Lemma create_then_delete_restores_witness :
  exists w2,
    delete_book (RT := Fragment.runtime) (BookRead.id added_book) false
      after_add = (ok tt, w2)
    /\ books (self w2) = books (self test_world)
    /\ find_book_by_id (RT := Fragment.runtime) (self w2)
         (BookRead.id added_book) = None.
Proof.
  exact (create_then_delete_restores (RT := Fragment.runtime)
           _ _ _ false false 1 test_world after_add added_book
           after_add_created added_book_is_new).
Defined.

(** X9.  The id that [create] returns addresses the new record.  Provided
    no book that was there has this id up to the case of letters, a
    [find_book_by_id] with the returned id returns the new record, and an
    [update_status] with it changes the status of the new record and of
    no other. *)
Theorem created_record_is_addressable {RT : PyRuntime}
    (t a y : pyval) (need_save need_save' : bool) (rnd : N)
    (status : BookStatus) (w w1 : world) (r : BookRead.t) :
  create t a y need_save rnd w = (ok r, w1) ->
  (forall b, In b (books (self w)) -> ~ same_id_nocase (BookRead.id r) b) ->
  find_book_by_id (self w1) (BookRead.id r) = Some r
  /\ exists w2,
       update_status (BookRead.id r) status need_save' w1 = (ok tt, w2)
       /\ books (self w2)
          = books (self w) ++ [BookRead.set_status r status].
Proof.
  intros H Hnew. apply create_returns in H.
  destruct H as (_ & _ & Hbs & _). split.
  - now apply (find_book_by_id_first _ _ (books (self w)) [] r).
  - rewrite (update_status_present (BookRead.id r) status need_save' w1
               (books (self w)) [] r Hbs eq_refl).
    + exists (snd (when need_save' save_data
                     (with_books w1 (books (self w)
                                     ++ [BookRead.set_status r status])))).
      split; [apply when_save_ok|]. now destruct need_save'.
    + intros b Hb E. apply (Hnew b Hb). now apply exact_id_same_nocase.
Qed.

(** X9, witness: the tests of the search by id and of the status update,
    with the book added above. *)
Lemma created_record_is_addressable_witness :
  find_book_by_id (RT := Fragment.runtime) (self after_add)
    (BookRead.id added_book) = Some added_book
  /\ exists w2,
       update_status (BookRead.id added_book) issued false after_add
       = (ok tt, w2)
       /\ books (self w2)
          = books (self test_world) ++ [BookRead.set_status added_book issued].
Proof.
  exact (created_record_is_addressable (RT := Fragment.runtime)
           _ _ _ false false 1 issued test_world after_add added_book
           after_add_created added_book_is_new).
Defined.

(** ** Order among equal keys *)

Section StableFacts.
Context {A K : Type} {OK : PyOrd K} {LK : PyOrdLaws K}.
Variable key : A -> K.

Lemma insert_by_same_key (k : K) (x : A) (l : list A) :
  filter (fun z => same_key (key z) k) (insert_by key x l)
  = filter (fun z => same_key (key z) k) (x :: l).
Proof.
  induction l as [|y l IH]; [reflexivity|].
  cbn [insert_by]. destruct (py_lt (key y) (key x)) eqn:E; [|reflexivity].
  cbn [filter] in *. rewrite IH.
  destruct (same_key (key x) k) eqn:Ex; [|reflexivity].
  destruct (same_key (key y) k) eqn:Ey; [|reflexivity].
  exfalso. unfold same_key, py_lt in *.
  destruct (cmp (key x) k) eqn:Cx; try discriminate.
  rewrite (cmp_eq_r (key y) _ _ Cx) in E.
  destruct (cmp (key y) k); discriminate.
Qed.

(** The sort keeps the items of one key in the order of its input. *)
Lemma sorted_same_key (k : K) (l : list A) :
  filter (fun z => same_key (key z) k) (sorted key l)
  = filter (fun z => same_key (key z) k) l.
Proof.
  induction l as [|x l IH]; [reflexivity|].
  cbn [sorted fold_right]. fold (sorted key l).
  rewrite insert_by_same_key. cbn [filter]. now rewrite IH.
Qed.

End StableFacts.

(** X10.  The listings are stable.  Among the records that [list_books],
    [find_books_by_name] and [find_books_by_author] return, those whose
    sort keys compare equal come out in the order in which the store holds
    them. *)
Theorem listings_are_stable {RT : PyRuntime} (s : LibraryService) :
  (forall k,
     filter (fun x => same_key (BookRead.title x, BookRead.author x,
                                BookRead.id x) k) (list_books s)
     = filter (fun x => same_key (BookRead.title x, BookRead.author x,
                                  BookRead.id x) k) (books s))
  /\ (forall name k,
        filter (fun x => same_key (BookRead.title x, BookRead.author x,
                                   BookRead.year x, BookRead.id x) k)
               (find_books_by_name s name)
        = filter (fun x => same_key (BookRead.title x, BookRead.author x,
                                     BookRead.year x, BookRead.id x) k)
            (filter (fun b => contains (lower name)
                                       (lower (BookRead.title b))) (books s)))
  /\ (forall author k,
        filter (fun x => same_key (BookRead.author x, BookRead.title x,
                                   BookRead.year x, BookRead.id x) k)
               (find_books_by_author s author)
        = filter (fun x => same_key (BookRead.author x, BookRead.title x,
                                     BookRead.year x, BookRead.id x) k)
            (filter (fun b => contains (lower author)
                                       (lower (BookRead.author b)))
                    (books s))).
Proof.
  split; [|split]; intros;
    unfold list_books, find_books_by_name, find_books_by_author;
    apply sorted_same_key.
Qed.

Section NeedleFacts.
Context {RT : PyRuntime}.

Lemma contains_empty (hay : pystr) : contains [] hay = true.
Proof. now destruct hay. Qed.

Lemma filter_all {A} (l : list A) : filter (fun _ => true) l = l.
Proof. induction l as [|x l IH]; simpl; congruence. Qed.

End NeedleFacts.

(** X11.  The empty needle matches every record: when the lowercase of
    the empty string is the empty string, [find_books_by_name] and
    [find_books_by_author] called with the empty string return all the
    records of the store. *)
Theorem empty_needle_finds_every_book {RT : PyRuntime} (s : LibraryService) :
  lower [] = [] ->
  Permutation (find_books_by_name s []) (books s)
  /\ Permutation (find_books_by_author s []) (books s).
Proof.
  intros H. unfold find_books_by_name, find_books_by_author. rewrite H.
  split; rewrite sorted_perm.
  - rewrite (filter_ext _ (fun _ => true)); [now rewrite filter_all|].
    intros b. apply contains_empty.
  - rewrite (filter_ext _ (fun _ => true)); [now rewrite filter_all|].
    intros b. apply contains_empty.
Qed.

(** X11, witness: the empty needle on the store of the tests. *)
Lemma empty_needle_finds_every_book_witness :
  Permutation (find_books_by_name (RT := Fragment.runtime) (self test_world) [])
              (books (self test_world)).
Proof.
  exact (proj1 (empty_needle_finds_every_book (RT := Fragment.runtime)
                  (self test_world) eq_refl)).
Defined.

(** ** What validation lets through *)

Section ValidationFacts.
Context {RT : PyRuntime}.

Lemma validate_title_some (v : pyval) (t : pystr) :
  validate_title v = Some t <-> v = VStr t /\ title_format t.
Proof.
  split.
  - destruct v; try discriminate. unfold validate_title.
    destruct (encodable s && (len s <=? max_length)%Z) eqn:E;
      [|discriminate].
    intros Hv. injection Hv as <-. split; [reflexivity|].
    now apply title_check_format.
  - intros [-> H]. now apply validate_title_format.
Qed.

Lemma validate_author_field_some (v : pyval) (a : pystr) :
  validate_author_field v = Some a <-> v = VStr a /\ author_format a.
Proof.
  unfold validate_author_field. split.
  - destruct v; try discriminate. intros H.
    destruct (validate_author_cases s) as [E|E]; rewrite E in H;
      [|discriminate].
    injection H as <-. split; [reflexivity|].
    now apply validate_author_format.
  - intros [-> H]. now apply validate_author_format.
Qed.

Lemma validate_year_some (v : pyval) (y : Z) :
  validate_year v = Some y <-> lax_int v = Some y /\ year_format y.
Proof.
  unfold validate_year, year_format. split.
  - destruct (lax_int v) as [z|]; [|discriminate].
    destruct (Z.leb_spec 0 z); [|discriminate].
    intros Hv. injection Hv as <-. auto.
  - intros [-> H]. destruct (Z.leb_spec 0 y); [reflexivity | lia].
Qed.

Lemma of_value_some (v : pystr) (s : BookStatus) :
  of_value v = Some s <-> v = value s.
Proof.
  split; [|intros ->; apply of_value_value].
  unfold of_value.
  destruct (str_eqb v (value available)) eqn:E1.
  - apply str_eqb_eq in E1. intros H. now injection H as <-.
  - destruct (str_eqb v (value issued)) eqn:E2; [|discriminate].
    apply str_eqb_eq in E2. intros H. now injection H as <-.
Qed.

Lemma validate_status_some (v : pyval) (s : BookStatus) :
  BookRead.validate_status v = Some s <-> v = VStr (value s).
Proof.
  unfold BookRead.validate_status. split.
  - destruct v; try discriminate. intros H. apply of_value_some in H.
    now subst.
  - intros ->. apply of_value_value.
Qed.

Lemma validate_id_some (v : pyval) (i : pystr) :
  BookRead.validate_id v = Some i <-> v = VStr i.
Proof.
  unfold BookRead.validate_id. split.
  - destruct v; try discriminate. intros H. now injection H as <-.
  - now intros ->.
Qed.

Lemma field_some {A} (validate : pyval -> option A) (k : string)
    (kvs : list (pystr * pyval)) (a : A) :
  BookRead.field validate k kvs = Some a
  <-> exists v, dict_get (utf8 k) kvs = Some v /\ validate v = Some a.
Proof.
  unfold BookRead.field. destruct (dict_get (utf8 k) kvs) as [v|].
  - split; [eauto|]. intros (v' & H & Hv). now injection H as ->.
  - split; [discriminate|]. intros (v' & H & _). discriminate.
Qed.

End ValidationFacts.

(** X12.  [BookCreate] lets through the format and nothing else.  The
    constructor returns an object exactly when the title and the author
    are strings that meet their formats and the year is read as a
    non-negative integer; the object then carries these strings unchanged
    and that integer.  In every other case it raises [ValidationError],
    and no other exception. *)
Theorem book_create_accepts_exactly_the_format {RT : PyRuntime}
    (title author year : pyval) :
  (forall data,
     BookCreate.init title author year = ok data
     <-> title = VStr (BookCreate.title data)
         /\ author = VStr (BookCreate.author data)
         /\ lax_int year = Some (BookCreate.year data)
         /\ title_format (BookCreate.title data)
         /\ author_format (BookCreate.author data)
         /\ year_format (BookCreate.year data))
  /\ (forall e, BookCreate.init title author year = inl e ->
                e = ValidationError).
Proof.
  split.
  - intros [t a y]. cbn [BookCreate.title BookCreate.author BookCreate.year].
    unfold BookCreate.init. split.
    + destruct (validate_title title) as [t'|] eqn:Et; [|discriminate].
      destruct (validate_author_field author) as [a'|] eqn:Ea;
        [|discriminate].
      destruct (validate_year year) as [y'|] eqn:Ey; [|discriminate].
      intros H. injection H as <- <- <-.
      apply validate_title_some in Et. apply validate_author_field_some in Ea.
      apply validate_year_some in Ey. tauto.
    + intros (Ht & Ha & Hy & Ft & Fa & Fy).
      rewrite (proj2 (validate_title_some title t) (conj Ht Ft)).
      rewrite (proj2 (validate_author_field_some author a) (conj Ha Fa)).
      now rewrite (proj2 (validate_year_some year y) (conj Hy Fy)).
  - intros e. unfold BookCreate.init, raise.
    destruct (validate_title title), (validate_author_field author),
             (validate_year year); intros H; try discriminate;
      now injection H as <-.
Qed.

(** X12, witness: a book of the tests, its year typed as text, is
    accepted. *)
Lemma book_create_accepts_exactly_the_format_witness :
  BookCreate.init (RT := Fragment.runtime)
    (VStr (utf8 "Реквием")) (VStr (utf8 "Ахматова Анна")) (VStr (utf8 "1963"))
  = ok {| BookCreate.title := utf8 "Реквием";
          BookCreate.author := utf8 "Ахматова Анна";
          BookCreate.year := 1963 |}.
Proof.
  apply (proj1 (book_create_accepts_exactly_the_format
                  (RT := Fragment.runtime)
                  (VStr (utf8 "Реквием")) (VStr (utf8 "Ахматова Анна"))
                  (VStr (utf8 "1963")))).
  cbn [BookCreate.title BookCreate.author BookCreate.year].
  split; [reflexivity|]. split; [reflexivity|].
  split; [vm_compute; reflexivity|].
  split; [apply title_check_format; vm_compute; reflexivity|].
  split; [apply (author_format_by_validator (RT := Fragment.runtime));
          vm_compute; reflexivity|].
  unfold year_format. lia.
Defined.

(** X13.  [BookRead.model_validate] reads a record off a dictionary and
    off nothing else.  It returns a record exactly when its input is a
    dictionary that binds title, author and id to strings, status to the
    text of one of the two statuses and year to a value read as an
    integer, the title, author and year meeting their formats; the record
    carries what the keys bind (the last binding of a key counts), and
    other keys are ignored.  In every other case, a missing key included,
    it raises [ValidationError] and no other exception. *)
Theorem book_read_validates_exactly_the_schema {RT : PyRuntime}
    (obj : pyval) :
  (forall b,
     BookRead.model_validate obj = ok b
     <-> exists kvs year,
           obj = VDict kvs
           /\ dict_get (utf8 "title") kvs = Some (VStr (BookRead.title b))
           /\ dict_get (utf8 "author") kvs = Some (VStr (BookRead.author b))
           /\ dict_get (utf8 "year") kvs = Some year
           /\ lax_int year = Some (BookRead.year b)
           /\ dict_get (utf8 "id") kvs = Some (VStr (BookRead.id b))
           /\ dict_get (utf8 "status") kvs
              = Some (VStr (value (BookRead.status b)))
           /\ well_formed b)
  /\ (forall e, BookRead.model_validate obj = inl e -> e = ValidationError).
Proof.
  split; [|apply model_validate_error].
  intros [t a y i s]. cbn [BookRead.title BookRead.author BookRead.year
                            BookRead.id BookRead.status].
  unfold well_formed. cbn [BookRead.title BookRead.author BookRead.year].
  unfold BookRead.model_validate. split.
  - destruct obj as [| | | |?|kvs]; try discriminate.
    destruct (BookRead.field validate_title "title" kvs) as [t'|] eqn:Et;
      [|discriminate].
    destruct (BookRead.field validate_author_field "author" kvs)
      as [a'|] eqn:Ea; [|discriminate].
    destruct (BookRead.field validate_year "year" kvs) as [y'|] eqn:Ey;
      [|discriminate].
    destruct (BookRead.field BookRead.validate_id "id" kvs) as [i'|] eqn:Ei;
      [|discriminate].
    destruct (BookRead.field BookRead.validate_status "status" kvs)
      as [s'|] eqn:Es; [|discriminate].
    intros H. injection H as <- <- <- <- <-.
    apply field_some in Et, Ea, Ey, Ei, Es.
    destruct Et as (vt & Dt & Vt), Ea as (va & Da & Va),
             Ey as (vy & Dy & Vy), Ei as (vi & Di & Vi),
             Es as (vs & Ds & Vs).
    apply validate_title_some in Vt. apply validate_author_field_some in Va.
    apply validate_year_some in Vy. apply validate_id_some in Vi.
    apply validate_status_some in Vs.
    destruct Vt as [-> Ft], Va as [-> Fa], Vy as [Ly Fy]. subst vi vs.
    exists kvs, vy. tauto.
  - intros (kvs & vy & -> & Dt & Da & Dy & Ly & Di & Ds & Ft & Fa & Fy).
    rewrite (proj2 (field_some validate_title "title" kvs t)).
    2: { exists (VStr t). split; [exact Dt|]. now apply validate_title_some. }
    rewrite (proj2 (field_some validate_author_field "author" kvs a)).
    2: { exists (VStr a). split; [exact Da|].
         now apply validate_author_field_some. }
    rewrite (proj2 (field_some validate_year "year" kvs y)).
    2: { exists vy. split; [exact Dy|]. now apply validate_year_some. }
    rewrite (proj2 (field_some BookRead.validate_id "id" kvs i)).
    2: { exists (VStr i). split; [exact Di|]. reflexivity. }
    rewrite (proj2 (field_some BookRead.validate_status "status" kvs s)).
    2: { exists (VStr (value s)). split; [exact Ds|].
         now apply validate_status_some. }
    reflexivity.
Qed.

(** X13, witness: the dictionary of a dumped record validates to the
    record. *)
Lemma book_read_validates_exactly_the_schema_witness :
  BookRead.model_validate (RT := Fragment.runtime)
    (BookRead.model_dump (book "id-2" "Реквием" "Ахматова Анна" 1963 issued))
  = ok (book "id-2" "Реквием" "Ахматова Анна" 1963 issued).
Proof.
  apply (proj1 (book_read_validates_exactly_the_schema
                  (RT := Fragment.runtime) _)).
  eexists. exists (VInt 1963).
  split; [reflexivity|]. repeat (split; [reflexivity|]).
  apply (well_formed_by_validator (RT := Fragment.runtime));
    vm_compute; reflexivity.
Defined.

(** ** Stores that the operations build *)

Section BuiltFacts.
Context {RT : PyRuntime}.

(** The ids of a store that the operations built are texts of UUIDs. *)
Lemma reachable_ids_uuid (w : world) :
  reachable w ->
  Forall (fun i => exists rnd, i = uuid_str (uuid4 rnd)) (ids w).
Proof.
  induction 1 as [w Hw | w o _ IH Hf].
  - unfold ids. rewrite Hw. constructor.
  - unfold ids in *.
    destruct o as [t a y ns rnd | q ns | q st ns]; cbn [run].
    + destruct (create_outcome t a y ns rnd w)
        as [(e & ->) | (r & w' & -> & Hid & _ & Hbs & _)]; [exact IH|].
      cbn [snd]. rewrite Hbs, map_app. apply Forall_app. split; [exact IH|].
      constructor; [|constructor]. cbn [map]. eauto.
    + destruct (delete_book_outcome q ns w)
        as [-> | (pre & r & post & w' & -> & Hs & Hbs & _)]; [exact IH|].
      cbn [snd]. rewrite Hbs, map_app. rewrite Hs, map_app in IH.
      rewrite Forall_app in IH |- *. destruct IH as [Hpre Hpost].
      cbn [map] in Hpost. apply Forall_cons_iff in Hpost. tauto.
    + destruct (update_status_outcome q st ns w)
        as [-> | (bs' & w' & -> & Ha & Hbs & _)]; [exact IH|].
      cbn [snd]. rewrite Hbs. now rewrite (assign_status_ids _ _ _ _ Ha).
Qed.

Lemma reachable_ids_distinct (w : world) : reachable w -> NoDup (ids w).
Proof.
  induction 1 as [w Hw | w o _ IH Hf].
  - unfold ids. rewrite Hw. constructor.
  - now apply run_keeps_ids_distinct.
Qed.

Lemma folded_ids_of_uuids (w : world) :
  (forall n, lower (uuid_str n) = uuid_str n) ->
  Forall (fun i => exists rnd, i = uuid_str (uuid4 rnd)) (ids w) ->
  folded_ids w = ids w.
Proof.
  intros Hlow. unfold folded_ids, ids.
  induction (books (self w)) as [|b bs IH]; cbn [map]; [reflexivity|].
  intros H. apply Forall_cons_iff in H. destruct H as [(rnd & Hb) Hbs].
  rewrite IH by exact Hbs. f_equal. rewrite Hb. apply Hlow.
Qed.

(** In a store without two ids equal up to case, a deleted id is gone. *)
Lemma deleted_id_is_gone (q : pystr) (need_save : bool) (w w' : world) :
  NoDup (folded_ids w) ->
  delete_book q need_save w = (ok tt, w') ->
  find_book_by_id (self w') q = None.
Proof.
  intros Hnd H.
  destruct (delete_book_cases q need_save w)
    as [E | (pre & r & post & Hs & Hr & Hpre & E)];
    rewrite E in H; [discriminate|].
  rewrite when_save_ok in H. injection H as <-.
  apply find_book_by_id_none.
  assert (Hb : books (self (snd (when need_save save_data
                                   (with_books w (pre ++ post)))))
               = pre ++ post) by now destruct need_save.
  rewrite Hb. intros b Hin Hm.
  unfold folded_ids in Hnd. rewrite Hs, map_app in Hnd. cbn [map] in Hnd.
  apply NoDup_remove_2 in Hnd. apply Hnd. rewrite <- map_app.
  unfold same_id_nocase in Hr, Hm. rewrite Hr, <- Hm.
  now apply (in_map (fun b => lower (BookRead.id b))).
Qed.

End BuiltFacts.

(** X14.  In a store that sequences of create, delete and update
    operations built from an empty one with draws that never repeat an id,
    every id is the text of a drawn UUID.  When lowercasing leaves the
    text of a UUID as it is, the ids of such a store are distinct even up
    to the case of letters, and after [delete_book] has returned a
    [find_book_by_id] with the same id returns nothing. *)
Theorem built_store_forgets_deleted_id {RT : PyRuntime} (w : world) :
  (forall n, lower (uuid_str n) = uuid_str n) ->
  reachable w ->
  Forall (fun i => exists rnd, i = uuid_str (uuid4 rnd)) (ids w)
  /\ NoDup (folded_ids w)
  /\ (forall q need_save w',
        delete_book q need_save w = (ok tt, w') ->
        find_book_by_id (self w') q = None).
Proof.
  intros Hlow Hr.
  pose proof (reachable_ids_uuid w Hr) as Hu.
  assert (Hnd : NoDup (folded_ids w)).
  { rewrite (folded_ids_of_uuids w Hlow Hu).
    now apply reachable_ids_distinct. }
  split; [exact Hu|]. split; [exact Hnd|].
  intros q need_save w'. now apply deleted_id_is_gone.
Qed.

Section FragmentUuid.

Lemma land_15_bound (x : N) : (N.land x 15 < 16)%N.
Proof.
  change 15%N with (N.ones 4). rewrite N.land_ones.
  apply N.mod_lt. discriminate.
Qed.

Lemma lower_hex_digit (x : N) :
  Fragment.lower_char (hex_digit (N.land x 15)) = hex_digit (N.land x 15).
Proof.
  pose proof (land_15_bound x) as H.
  unfold hex_digit. set (d := N.land x 15) in *.
  unfold Fragment.lower_char.
  destruct (N.ltb_spec d 10); rewrite !between_out; auto; lia.
Qed.

Lemma map_fixed {A} (f : A -> A) (l : list A) :
  Forall (fun c => f c = c) l -> map f l = l.
Proof. induction 1; simpl; congruence. Qed.

(** The lowercasing of the fragment leaves the text of a UUID as it is. *)
Lemma fragment_lower_uuid (n : N) :
  lower (PyRuntime := Fragment.runtime) (uuid_str n) = uuid_str n.
Proof.
  cbn [lower Fragment.runtime]. unfold Fragment.lower.
  apply map_fixed. unfold uuid_str, hex32.
  change (utf8 "-") with [45%N].
  cbn [seq map firstn skipn app].
  repeat (apply Forall_cons;
          [first [apply lower_hex_digit | reflexivity]|]).
  apply Forall_nil.
Qed.

End FragmentUuid.

(** X14, witness: after the session above, the book that is left is
    deleted under the upper-case spelling of its id and cannot be found
    under it. *)
Lemma built_store_forgets_deleted_id_witness :
  find_book_by_id (RT := Fragment.runtime)
    (self (snd (delete_book (RT := Fragment.runtime)
                  (utf8 "00000000-0000-4000-8000-00000000000B") true
                  session_world)))
    (utf8 "00000000-0000-4000-8000-00000000000B") = None.
Proof.
  refine (proj2 (proj2 (built_store_forgets_deleted_id
                          (RT := Fragment.runtime) session_world
                          fragment_lower_uuid session_reachable))
            (utf8 "00000000-0000-4000-8000-00000000000B") true _ _).
  vm_compute. reflexivity.
Defined.

(** ** The commands *)

Section CommandFacts.
Context {RT : PyRuntime}.

Lemma status_eqb_issued (s : BookStatus) :
  status_eqb s issued = match s with issued => true | available => false end.
Proof. now destruct s. Qed.

Lemma update_status_first_exact (q : pystr) (status : BookStatus)
    (w : world) (pre post : list BookRead.t) (r : BookRead.t) :
  books (self w) = pre ++ r :: post ->
  BookRead.id r = q ->
  (forall b, In b pre -> BookRead.id b <> q) ->
  update_status q status true w
  = (ok tt, snd (save_data
                   (with_books w (pre ++ BookRead.set_status r status
                                      :: post)))).
Proof.
  intros Hs Hr Hpre.
  now rewrite (update_status_present q status true w pre post r Hs Hr Hpre).
Qed.

End CommandFacts.









(** X20.  One malformed record stops every command: when the data file is
    a list in which one item does not validate, every run of [add],
    [delete], [get] or [return_book] raises [ValidationError], prints
    nothing and writes nothing. *)
Theorem malformed_file_stops_every_command {RT : PyRuntime}
    (c : Main.command) (d : disk) (items : list pyval) :
  d Main.DATA_FILE = Some (VList items) ->
  (exists x, In x items /\ forall b, BookRead.model_validate x <> ok b) ->
  Main.invoke c d = raise ValidationError.
Proof.
  intros Hd (x & Hx & Hbad).
  unfold Main.invoke, Main.cli, Service.init, _load_data. rewrite Hd.
  cbn [py_iter rbind ok].
  destruct (map_r BookRead.model_validate items) as [e|bs] eqn:E.
  - now rewrite (map_r_validate_error items e E).
  - exfalso. apply map_r_validate_each in E. clear Hd.
    induction E as [|y b items bs Hy _ IH]; [contradiction|].
    destruct Hx as [-> | Hx]; [now apply (Hbad b)|auto].
Qed.

(** X20, witness: the command [get] on the disk with the broken
    document. *)
Lemma malformed_file_stops_every_command_witness :
  Main.invoke (RT := Fragment.runtime)
    (Main.get (RT := Fragment.runtime) (utf8 "id-1")) broken_disk
  = raise ValidationError.
Proof.
  apply (malformed_file_stops_every_command (RT := Fragment.runtime)
           (Main.get (RT := Fragment.runtime) (utf8 "id-1")) broken_disk
           [ BookRead.model_dump
               (book "id-1" "Реквием" "Ахматова Анна" 1963 available);
             VDict [ (utf8 "id", VStr (utf8 "id-2"));
                     (utf8 "title", VStr (utf8 "1984"));
                     (utf8 "author", VStr (utf8 "George Orwell"));
                     (utf8 "year", VInt 1949) ] ]).
  - reflexivity.
  - eexists. split; [right; left; reflexivity|].
    intros b. vm_compute. discriminate.
Defined.


